(** * HomeBrew diagnostic scripts: a shallow embedding and its properties

    The development follows the four Python scripts of the repository:

    - [scan_celestron.py]                the /24 sweep for hosts with port 2000 open
    - [diagnose_homebrew.py]             serial-port enumeration and the keyword heuristic
    - [python_scripts/wifi_bt_gps_test.py]   the WiFi/BT/GPS/USB command battery and its JSON report
    - [python_scripts/telescope_comm.py]     the Celestron mount session

    Python values are modelled as the scripts use them: a [str] is a list of
    Unicode code points, a [bytes] object is a list of 8-bit characters, a
    [dict] is an insertion-ordered association list with unique keys.  Calls
    into the socket, serial, telnet and clock libraries are operations of a
    world state that return a value or raise; the scripts' own [try]/[except]
    blocks are written out with an explicit handler.  Console output
    ([print], [sys.stdout.write]) is not part of the model. *)

From Stdlib Require Import List NArith ZArith Ascii String DecimalString.
From Stdlib Require Import Bool Lia Permutation Sorted.
From Stdlib Require DecimalN DecimalPos.
Import ListNotations.

Set Implicit Arguments.
Open Scope N_scope.

(** ** Python text and bytes *)

Module Py.

(** A Python [str]: the sequence of its code points. *)
Definition str := list N.

(** A Python [bytes] object. *)
Definition bytes := list ascii.

(** An ASCII literal of the source as a [str]. *)
Definition U (s : string) : str := map N_of_ascii (list_ascii_of_string s).

(** An ASCII literal of the source as [bytes]. *)
Definition B (s : string) : bytes := list_ascii_of_string s.

(** [f"{i}"] for a non-negative integer: its decimal digits. *)
Definition str_of_N (i : N) : str := U (NilZero.string_of_uint (N.to_uint i)).

(** Decimal text read back, digit by digit from the left: the number that
    [int] makes of a string of ASCII digits.  It is written independently of
    [str_of_N], to state what the digits of [f"{i}"] are. *)
Fixpoint decimal_from (acc : N) (s : str) : option N :=
  match s with
  | [] => Some acc
  | c :: rest =>
      if (48 <=? c) && (c <=? 57) then decimal_from (10 * acc + (c - 48)) rest
      else None
  end.

Definition decimal_value (s : str) : option N :=
  match s with
  | [] => None
  | _ :: _ => decimal_from 0 s
  end.

(** Decimal text as Python prints a non-negative integer: not empty, and
    with no leading zero but for the one digit of zero itself. *)
Definition canonical_decimal (s : str) : bool :=
  match s with
  | [] => false
  | [_] => true
  | c :: _ :: _ => negb (c =? 48)
  end.

(** [range(lo, hi)] over non-negative integers. *)
Definition range (lo hi : nat) : list N := map N.of_nat (seq lo (hi - lo)%nat).

(** ["\r\n"] *)
Definition crlf : str := [13; 10].

(** Equality of two [str]: the same code points in the same order. *)
Fixpoint str_eqb (a b : str) : bool :=
  match a, b with
  | [], [] => true
  | x :: a', y :: b' => N.eqb x y && str_eqb a' b'
  | _, _ => false
  end.

(** [s.startswith(prefix)] *)
Fixpoint startswith (s prefix : str) : bool :=
  match prefix, s with
  | [], _ => true
  | p :: prefix', c :: s' => N.eqb p c && startswith s' prefix'
  | _ :: _, [] => false
  end.

(** [needle in hay] for two [str]: [needle] occurs as a substring. *)
Fixpoint contains (needle hay : str) : bool :=
  startswith hay needle
  || match hay with
     | [] => false
     | _ :: hay' => contains needle hay'
     end.

(** What [needle in hay] means: [hay] is some text, then [needle], then
    some text.  [contains] is the search that decides it. *)
Definition occurs (needle hay : str) : Prop :=
  exists pre post : str, hay = pre ++ needle ++ post.

(** [s.isascii()]: every code point is below 128. *)
Definition isascii (s : str) : bool := forallb (fun c => c <? 128) s.

(** The code points [str.strip()] removes: those Python counts as whitespace. *)
Definition isspace (c : N) : bool :=
  ((9 <=? c) && (c <=? 13)) || ((28 <=? c) && (c <=? 32))
  || (c =? 133) || (c =? 160) || (c =? 5760)
  || ((8192 <=? c) && (c <=? 8202))
  || (c =? 8232) || (c =? 8233) || (c =? 8239) || (c =? 8287) || (c =? 12288).

Fixpoint lstrip (s : str) : str :=
  match s with
  | [] => []
  | c :: s' => if isspace c then lstrip s' else s
  end.

Definition rstrip (s : str) : str := rev (lstrip (rev s)).

(** [s.strip()] *)
Definition strip (s : str) : str := rstrip (lstrip s).

(** Truth value of a [str]: non-empty. *)
Definition truthy (s : str) : bool :=
  match s with [] => false | _ :: _ => true end.

(** [d[k] = v] on an insertion-ordered dictionary: an existing key keeps
    its place and takes the new value, a new key goes last. *)
Fixpoint dict_set (V : Type) (d : list (str * V)) (k : str) (v : V) : list (str * V) :=
  match d with
  | [] => [(k, v)]
  | (k', v') :: d' =>
      if str_eqb k' k then (k', v) :: d' else (k', v') :: dict_set d' k v
  end.

(** [dict(pairs)] *)
Definition dict_of_pairs (V : Type) (pairs : list (str * V)) : list (str * V) :=
  fold_left (fun d kv => dict_set d (fst kv) (snd kv)) pairs [].

(** [d.get(k)] *)
Fixpoint dict_get (V : Type) (d : list (str * V)) (k : str) : option V :=
  match d with
  | [] => None
  | (k', v') :: d' => if str_eqb k' k then Some v' else dict_get d' k
  end.

Lemma str_eqb_refl (s : str) : str_eqb s s = true.
Proof.
  induction s as [|c s IH]; cbn; [reflexivity|]. now rewrite N.eqb_refl, IH.
Qed.

Lemma dict_get_set (V : Type) (d : list (str * V)) (k : str) (v : V) :
  dict_get (dict_set d k v) k = Some v.
Proof.
  induction d as [|[k' v'] d IH]; cbn.
  - now rewrite str_eqb_refl.
  - destruct (str_eqb k' k) eqn:E; cbn; rewrite E; [reflexivity | exact IH].
Qed.

(** Exceptions raised by library calls.  Every value stands for an instance
    of Python's [Exception]: an [OSError] of the socket or serial layer, the
    socket's timeout, a codec error, an attribute or type error.  [exn_msg] is
    what [str(e)] yields.  Interrupts coming from the user ([KeyboardInterrupt])
    are not the behaviour of a transport and have no value here. *)
Inductive exn_class : Type :=
| OSError | SocketTimeout | UnicodeError | AttributeError | TypeError | ValueError.

Record exn : Type := Exn { exn_cls : exn_class; exn_msg : str }.

Definition timed_out : exn := Exn SocketTimeout (U "timed out").

(** The outcome of a call: a value or a raised exception. *)
Inductive res (A : Type) : Type :=
| Ret (a : A)
| Raise (e : exn).
Arguments Ret {A} a.
Arguments Raise {A} e.

(** Computations over a world state [W]. *)
Definition M (W A : Type) : Type := W -> res A * W.

Definition ret {W A} (a : A) : M W A := fun w => (Ret a, w).

Definition raise {W A} (e : exn) : M W A := fun w => (Raise e, w).

Definition bind {W A B} (m : M W A) (k : A -> M W B) : M W B :=
  fun w => match m w with
           | (Ret a, w') => k a w'
           | (Raise e, w') => (Raise e, w')
           end.

(** [try: body / except Exception as e: handler(e)]; with the exceptions of
    this model a bare [except:] catches the same. *)
Definition try_except {W A} (body : M W A) (handler : exn -> M W A) : M W A :=
  fun w => match body w with
           | (Ret a, w') => (Ret a, w')
           | (Raise e, w') => handler e w'
           end.

(** A library call that cannot raise, as a computation. *)
Definition lift {W A} (f : W -> A * W) : M W A :=
  fun w => let (a, w') := f w in (Ret a, w').

Definition effect {W} (f : W -> W) : M W unit := fun w => (Ret tt, f w).

(** Methods of an object: the state is the object [self] and the world. *)
Definition get_self {S W} : M (S * W) S := fun st => (Ret (fst st), st).

Definition set_self {S W} (f : S -> S) : M (S * W) unit :=
  fun st => (Ret tt, (f (fst st), snd st)).

Definition io {S W A} (m : M W A) : M (S * W) A :=
  fun st => let (r, w') := m (snd st) in (r, (fst st, w')).

(** *** Codecs *)

(** A Unicode scalar value: a code point up to [0x10FFFF] that is not a
    surrogate. *)
Definition is_scalar (c : N) : bool :=
  (c <? 55296) || ((57344 <=? c) && (c <? 1114112)).

Definition continuation (b : N) : bool := (128 <=? b) && (b <=? 191).

(** [bytes.decode()] with the default codec [utf-8] and strict errors:
    [None] stands for a [UnicodeDecodeError].  A sequence is accepted when it
    is well formed, has the shortest form of its code point, and the code
    point is a scalar value. *)
Fixpoint utf8_decode (bs : bytes) : option str :=
  match bs with
  | [] => Some []
  | b0 :: r0 =>
      let n0 := N_of_ascii b0 in
      if n0 <? 128 then option_map (cons n0) (utf8_decode r0)
      else if (194 <=? n0) && (n0 <=? 223) then
        match r0 with
        | b1 :: r1 =>
            let n1 := N_of_ascii b1 in
            if continuation n1
            then option_map (cons ((n0 - 192) * 64 + (n1 - 128))) (utf8_decode r1)
            else None
        | _ => None
        end
      else if (224 <=? n0) && (n0 <=? 239) then
        match r0 with
        | b1 :: b2 :: r2 =>
            let n1 := N_of_ascii b1 in
            let n2 := N_of_ascii b2 in
            let c := ((n0 - 224) * 64 + (n1 - 128)) * 64 + (n2 - 128) in
            if continuation n1 && continuation n2 && (2048 <=? c) && is_scalar c
            then option_map (cons c) (utf8_decode r2)
            else None
        | _ => None
        end
      else if (240 <=? n0) && (n0 <=? 244) then
        match r0 with
        | b1 :: b2 :: b3 :: r3 =>
            let n1 := N_of_ascii b1 in
            let n2 := N_of_ascii b2 in
            let n3 := N_of_ascii b3 in
            let c := (((n0 - 240) * 64 + (n1 - 128)) * 64 + (n2 - 128)) * 64 + (n3 - 128) in
            if continuation n1 && continuation n2 && continuation n3
               && (65536 <=? c) && is_scalar c
            then option_map (cons c) (utf8_decode r3)
            else None
        | _ => None
        end
      else None
  end.

(** The [utf-8] encoding of one code point; [None] for a surrogate or a
    value that is no code point. *)
Definition utf8_encode_char (c : N) : option bytes :=
  if c <? 128 then Some [ascii_of_N c]
  else if c <? 2048 then
    Some [ascii_of_N (192 + c / 64); ascii_of_N (128 + c mod 64)]
  else if c <? 65536 then
    if is_scalar c
    then Some [ascii_of_N (224 + c / 4096); ascii_of_N (128 + c / 64 mod 64);
               ascii_of_N (128 + c mod 64)]
    else None
  else if c <? 1114112 then
    Some [ascii_of_N (240 + c / 262144); ascii_of_N (128 + c / 4096 mod 64);
          ascii_of_N (128 + c / 64 mod 64); ascii_of_N (128 + c mod 64)]
  else None.

(** [str.encode()] with the default codec [utf-8]: [None] stands for a
    [UnicodeEncodeError]. *)
Fixpoint utf8_encode (s : str) : option bytes :=
  match s with
  | [] => Some []
  | c :: s' =>
      match utf8_encode_char c, utf8_encode s' with
      | Some b, Some bs => Some (b ++ bs)
      | _, _ => None
      end
  end.

(** [str.encode('ascii')] *)
Fixpoint ascii_encode (s : str) : option bytes :=
  match s with
  | [] => Some []
  | c :: s' =>
      if c <? 128 then option_map (cons (ascii_of_N c)) (ascii_encode s') else None
  end.

(** [bytes.decode('ascii')] *)
Fixpoint ascii_decode (bs : bytes) : option str :=
  match bs with
  | [] => Some []
  | b :: bs' =>
      if N_of_ascii b <? 128 then option_map (cons (N_of_ascii b)) (ascii_decode bs')
      else None
  end.

(** A text of Unicode scalar values: no surrogate code point, nothing
    above [0x10FFFF].  This is what a strict decoder produces. *)
Definition text_ok (s : str) : Prop := Forall (fun c => is_scalar c = true) s.

(** A codec call inside a computation: the result, or the codec's error. *)
Definition codec {W A} (r : option A) (err : exn) : M W A :=
  match r with
  | Some a => ret a
  | None => raise err
  end.

End Py.

Import Py.

Declare Scope py_scope.
Delimit Scope py_scope with py.
Notation "x <- m ;; k" := (bind m (fun x => k))
  (at level 61, m at next level, right associativity) : py_scope.
Notation "m ;; k" := (bind m (fun _ => k))
  (at level 61, right associativity) : py_scope.
Open Scope py_scope.

(** ** scan_celestron.py *)

Module ScanCelestron.

(** The part of Python's [socket] module the scanner calls.  Durations are in
    milliseconds ([0.5] seconds is [500]).  [connect_ex] returns the C-level
    error indicator ([0] on success) and may still raise for other problems;
    [close] releases the descriptor and has no failure outcome. *)
Class SocketLib (W sock : Type) : Type := {
  socket_socket : M W sock;
  settimeout : sock -> N -> M W unit;
  connect_ex : sock -> str -> N -> M W Z;
  close : sock -> W -> W
}.

Section Scan.
Context {W sock : Type} `{SocketLib W sock}.

(** [scan_port(ip, port=2000, timeout=0.5)] *)
Definition scan_port (ip : str) (port : N) (timeout : N) : M W bool :=
  try_except
    (s <- socket_socket ;;
     settimeout s timeout ;;
     result <- connect_ex s ip port ;;
     effect (close s) ;;
     ret (Z.eqb result 0))
    (fun _ => ret false).

(** The connect attempt of [scan_port]: the statements of its [try] body up
    to and including [s.connect_ex((ip, port))]. *)
Definition connect_attempt (ip : str) (port : N) (timeout : N) : M W Z :=
  s <- socket_socket ;;
  settimeout s timeout ;;
  connect_ex s ip port.

(** [f"192.168.68.{i}"] *)
Definition ip_of (i : N) : str := U "192.168.68." ++ str_of_N i.

(** The body of [for i in range(1, 255)], over the remaining values of [i];
    [found] is the list the loop appends to. *)
Fixpoint sweep_loop (suffixes : list N) (found : list str) : M W (list str) :=
  match suffixes with
  | [] => ret found
  | i :: rest =>
      let ip := ip_of i in
      hit <- scan_port ip 2000 500 ;;
      if hit then sweep_loop rest (found ++ [ip])
      else sweep_loop rest found
  end.

(** The module-level sweep: [found = []] and the loop over [range(1, 255)]. *)
Definition sweep : M W (list str) := sweep_loop (range 1 255) [].

End Scan.

(** A network given by a connectivity oracle: the outcome of a connect attempt
    depends on the address alone.  The world records every address a connect
    was attempted on, in order. *)
Record OracleNet : Type := {
  verdict : str -> res Z;
  probes : list str
}.

Definition accepts (net : OracleNet) (ip : str) : bool :=
  match verdict net ip with
  | Ret code => Z.eqb code 0
  | Raise _ => false
  end.

#[export] Instance oracle_socket : SocketLib OracleNet unit := {
  socket_socket := ret tt;
  settimeout := fun _ _ => ret tt;
  connect_ex := fun _ ip _ =>
    fun net => (verdict net ip, {| verdict := verdict net; probes := probes net ++ [ip] |});
  close := fun _ net => net
}.

End ScanCelestron.

(** ** diagnose_homebrew.py *)

Module DiagnoseHomebrew.

(** A port descriptor as pyserial's [comports()] yields it.  [description]
    and [hwid] are strings (['n/a'] when unknown); [manufacturer] may be
    [None]. *)
Record port_info : Type := {
  device : str;
  description : str;
  hwid : str;
  manufacturer : option str
}.

(** [list_com_ports()]: [comports] is what the operating system enumerates.
    An empty enumeration makes the function return [None]. *)
Definition list_com_ports (comports : list port_info) : option (list port_info) :=
  match comports with
  | [] => None
  | _ :: _ => Some comports
  end.

Section Detect.

(** Python's [str.lower]; the development holds for every such function. *)
Variable lower : str -> str.

(** [keywords] of [detect_homebrew_port] *)
Definition keywords : list str :=
  [U "CH340"; U "CP210"; U "FTDI"; U "USB-SERIAL"; U "ESP32"; U "Arduino"].

(** The condition of the [if] in the inner loop; [str(port.hwid)] is
    [port.hwid] for a string. *)
Definition keyword_hit (keyword : str) (port : port_info) : bool :=
  contains (lower keyword) (lower (description port))
  || contains (lower keyword) (lower (hwid port)).

(** [for keyword in keywords]: [Some d] when the loop returns [d], [None]
    when it runs to its end. *)
Fixpoint keyword_loop (kws : list str) (port : port_info) : option str :=
  match kws with
  | [] => None
  | keyword :: kws' =>
      if keyword_hit keyword port then Some (device port)
      else keyword_loop kws' port
  end.

(** [for port in ports], with the keyword list as a parameter. *)
Fixpoint port_loop (kws : list str) (ports : list port_info) : option str :=
  match ports with
  | [] => None
  | port :: ports' =>
      match keyword_loop kws port with
      | Some d => Some d
      | None => port_loop kws ports'
      end
  end.

(** [detect_homebrew_port(ports)].  The argument is what the caller passes:
    a list of descriptors, or [None], over which the [for] statement raises
    a [TypeError]. *)
Definition detect_homebrew_port (ports : option (list port_info)) : res (option str) :=
  match ports with
  | None => Raise (Exn TypeError (U "'NoneType' object is not iterable"))
  | Some l => Ret (port_loop keywords l)
  end.

(** [main()] up to the assignment of [homebrew_port]: [None] when [main]
    returns at the [if not ports] guard, otherwise the value assigned. *)
Definition main_autodetect (comports : list port_info) : res (option (option str)) :=
  match list_com_ports comports with
  | None => Ret None
  | Some [] => Ret None
  | Some ports =>
      match detect_homebrew_port (Some ports) with
      | Ret homebrew_port => Ret (Some homebrew_port)
      | Raise e => Raise e
      end
  end.

End Detect.

(** [str.lower] on ASCII text: the letters [A] to [Z] become [a] to [z],
    every other code point stays.  Python's [str.lower] is this function on
    a string of ASCII code points only; on other text it also changes
    letters outside ASCII, which this function leaves as they are. *)
Definition ascii_lower (s : str) : str :=
  map (fun c => if (65 <=? c) && (c <=? 90) then c + 32 else c) s.

(** [str.upper] on ASCII text, in the same way. *)
Definition ascii_upper (s : str) : str :=
  map (fun c => if (97 <=? c) && (c <=? 122) then c - 32 else c) s.

(** The match of the docstring, in words of substrings and with the
    keywords spelled out: some keyword, lower-cased, occurs in the
    lower-cased description or in the lower-cased hardware ID. *)
Definition names_chip (lower : str -> str) (p : port_info) : Prop :=
  exists k : str,
    In k [U "CH340"; U "CP210"; U "FTDI"; U "USB-SERIAL"; U "ESP32"; U "Arduino"]
    /\ (occurs (lower k) (lower (description p))
        \/ occurs (lower k) (lower (hwid p))).

(** A descriptor whose description and hardware ID are ASCII text. *)
Definition ascii_port (p : port_info) : bool :=
  isascii (description p) && isascii (hwid p).

(** Two descriptors that differ at most in the letter case of their
    description and hardware ID, as [lower] sees it. *)
Definition same_modulo_case (lower : str -> str) (p q : port_info) : Prop :=
  device p = device q
  /\ lower (description p) = lower (description q)
  /\ lower (hwid p) = lower (hwid q).

(** A descriptor with its description and hardware ID in upper case. *)
Definition shout (p : port_info) : port_info :=
  {| device := device p;
     description := ascii_upper (description p);
     hwid := ascii_upper (hwid p);
     manufacturer := manufacturer p |}.

End DiagnoseHomebrew.

(** ** The [json] module, as far as the report uses it

    [json.dump(obj, f, indent=2)] of a dictionary whose values are strings
    or dictionaries of strings, with the defaults [ensure_ascii=True] and
    separators [","] and [": "]; and [json.load], for the values such a
    file holds. *)

Module Json.

#[warnings="-register-all"]
Inductive value : Type :=
| JString (s : str)
| JObject (members : list (str * value)).

(** *** Encoding *)

(** One lower-case hexadecimal digit. *)
Definition hex_digit (d : N) : N := if d <? 10 then 48 + d else 87 + d.

(** ['{0:04x}'.format(n)] *)
Definition hex4 (n : N) : str :=
  [hex_digit (n / 4096 mod 16); hex_digit (n / 256 mod 16);
   hex_digit (n / 16 mod 16); hex_digit (n mod 16)].

(** ['\\u{0:04x}'.format(n)] *)
Definition u_escape (n : N) : str := [92; 117] ++ hex4 n.

(** The replacement of one code point in [py_encode_basestring_ascii]:
    the short escapes of [ESCAPE_DCT], printable ASCII unchanged, a
    [\uXXXX] escape below [0x10000] and a surrogate pair above. *)
Definition escape_char (c : N) : str :=
  if c =? 34 then [92; 34]
  else if c =? 92 then [92; 92]
  else if c =? 10 then [92; 110]
  else if c =? 13 then [92; 114]
  else if c =? 9 then [92; 116]
  else if c =? 12 then [92; 102]
  else if c =? 8 then [92; 98]
  else if (32 <=? c) && (c <=? 126) then [c]
  else if c <? 65536 then u_escape c
  else
    let n := c - 65536 in
    u_escape (N.lor 55296 (N.land (N.shiftr n 10) 1023))
    ++ u_escape (N.lor 56320 (N.land n 1023)).

(** The encoder of a string: the escaped text between double quotes. *)
Definition encode_string (s : str) : str :=
  [34] ++ flat_map escape_char s ++ [34].

(** ['\n' + ' ' * (2 * level)] *)
Definition newline_indent (level : nat) : str := 10 :: repeat 32 (2 * level)%nat.

(** [_iterencode] at indentation [level]: a string, the empty dictionary
    [{}], or the members one per line, the first after the opening brace and
    each later one after [","], every line indented by two spaces per level. *)
Fixpoint encode (level : nat) (v : value) : str :=
  match v with
  | JString s => encode_string s
  | JObject [] => [123; 125]
  | JObject ((k0, v0) :: rest) =>
      [123] ++ newline_indent (S level)
      ++ encode_string k0 ++ [58; 32] ++ encode (S level) v0
      ++ flat_map (fun m => match m with
                            | (k, x) =>
                                [44] ++ newline_indent (S level)
                                ++ encode_string k ++ [58; 32] ++ encode (S level) x
                            end) rest
      ++ newline_indent level ++ [125]
  end.

(** [json.dumps(v, indent=2)] *)
Definition dumps (v : value) : str := encode 0 v.

(** *** Decoding *)

(** JSON whitespace: space, tab, line feed, carriage return. *)
Definition is_ws (c : N) : bool := (c =? 32) || (c =? 9) || (c =? 10) || (c =? 13).

Fixpoint skip_ws (s : str) : str :=
  match s with
  | [] => []
  | c :: s' => if is_ws c then skip_ws s' else s
  end.

Definition hex_value (c : N) : option N :=
  if (48 <=? c) && (c <=? 57) then Some (c - 48)
  else if (97 <=? c) && (c <=? 102) then Some (c - 87)
  else if (65 <=? c) && (c <=? 70) then Some (c - 55)
  else None.

(** [_decode_uXXXX]: the four hexadecimal digits after [\u]. *)
Definition decode_uXXXX (s : str) : option (N * str) :=
  match s with
  | a :: b :: c :: d :: rest =>
      match hex_value a, hex_value b, hex_value c, hex_value d with
      | Some x3, Some x2, Some x1, Some x0 =>
          Some (((x3 * 16 + x2) * 16 + x1) * 16 + x0, rest)
      | _, _, _, _ => None
      end
  | _ => None
  end.

(** The [BACKSLASH] table of the decoder. *)
Definition backslash (esc : N) : option N :=
  if esc =? 34 then Some 34
  else if esc =? 92 then Some 92
  else if esc =? 47 then Some 47
  else if esc =? 98 then Some 8
  else if esc =? 102 then Some 12
  else if esc =? 110 then Some 10
  else if esc =? 114 then Some 13
  else if esc =? 116 then Some 9
  else None.

(** [py_scanstring] in strict mode, from the character after the opening
    quote: the decoded string and the text after the closing quote.  [acc]
    holds the characters decoded so far, last first.  A [\uXXXX] escape in
    the high-surrogate range that is followed by a [\uXXXX] escape in the
    low-surrogate range decodes to one code point. *)
Fixpoint scanstring (fuel : nat) (s : str) (acc : str) : option (str * str) :=
  match fuel with
  | O => None
  | S fuel' =>
      match s with
      | [] => None
      | c :: s1 =>
          if c =? 34 then Some (rev acc, s1)
          else if c =? 92 then
            match s1 with
            | [] => None
            | esc :: s2 =>
                if esc =? 117 then
                  match decode_uXXXX s2 with
                  | None => None
                  | Some (uni, s3) =>
                      if (55296 <=? uni) && (uni <=? 56319) then
                        match s3 with
                        | b :: u :: s4 =>
                            if (b =? 92) && (u =? 117) then
                              match decode_uXXXX s4 with
                              | None => None
                              | Some (uni2, s5) =>
                                  if (56320 <=? uni2) && (uni2 <=? 57343) then
                                    scanstring fuel' s5
                                      ((65536 + N.lor (N.shiftl (uni - 55296) 10) (uni2 - 56320)) :: acc)
                                  else scanstring fuel' s3 (uni :: acc)
                              end
                            else scanstring fuel' s3 (uni :: acc)
                        | _ => scanstring fuel' s3 (uni :: acc)
                        end
                      else scanstring fuel' s3 (uni :: acc)
                  end
                else
                  match backslash esc with
                  | None => None
                  | Some ch => scanstring fuel' s2 (ch :: acc)
                  end
            end
          else if c <? 32 then None
          else scanstring fuel' s1 (c :: acc)
      end
  end.

(** [scan_once] and [JSONObject].  A value starts with a quote (a string)
    or a brace (an object); arrays, numbers and literals are not values of
    this model and are refused.  [object_members] runs the loop of
    [JSONObject] from the character after the opening quote of a key;
    [pairs] holds the members read so far, last first. *)
Fixpoint scan_once (fuel : nat) (s : str) : option (value * str) :=
  match fuel with
  | O => None
  | S fuel' =>
      match s with
      | [] => None
      | c :: s1 =>
          if c =? 34 then
            match scanstring (List.length s1) s1 [] with
            | Some (t, rest) => Some (JString t, rest)
            | None => None
            end
          else if c =? 123 then
            match skip_ws s1 with
            | [] => None
            | c2 :: s2 =>
                if c2 =? 125 then Some (JObject [], s2)
                else if c2 =? 34 then object_members fuel' s2 []
                else None
            end
          else None
      end
  end

with object_members (fuel : nat) (s : str) (pairs : list (str * value))
  : option (value * str) :=
  match fuel with
  | O => None
  | S fuel' =>
      match scanstring (List.length s) s [] with
      | None => None
      | Some (key, s1) =>
          match skip_ws s1 with
          | [] => None
          | colon :: s2 =>
              if colon =? 58 then
                match scan_once fuel' (skip_ws s2) with
                | None => None
                | Some (v, s3) =>
                    match skip_ws s3 with
                    | [] => None
                    | next :: s4 =>
                        if next =? 125 then
                          Some (JObject (dict_of_pairs (rev ((key, v) :: pairs))), s4)
                        else if next =? 44 then
                          match skip_ws s4 with
                          | [] => None
                          | q :: s5 =>
                              if q =? 34 then object_members fuel' s5 ((key, v) :: pairs)
                              else None
                          end
                        else None
                    end
                end
              else None
          end
      end
  end.

(** [json.loads(s)]: one value, with whitespace allowed around it; [None]
    stands for a [JSONDecodeError]. *)
Definition loads (s : str) : option value :=
  match scan_once (S (List.length s)) (skip_ws s) with
  | Some (v, rest) =>
      match skip_ws rest with
      | [] => Some v
      | _ :: _ => None
      end
  | None => None
  end.

(** *** Well-formed values *)

(** A dictionary has each key once; all its texts are well formed. *)
Fixpoint value_ok (v : value) : Prop :=
  match v with
  | JString s => text_ok s
  | JObject members =>
      NoDup (map fst members)
      /\ (fix all (ms : list (str * value)) : Prop :=
            match ms with
            | [] => True
            | (k, x) :: ms' => text_ok k /\ value_ok x /\ all ms'
            end) members
  end.

Definition members_ok (ms : list (str * value)) : Prop :=
  Forall (fun m => text_ok (fst m) /\ value_ok (snd m)) ms.

(** The text of the members after the first. *)
Definition later_members (level : nat) (ms : list (str * value)) : str :=
  flat_map (fun m => match m with
                     | (k, x) =>
                         [44] ++ newline_indent (S level)
                         ++ encode_string k ++ [58; 32] ++ encode (S level) x
                     end) ms.

(** The depth of calls [scan_once] makes on the encoding of a value. *)
Fixpoint need (v : value) : nat :=
  match v with
  | JString _ => 1
  | JObject members =>
      S ((fix sum (ms : list (str * value)) : nat :=
            match ms with
            | [] => O
            | (_, x) :: ms' => S (need x + sum ms')
            end) members)
  end.

Definition members_need (ms : list (str * value)) : nat :=
  fold_right (fun m acc => S (need (snd m) + acc)) O ms.

End Json.

(** ** python_scripts/wifi_bt_gps_test.py *)

Module WifiBtGpsTest.

Import Json.

(** The mapping a test suite returns: command name to response text. *)
Definition tests := list (str * str).

(** A value of [self.test_results]: a suite's mapping, or a string. *)
Inductive entry : Type :=
| Mapping (t : tests)
| Text (s : str).

(** [self.test_results] *)
Definition results := list (str * entry).

(** The library calls of the script.  Durations are in milliseconds.
    [send] returns the number of bytes written; [recv] returns the bytes
    read, empty when the peer has closed the connection; [close] and
    [sleep] have no failure outcome.  [elapsed a b] is [str(b - a)] and
    [stamp] is [strftime("%Y%m%d_%H%M%S")].  [encode_error] and
    [decode_error] are the exceptions the [utf-8] codec raises for a text it
    cannot encode and for bytes it cannot decode. *)
Class TesterLib (W sock datetime : Type) : Type := {
  socket_socket : M W sock;
  settimeout : sock -> N -> M W unit;
  connect : sock -> str -> N -> M W unit;
  send : sock -> bytes -> M W N;
  recv : sock -> N -> M W bytes;
  close : sock -> W -> W;
  sleep : N -> W -> W;
  datetime_now : W -> datetime * W;
  isoformat : datetime -> str;
  elapsed : datetime -> datetime -> str;
  stamp : datetime -> str;
  encode_error : str -> exn;
  decode_error : bytes -> exn
}.

(** The texts the library hands to the script are well formed: the
    messages of the exceptions a write or a read raises, those of the codec's
    errors, and the renderings of the clock. *)
Definition lib_texts_ok (W sock datetime : Type) (L : TesterLib W sock datetime) : Prop :=
  (forall s data w e w', send s data w = (Raise e, w') -> text_ok (exn_msg e))
  /\ (forall s n w e w', recv s n w = (Raise e, w') -> text_ok (exn_msg e))
  /\ (forall line, text_ok (exn_msg (encode_error line)))
  /\ (forall raw, text_ok (exn_msg (decode_error raw)))
  /\ (forall a b, text_ok (elapsed a b))
  /\ (forall a, text_ok (isoformat a)).

(** Files: [write_text name text] is [with open(name, 'w') as f] and the
    writes of [json.dump] into [f]; [read_text] reads a file back.  A file
    written without an error holds the text written. *)
Class FileLib (W : Type) : Type := {
  write_text : str -> str -> M W unit;
  read_text : str -> M W str;
  read_after_write : forall (name text : str) (w w' : W),
    write_text name text w = (Ret tt, w') -> read_text name w' = (Ret text, w')
}.

(** The object: [self.host], [self.port], [self.tn] and
    [self.test_results]. *)
Record tester (sock : Type) : Type := {
  host : str;
  port : N;
  tn : option sock;
  test_results : results
}.

(** [WiFiBTGPSTester(host, port)] *)
Definition init (sock : Type) (host : str) (port : N) : tester sock :=
  {| host := host; port := port; tn := None; test_results := [] |}.

Definition with_tn (sock : Type) (s : option sock) (self : tester sock) : tester sock :=
  {| host := host self; port := port self; tn := s; test_results := test_results self |}.

Definition with_result (sock : Type) (k : str) (e : entry) (self : tester sock)
  : tester sock :=
  {| host := host self; port := port self; tn := tn self;
     test_results := dict_set (test_results self) k e |}.

(** The JSON value of a result set. *)
Definition json_of_entry (e : entry) : value :=
  match e with
  | Mapping t => JObject (map (fun kv => (fst kv, JString (snd kv))) t)
  | Text s => JString s
  end.

Definition json_of_results (r : results) : value :=
  JObject (map (fun ke => (fst ke, json_of_entry (snd ke))) r).

(** The suites of the battery: the key of each in [self.test_results] and
    the names its function records, in the order of the source. *)
Definition suite_table : list (str * list str) :=
  [(U "wifi_tests",
    [U "wifi_status"; U "wifi_scan"; U "wifi_connect"; U "internet_ping"; U "local_ping"]);
   (U "bluetooth_tests", [U "bt_status"; U "bt_scan"; U "bt_pair"]);
   (U "gps_tests", [U "gps_status"; U "gps_coordinates"; U "gps_satellites"; U "gps_time"]);
   (U "usb_tests", [U "usb_status"; U "usb_relay_on"; U "usb_relay_off"]);
   (U "device_tests",
    [U "device_version"; U "device_uptime"; U "device_temperature"; U "memory_status"])].

(** A result set as the script builds it: each key once, in the result set
    and in every suite's mapping, and every text well formed. *)
Definition tests_ok (t : tests) : Prop :=
  NoDup (map fst t) /\ Forall (fun kv => text_ok (fst kv) /\ text_ok (snd kv)) t.

Definition entry_ok (e : entry) : Prop :=
  match e with
  | Mapping t => tests_ok t
  | Text s => text_ok s
  end.

Definition results_ok (r : results) : Prop :=
  NoDup (map fst r) /\ Forall (fun ke => text_ok (fst ke) /\ entry_ok (snd ke)) r.

Section Tester.
Context {W sock datetime : Type} `{TesterLib W sock datetime} `{FileLib W}.

Local Abbreviation St := (tester sock * W)%type.

(** [self.tn.<name>]: the socket, or the [AttributeError] of [None]. *)
Definition tn_attr (name : string) : M St sock :=
  self <- get_self ;;
  match tn self with
  | Some s => ret s
  | None =>
      raise (Exn AttributeError
               (U "'NoneType' object has no attribute '" ++ U name ++ U "'"))
  end.

(** [connect_telnet(self)] *)
Definition connect_telnet : M St bool :=
  try_except
    (s <- io socket_socket ;;
     set_self (with_tn (Some s)) ;;
     io (settimeout s 5000) ;;
     self <- get_self ;;
     io (connect s (host self) (port self)) ;;
     ret true)
    (fun _ => ret false).

(** [send_command(self, command, delay=0.5)] *)
Definition send_command (command : str) (delay : N) : M St str :=
  try_except
    (s <- tn_attr "send" ;;
     let line := command ++ crlf in
     data <- codec (utf8_encode line) (encode_error line) ;;
     io (send s data) ;;
     io (effect (sleep delay)) ;;
     s <- tn_attr "recv" ;;
     raw <- io (recv s 1024) ;;
     text <- codec (utf8_decode raw) (decode_error raw) ;;
     ret (strip text))
    (fun e => ret (U "Error: " ++ exn_msg e)).

(** [test_wifi_module(self)] *)
Definition test_wifi_module : M St tests :=
  let tests : tests := [] in
  status_response <- send_command (U "WIFISTATUS") 500 ;;
  let tests := dict_set tests (U "wifi_status") status_response in
  scan_response <- send_command (U "WIFISCAN") 500 ;;
  let tests := dict_set tests (U "wifi_scan") scan_response in
  conn_response <- send_command (U "WIFICONNECT") 500 ;;
  let tests := dict_set tests (U "wifi_connect") conn_response in
  internet_response <- send_command (U "PING 8.8.8.8") 500 ;;
  let tests := dict_set tests (U "internet_ping") internet_response in
  local_response <- send_command (U "PING 192.168.1.1") 500 ;;
  let tests := dict_set tests (U "local_ping") local_response in
  ret tests.

(** [test_bluetooth_module(self)] *)
Definition test_bluetooth_module : M St tests :=
  let tests : tests := [] in
  status_response <- send_command (U "BTSTATUS") 500 ;;
  let tests := dict_set tests (U "bt_status") status_response in
  scan_response <- send_command (U "BTSCAN") 500 ;;
  let tests := dict_set tests (U "bt_scan") scan_response in
  pair_response <- send_command (U "BTPAIR") 500 ;;
  let tests := dict_set tests (U "bt_pair") pair_response in
  ret tests.

(** [test_gps_module(self)] *)
Definition test_gps_module : M St tests :=
  let tests : tests := [] in
  status_response <- send_command (U "GPSSTATUS") 500 ;;
  let tests := dict_set tests (U "gps_status") status_response in
  coords_response <- send_command (U "GPSCOORDS") 500 ;;
  let tests := dict_set tests (U "gps_coordinates") coords_response in
  sat_response <- send_command (U "GPSSAT") 500 ;;
  let tests := dict_set tests (U "gps_satellites") sat_response in
  time_response <- send_command (U "GPSTIME") 500 ;;
  let tests := dict_set tests (U "gps_time") time_response in
  ret tests.

(** [test_usb_relay(self)] *)
Definition test_usb_relay : M St tests :=
  let tests : tests := [] in
  status_response <- send_command (U "USBSTATUS") 500 ;;
  let tests := dict_set tests (U "usb_status") status_response in
  relay_response <- send_command (U "USBRELAY ON") 500 ;;
  let tests := dict_set tests (U "usb_relay_on") relay_response in
  io (effect (sleep 1000)) ;;
  relay_off_response <- send_command (U "USBRELAY OFF") 500 ;;
  let tests := dict_set tests (U "usb_relay_off") relay_off_response in
  ret tests.

(** [test_device_info(self)] *)
Definition test_device_info : M St tests :=
  let tests : tests := [] in
  version_response <- send_command (U "VERSION") 500 ;;
  let tests := dict_set tests (U "device_version") version_response in
  uptime_response <- send_command (U "UPTIME") 500 ;;
  let tests := dict_set tests (U "device_uptime") uptime_response in
  temp_response <- send_command (U "TEMPERATURE") 500 ;;
  let tests := dict_set tests (U "device_temperature") temp_response in
  memory_response <- send_command (U "MEMORY") 500 ;;
  let tests := dict_set tests (U "memory_status") memory_response in
  ret tests.

(** [self.test_results[k] = e] *)
Definition set_result (k : str) (e : entry) : M St unit := set_self (with_result k e).

(** [run_all_tests(self)]: [None] when the connection fails, otherwise
    [self.test_results]. *)
Definition run_all_tests : M St (option results) :=
  connected <- connect_telnet ;;
  if negb connected then ret None
  else
    start_time <- io (lift datetime_now) ;;
    t <- test_wifi_module ;;
    set_result (U "wifi_tests") (Mapping t) ;;
    t <- test_bluetooth_module ;;
    set_result (U "bluetooth_tests") (Mapping t) ;;
    t <- test_gps_module ;;
    set_result (U "gps_tests") (Mapping t) ;;
    t <- test_usb_relay ;;
    set_result (U "usb_tests") (Mapping t) ;;
    t <- test_device_info ;;
    set_result (U "device_tests") (Mapping t) ;;
    end_time <- io (lift datetime_now) ;;
    set_result (U "test_duration") (Text (elapsed start_time end_time)) ;;
    set_result (U "test_timestamp") (Text (isoformat start_time)) ;;
    s <- tn_attr "close" ;;
    io (effect (close s)) ;;
    self <- get_self ;;
    ret (Some (test_results self)).

(** [save_results(self, filename=None)] *)
Definition save_results (filename : option str) : M St str :=
  filename <-
    match filename with
    | Some (c :: name) => ret (c :: name)
    | _ =>
        now <- io (lift datetime_now) ;;
        ret (U "wifi_bt_gps_test_" ++ stamp now ++ U ".json")
    end ;;
  self <- get_self ;;
  io (write_text filename (dumps (json_of_results (test_results self)))) ;;
  ret filename.

(** Reading a saved report back: [json.load(open(filename))]. *)
Definition load_results (filename : str) : M St (option value) :=
  text <- io (read_text filename) ;;
  ret (loads text).

End Tester.

End WifiBtGpsTest.

(** ** python_scripts/telescope_comm.py *)

Module TelescopeComm.

(** The library calls of the script: [telnetlib.Telnet] with its [write]
    and [read_some], pyserial's [Serial] with its [write] and [readline],
    the port enumeration and [time.sleep].  [read_some] returns at least one
    byte unless the connection is at its end; [readline] returns what it has
    read when its timeout expires, which may be nothing.  [encode_error] and
    [decode_error] are the exceptions of the [ascii] codec. *)
Class MountLib (W TN SER : Type) : Type := {
  Telnet : option str -> N -> N -> M W TN;
  telnet_write : TN -> bytes -> M W unit;
  telnet_read_some : TN -> M W bytes;
  telnet_close : TN -> W -> W;
  comports : W -> list DiagnoseHomebrew.port_info * W;
  Serial : str -> N -> N -> M W SER;
  serial_write : SER -> bytes -> M W N;
  serial_readline : SER -> M W bytes;
  serial_close : SER -> W -> W;
  sleep : N -> W -> W;
  encode_error : str -> exn;
  decode_error : bytes -> exn
}.

(** The object: [self.host], [self.port], [self.timeout], [self.tn],
    [self.serial] and [self.connected]. *)
Record mount (TN SER : Type) : Type := {
  host : option str;
  port : N;
  timeout : N;
  tn : option TN;
  serial : option SER;
  connected : bool
}.

(** [CelestronMount(host, port, timeout)] *)
Definition init (TN SER : Type) (host : option str) (port timeout : N)
  : mount TN SER :=
  {| host := host; port := port; timeout := timeout;
     tn := None; serial := None; connected := false |}.

Definition with_tn (TN SER : Type) (t : option TN) (self : mount TN SER)
  : mount TN SER :=
  {| host := host self; port := port self; timeout := timeout self;
     tn := t; serial := serial self; connected := connected self |}.

Definition with_serial (TN SER : Type) (p : option SER) (self : mount TN SER)
  : mount TN SER :=
  {| host := host self; port := port self; timeout := timeout self;
     tn := tn self; serial := p; connected := connected self |}.

Definition with_connected (TN SER : Type) (b : bool) (self : mount TN SER)
  : mount TN SER :=
  {| host := host self; port := port self; timeout := timeout self;
     tn := tn self; serial := serial self; connected := b |}.

Section Mount.
Context {W TN SER : Type} `{MountLib W TN SER}.

Local Abbreviation St := (mount TN SER * W)%type.

(** [connect_telnet(self)] *)
Definition connect_telnet : M St bool :=
  try_except
    (self <- get_self ;;
     t <- io (Telnet (host self) (port self) (timeout self)) ;;
     set_self (with_tn (Some t)) ;;
     set_self (with_connected true) ;;
     ret true)
    (fun _ => ret false).

(** [connect_serial(self, port=None, baudrate=9600)] *)
Definition connect_serial (port : option str) (baudrate : N) : M St bool :=
  try_except
    (port <-
       match port with
       | Some p => ret (Some p)
       | None =>
           ports <- io (lift comports) ;;
           match ports with
           | p0 :: _ => ret (Some (DiagnoseHomebrew.device p0))
           | [] => ret None
           end
       end ;;
     match port with
     | Some (c :: name) =>
         self <- get_self ;;
         p <- io (Serial (c :: name) baudrate (timeout self)) ;;
         set_self (with_serial (Some p)) ;;
         set_self (with_connected true) ;;
         ret true
     | _ => ret false
     end)
    (fun _ => ret false).

(** [send_command(self, command)]: the response, or [None]. *)
Definition send_command (command : str) : M St (option str) :=
  self <- get_self ;;
  if negb (connected self) then ret None
  else
    try_except
      (match tn self with
       | Some t =>
           let line := command ++ crlf in
           data <- codec (ascii_encode line) (encode_error line) ;;
           io (telnet_write t data) ;;
           io (effect (sleep 500)) ;;
           raw <- io (telnet_read_some t) ;;
           text <- codec (ascii_decode raw) (decode_error raw) ;;
           ret (Some (strip text))
       | None =>
           match serial self with
           | Some p =>
               let line := command ++ crlf in
               data <- codec (ascii_encode line) (encode_error line) ;;
               io (serial_write p data) ;;
               io (effect (sleep 500)) ;;
               raw <- io (serial_readline p) ;;
               text <- codec (ascii_decode raw) (decode_error raw) ;;
               ret (Some (strip text))
           | None => ret None
           end
       end)
      (fun _ => ret None).

(** [commands] of [get_mount_info] *)
Definition commands : list str := [U "MS"; U "GV"; U "GA"; U "GZ"].

(** [for cmd in commands] of [get_mount_info], over the remaining commands. *)
Fixpoint mount_info_loop (cmds : list str) (results : list (str * str))
  : M St (list (str * str)) :=
  match cmds with
  | [] => ret results
  | cmd :: cmds' =>
      response <- send_command cmd ;;
      let results :=
        match response with
        | Some r => if truthy r then dict_set results cmd r else results
        | None => results
        end in
      io (effect (sleep 200)) ;;
      mount_info_loop cmds' results
  end.

(** [get_mount_info(self)] *)
Definition get_mount_info : M St (list (str * str)) := mount_info_loop commands [].

(** [test_connection(self)] *)
Definition test_connection : M St bool :=
  response <- send_command (U "echo test") ;;
  ret (match response with Some _ => true | None => false end).

(** [disconnect(self)] *)
Definition disconnect : M St unit :=
  self <- get_self ;;
  match tn self with Some t => io (effect (telnet_close t)) | None => ret tt end ;;
  match serial self with Some p => io (effect (serial_close p)) | None => ret tt end ;;
  set_self (with_connected false).

End Mount.

End TelescopeComm.

(** ** A simulated device

    One instance of the tester's library: a TCP peer that answers each line
    written to it after a latency, stays silent, closes the connection or
    fails; a socket with a timeout; a clock in milliseconds; files in
    memory.  It gives the scenarios of the specification a world to run in. *)

Module Simulation.

Import WifiBtGpsTest.

(** What the device does with a line it receives; a fault is an [OSError]
    with the given message. *)
Inductive reply : Type :=
| Data (latency : N) (payload : bytes)
| Silent
| Hangup
| Fault (strerror : string).

(** What the socket has to read: bytes that become available at some
    time, nothing, the end of the connection, or an error. *)
Inductive inbox : Type :=
| Arriving (at_time : N) (payload : bytes)
| Nothing
| Eof
| Broken (strerror : string).

(** The simulated host.  [sim_timeout] is the timeout of the socket:
    [None] on a new socket, which blocks, and [Some t] after
    [settimeout(t)].  [sim_stuck] records that a call was made that never
    returns. *)
Record Sim : Type := {
  sim_device : bytes -> reply;
  sim_reachable : bool;
  sim_clock : N;
  sim_timeout : option N;
  sim_inbox : inbox;
  sim_files : list (str * str);
  sim_stuck : bool
}.

Definition with_clock (t : N) (w : Sim) : Sim :=
  {| sim_device := sim_device w; sim_reachable := sim_reachable w; sim_clock := t;
     sim_timeout := sim_timeout w; sim_inbox := sim_inbox w; sim_files := sim_files w;
     sim_stuck := sim_stuck w |}.

(** [settimeout(t)] *)
Definition with_timeout (t : N) (w : Sim) : Sim :=
  {| sim_device := sim_device w; sim_reachable := sim_reachable w; sim_clock := sim_clock w;
     sim_timeout := Some t; sim_inbox := sim_inbox w; sim_files := sim_files w;
     sim_stuck := sim_stuck w |}.

Definition with_inbox (i : inbox) (w : Sim) : Sim :=
  {| sim_device := sim_device w; sim_reachable := sim_reachable w; sim_clock := sim_clock w;
     sim_timeout := sim_timeout w; sim_inbox := i; sim_files := sim_files w;
     sim_stuck := sim_stuck w |}.

Definition with_files (f : list (str * str)) (w : Sim) : Sim :=
  {| sim_device := sim_device w; sim_reachable := sim_reachable w; sim_clock := sim_clock w;
     sim_timeout := sim_timeout w; sim_inbox := sim_inbox w; sim_files := f;
     sim_stuck := sim_stuck w |}.

Definition stuck (w : Sim) : Sim :=
  {| sim_device := sim_device w; sim_reachable := sim_reachable w; sim_clock := sim_clock w;
     sim_timeout := sim_timeout w; sim_inbox := sim_inbox w; sim_files := sim_files w;
     sim_stuck := true |}.

(** A new world: the clock at zero, a socket with no timeout, nothing to
    read, no file. *)
Definition boot (device : bytes -> reply) (reachable : bool) : Sim :=
  {| sim_device := device; sim_reachable := reachable; sim_clock := 0;
     sim_timeout := None; sim_inbox := Nothing; sim_files := [];
     sim_stuck := false |}.

Definition sim_connect (w : Sim) : res unit * Sim :=
  if sim_reachable w then (Ret tt, w)
  else (Raise (Exn OSError (U "[Errno 111] Connection refused")), w).

(** A write reaches the device at once; its answer replaces what was left
    to read, so that the simulation stands for a device only as long as
    every answer is read before the next line is written. *)
Definition sim_send (data : bytes) (w : Sim) : res N * Sim :=
  (Ret (N.of_nat (List.length data)),
   with_inbox
     match sim_device w data with
     | Data latency payload => Arriving (sim_clock w + latency) payload
     | Silent => Nothing
     | Hangup => Eof
     | Fault m => Broken m
     end w).

(** What a read raises when it has waited the timeout [d] of its socket
    with nothing to read: [socket.timeout]; with a timeout of zero the
    socket is non-blocking and the read raises [BlockingIOError] at once. *)
Definition expired (d : N) : exn :=
  if d =? 0 then Exn OSError (U "[Errno 11] Resource temporarily unavailable")
  else timed_out.

(** The outcome the model gives to a call that never returns; no library
    raises it.  The world is marked [stuck], and what the model computes
    from there on stands for no run of the program. *)
Definition never_returns : exn := Exn OSError (U "the call does not return").

(** [recv(n)]: the bytes available, at most [n].  When none are, the call
    waits for them.  On a socket with a timeout it raises once the timeout
    has passed with nothing to read; on a socket with no timeout it waits
    until bytes arrive, for ever when the device sends none. *)
Definition sim_recv (n : N) (w : Sim) : res bytes * Sim :=
  let deliver (t : N) (payload : bytes) :=
    (Ret (firstn (N.to_nat n) payload),
     with_clock (N.max (sim_clock w) t)
       (with_inbox
          match skipn (N.to_nat n) payload with
          | [] => Nothing
          | rest => Arriving t rest
          end w)) in
  match sim_inbox w, sim_timeout w with
  | Arriving t payload, None => deliver t payload
  | Arriving t payload, Some d =>
      if t <=? sim_clock w + d then deliver t payload
      else (Raise (expired d), with_clock (sim_clock w + d) w)
  | Nothing, Some d => (Raise (expired d), with_clock (sim_clock w + d) w)
  | Nothing, None => (Raise never_returns, stuck w)
  | Eof, _ => (Ret [], w)
  | Broken m, _ => (Raise (Exn OSError (U m)), w)
  end.

(** [n] in decimal, padded with zeros to [width] digits. *)
Definition padded (width : nat) (n : N) : str :=
  let digits := str_of_N n in
  repeat 48 (width - List.length digits)%nat ++ digits.

Definition clock_time (ms : N) : str :=
  padded 2 (ms / 3600000 mod 24) ++ U ":" ++ padded 2 (ms / 60000 mod 60)
  ++ U ":" ++ padded 2 (ms / 1000 mod 60).

Definition fraction (ms : N) : str :=
  if ms mod 1000 =? 0 then [] else U "." ++ padded 6 (ms mod 1000 * 1000).

(** The clock starts at midnight of 2024-01-01; a [datetime] is the number
    of milliseconds since then, rendered as [datetime] renders a time of
    that day. *)
Definition sim_isoformat (ms : N) : str := U "2024-01-01T" ++ clock_time ms ++ fraction ms.

Definition sim_elapsed (a b : N) : str :=
  let d := b - a in
  str_of_N (d / 3600000) ++ U ":" ++ padded 2 (d / 60000 mod 60)
  ++ U ":" ++ padded 2 (d / 1000 mod 60) ++ fraction d.

Definition sim_stamp (ms : N) : str :=
  U "20240101_" ++ padded 2 (ms / 3600000 mod 24) ++ padded 2 (ms / 60000 mod 60)
  ++ padded 2 (ms / 1000 mod 60).

#[export] Instance sim_lib : TesterLib Sim unit N := {
  socket_socket := ret tt;
  settimeout := fun _ t => effect (with_timeout t);
  connect := fun _ _ _ => sim_connect;
  send := fun _ => sim_send;
  recv := fun _ => sim_recv;
  close := fun _ w => with_inbox Nothing w;
  sleep := fun d w => with_clock (sim_clock w + d) w;
  datetime_now := fun w => (sim_clock w, w);
  isoformat := sim_isoformat;
  elapsed := sim_elapsed;
  stamp := sim_stamp;
  encode_error := fun _ => Exn UnicodeError (U "'utf-8' codec can't encode characters");
  decode_error := fun _ => Exn UnicodeError (U "'utf-8' codec can't decode bytes")
}.

Definition sim_write (name text : str) (w : Sim) : res unit * Sim :=
  (Ret tt, with_files (dict_set (sim_files w) name text) w).

Definition sim_read (name : str) (w : Sim) : res str * Sim :=
  match dict_get (sim_files w) name with
  | Some text => (Ret text, w)
  | None => (Raise (Exn OSError (U "[Errno 2] No such file or directory")), w)
  end.

Lemma sim_read_after_write (name text : str) (w w' : Sim) :
  sim_write name text w = (Ret tt, w') -> sim_read name w' = (Ret text, w').
Proof.
  unfold sim_write, sim_read. intros [= <-]. cbn. now rewrite dict_get_set.
Qed.

#[export] Instance sim_files_lib : FileLib Sim := {
  write_text := sim_write;
  read_text := sim_read;
  read_after_write := sim_read_after_write
}.

(** A device that answers [VERSION] with a version string and every other
    line with an empty line. *)
Definition version_only (line : bytes) : reply :=
  if list_eq_dec ascii_dec line (B "VERSION" ++ map ascii_of_N crlf)
  then Data 20 (B "v1.2.3" ++ map ascii_of_N crlf)
  else Data 20 (map ascii_of_N crlf).

(** A device that never answers. *)
Definition mute (line : bytes) : reply := Silent.



(** A small result set: one suite, the duration and the timestamp. *)
Definition sample_results : results :=
  [(U "device_tests",
    Mapping [(U "device_version", U "v1.2.3"); (U "device_uptime", [])]);
   (U "test_duration", Text (U "0:00:10.500000"));
   (U "test_timestamp", Text (U "2024-01-01T00:00:00"))].

(** What stays true of a session with the device [version_only]: the
    tester holds its socket and the device is the same. *)
Definition version_session (st : tester unit * Sim) : Prop :=
  tn (fst st) = Some tt /\ sim_device (snd st) = version_only.

End Simulation.

(** ** A scripted mount line

    One instance of the mount's library: every write and read has the
    outcome the script names. *)

Module MountScript.

Import TelescopeComm.

Record Line : Type := {
  on_write : res unit;
  on_telnet_read : res bytes;
  on_serial_read : res bytes;
  written : list bytes
}.

#[export] Instance line_lib : MountLib Line unit unit := {
  Telnet := fun _ _ _ => ret tt;
  telnet_write := fun _ data w =>
    (on_write w, {| on_write := on_write w; on_telnet_read := on_telnet_read w;
                    on_serial_read := on_serial_read w; written := written w ++ [data] |});
  telnet_read_some := fun _ w => (on_telnet_read w, w);
  telnet_close := fun _ w => w;
  comports := fun w => ([], w);
  Serial := fun _ _ _ => ret tt;
  serial_write := fun _ data w =>
    (match on_write w with Ret _ => Ret (N.of_nat (List.length data)) | Raise e => Raise e end,
     {| on_write := on_write w; on_telnet_read := on_telnet_read w;
        on_serial_read := on_serial_read w; written := written w ++ [data] |});
  serial_readline := fun _ w => (on_serial_read w, w);
  serial_close := fun _ w => w;
  sleep := fun _ w => w;
  encode_error := fun _ => Exn UnicodeError (U "'ascii' codec can't encode characters");
  decode_error := fun _ => Exn UnicodeError (U "'ascii' codec can't decode bytes")
}.

End MountScript.

(** ** The entry points of the scripts

    A [main] creates its object and works on it; the object does not
    outlive the call. *)

Module Entry.

(** A method sequence run on a freshly made object. *)
Definition with_object {S W A} (self : S) (m : M (S * W) A) : M W A :=
  fun w => let (r, st) := m (self, w) in (r, snd st).

(** Truth value of an optional command-line string: given and non-empty. *)
Definition given (s : option str) : bool :=
  match s with
  | Some (_ :: _) => true
  | _ => false
  end.

End Entry.

(** *** python_scripts/wifi_bt_gps_test.py: [main] *)

Module WifiBtGpsMain.

Import Json WifiBtGpsTest Entry.

(** The parsed command line: [--host], [--port], [--output], [--verbose]. *)
Record args : Type := {
  args_host : str;
  args_port : N;
  args_output : option str;
  args_verbose : bool
}.

(** The mark of a summary line: [True] for the check mark, [False] for the
    cross.  [result and not str(result).startswith("Error")] *)
Definition status (result : str) : bool :=
  truthy result && negb (startswith result (U "Error")).

(** The summary [main] prints: for each suite of the result set, in its
    order, the category and its lines, each a mark, a test name and a
    result.  The duration and the timestamp, being strings, have no lines. *)
Definition summary (results : results) : list (str * list (bool * str * str)) :=
  flat_map
    (fun ke =>
       match snd ke with
       | Mapping tests =>
           if negb (str_eqb (fst ke) (U "test_duration"))
              && negb (str_eqb (fst ke) (U "test_timestamp"))
           then [(fst ke, map (fun kv => (status (snd kv), fst kv, snd kv)) tests)]
           else []
       | Text _ => []
       end)
    results.

Section Main.
Context {W sock datetime : Type} `{TesterLib W sock datetime} `{FileLib W}.

(** [main()]: the value returned is the exit status of the script. *)
Definition main (a : args) : M W Z :=
  with_object (init sock (args_host a) (args_port a))
    (results <- run_all_tests ;;
     match results with
     | Some (_ :: _) =>
         filename <- save_results (args_output a) ;;
         ret 0%Z
     | _ => ret 1%Z
     end).

End Main.

End WifiBtGpsMain.

(** *** python_scripts/telescope_comm.py: [main] *)

Module TelescopeMain.

Import TelescopeComm Entry.

(** [datetime.now().isoformat()] *)
Class ClockLib (W : Type) : Type := {
  now_isoformat : W -> str * W
}.

(** The parsed command line: [--host], [--port], [--serial], [--baudrate],
    [--test], [--json]. *)
Record args : Type := {
  args_host : option str;
  args_port : N;
  args_serial : option str;
  args_baudrate : N;
  args_test : bool;
  args_json : bool
}.

(** [test_results] of [main] *)
Record report : Type := {
  connection_test : bool;
  mount_info : list (str * str);
  timestamp : str
}.

Section Main.
Context {W TN SER : Type} `{MountLib W TN SER} `{ClockLib W}.

Local Abbreviation St := (mount TN SER * W)%type.

(** The choice of the connection method in [main]. *)
Definition establish (a : args) : M St bool :=
  if given (args_host a) then connect_telnet
  else if given (args_serial a) then connect_serial (args_serial a) (args_baudrate a)
  else
    connected <- connect_serial None 9600 ;;
    if negb connected && negb (given (args_serial a)) then connect_telnet
    else ret connected.

(** The dictionary both branches of [if args.test] build. *)
Definition collect : M St report :=
  c <- test_connection ;;
  i <- get_mount_info ;;
  t <- io (lift now_isoformat) ;;
  ret {| connection_test := c; mount_info := i; timestamp := t |}.

(** [main()]: the value returned is the exit status of the script. *)
Definition main (a : args) : M W Z :=
  with_object (init TN SER (args_host a) (args_port a) 5000)
    (connected <- establish a ;;
     if connected then
       test_results <- (if args_test a then collect else collect) ;;
       disconnect ;;
       ret 0%Z
     else ret 1%Z).

End Main.

End TelescopeMain.

(** *** diagnose_homebrew.py: the probe of a port and [main] *)

Module DiagnoseMain.

Import DiagnoseHomebrew.

(** [l[i]] on a Python list: an index from [-len(l)] to [len(l) - 1], a
    negative one counting from the end; [None] stands for the
    [IndexError]. *)
Definition list_index {A : Type} (l : list A) (i : Z) : option A :=
  let n := Z.of_nat (List.length l) in
  if ((0 <=? i) && (i <? n))%Z then nth_error l (Z.to_nat i)
  else if ((- n <=? i) && (i <? 0))%Z then nth_error l (Z.to_nat (n + i))
  else None.

(** The exceptions of the port choice in [main]: the [IndexError] of a
    list index out of range and the [ValueError] of [int]. *)
Inductive failure : Type :=
| IndexError
| IntValueError.

(** The outcome of the port choice: the name to test, or the exception the
    choice ends with. *)
Inductive selection : Type :=
| Selected (test_port : str)
| Failed (f : failure).

(** How [main] ends: it returns, or it ends with an exception of the port
    choice or of a library call. *)
Inductive ending : Type :=
| Returned
| ChoiceFailed (f : failure)
| Raised (e : exn).

(** The library calls of the script: pyserial's [Serial] with [in_waiting],
    [read], [write] and [close], the port enumeration, [time.sleep] and the
    console's [input].  Durations are in milliseconds; [close] and [sleep]
    have no failure outcome, and [input] returns the line typed. *)
Class DiagLib (W SER : Type) : Type := {
  Serial : str -> N -> N -> M W SER;
  in_waiting : SER -> M W N;
  read : SER -> N -> M W bytes;
  write : SER -> bytes -> M W N;
  close : SER -> W -> W;
  comports : W -> list port_info * W;
  sleep : N -> W -> W;
  input : W -> str * W
}.

(** [test_commands] of [test_serial_connection] *)
Definition test_commands : list bytes :=
  [B "VERSION" ++ [ascii_of_N 13; ascii_of_N 10];
   B "AT" ++ [ascii_of_N 13; ascii_of_N 10];
   B "?" ++ [ascii_of_N 13; ascii_of_N 10];
   B "HELP" ++ [ascii_of_N 13; ascii_of_N 10];
   [ascii_of_N 13; ascii_of_N 10]].

(** The default of [baudrates] *)
Definition default_baudrates : list N := [9600; 115200; 57600; 38400].

Section Select.

(** Python's [str.lower], [str.upper], [str.isdigit] and [int]; [int]
    yields [None] for a [ValueError].  The development holds for every such
    functions. *)
Variables (lower upper : str -> str) (isdigit : str -> bool) (int : str -> option Z).

Definition port_at (ports : list port_info) (i : Z) : selection :=
  match list_index ports i with
  | Some p => Selected (device p)
  | None => Failed IndexError
  end.

(** The assignment of [test_port] in [main], from the ports listed, the
    port detected and the line typed at the prompt. *)
Definition select_port (ports : list port_info) (homebrew_port : option str)
           (answer : str) : selection :=
  match homebrew_port with
  | Some (c :: name) =>
      let choice := lower (strip answer) in
      if str_eqb choice (U "y") || str_eqb choice [] then Selected (c :: name)
      else if isdigit choice then
        match int choice with
        | None => Failed IntValueError
        | Some n =>
            if ((1 <=? n) && (n <=? Z.of_nat (List.length ports)))%Z
            then port_at ports (n - 1)
            else Selected (upper choice)
        end
      else Selected (upper choice)
  | _ =>
      let choice := strip answer in
      if isdigit choice then
        match int choice with
        | None => Failed IntValueError
        | Some n => port_at ports (n - 1)
        end
      else Selected (upper choice)
  end.

Context {W SER : Type} `{DiagLib W SER}.

(** [for cmd in test_commands], over the remaining commands; the loop ends
    at its [break] or with its last command. *)
Fixpoint command_loop (ser : SER) (cmds : list bytes) : M W unit :=
  match cmds with
  | [] => ret tt
  | cmd :: cmds' =>
      write ser cmd ;;
      effect (sleep 300) ;;
      waiting <- in_waiting ser ;;
      if 0 <? waiting then
        n <- in_waiting ser ;;
        response <- read ser n ;;
        if (0 <? List.length response)%nat then ret tt
        else command_loop ser cmds'
      else command_loop ser cmds'
  end.

(** The body of the [try] statement for one baud rate. *)
Definition probe (port : str) (baud : N) : M W unit :=
  ser <- Serial port baud 2000 ;;
  effect (sleep 500) ;;
  waiting <- in_waiting ser ;;
  (if 0 <? waiting then
     n <- in_waiting ser ;;
     data <- read ser n ;;
     ret tt
   else ret tt) ;;
  command_loop ser test_commands ;;
  effect (close ser).

(** [test_serial_connection(port, baudrates)] *)
Fixpoint test_serial_connection (port : str) (baudrates : list N) : M W unit :=
  match baudrates with
  | [] => ret tt
  | baud :: baudrates' =>
      try_except (probe port baud) (fun _ => ret tt) ;;
      test_serial_connection port baudrates'
  end.

(** [main()] *)
Definition main : W -> ending * W :=
  fun w =>
    let (enumerated, w) := comports w in
    match list_com_ports enumerated with
    | None => let (_, w) := input w in (Returned, w)
    | Some ports =>
        match detect_homebrew_port lower (Some ports) with
        | Raise e => (Raised e, w)
        | Ret homebrew_port =>
            let (answer, w) := input w in
            match select_port ports homebrew_port answer with
            | Selected test_port =>
                match test_serial_connection test_port default_baudrates w with
                | (Ret _, w) => let (_, w) := input w in (Returned, w)
                | (Raise e, w) => (Raised e, w)
                end
            | Failed f => (ChoiceFailed f, w)
            end
        end
    end.

(** The script around [main]: the exit status.  An exception of [main]
    is reported, the user is asked for a key, and the status is 1. *)
Definition script : W -> Z * W :=
  fun w =>
    match main w with
    | (Returned, w) => (0%Z, w)
    | (_, w) => let (_, w) := input w in (1%Z, w)
    end.

End Select.

(** [str.isdigit] on ASCII text: not empty, and decimal digits only.
    Python's [isdigit] also accepts digits outside ASCII, a superscript two
    among them, which this function rejects: it stands for [isdigit] on
    ASCII answers only. *)
Definition ascii_isdigit (s : str) : bool :=
  truthy s && forallb (fun c => (48 <=? c) && (c <=? 57)) s.

(** [int] on a string of ASCII digits, the only strings that
    [ascii_isdigit] accepts. *)
Definition ascii_int (s : str) : option Z :=
  if ascii_isdigit s
  then Some (fold_left (fun n c => (10 * n + Z.of_N (c - 48))%Z) s 0%Z)
  else None.

End DiagnoseMain.

(** ** A record of the calls that reach the outside

    A library with a record kept beside its world: every call behaves as
    the library's own, and the calls that open, write and close are appended
    to the record when they are made, whatever their outcome. *)

Module Recorded.

Definition logged {W E A : Type} (ev : E) (m : M W A) : M (W * list E) A :=
  fun ww => let (r, w') := m (fst ww) in (r, (w', snd ww ++ [ev])).

Definition unlogged {W E A : Type} (m : M W A) : M (W * list E) A :=
  fun ww => let (r, w') := m (fst ww) in (r, (w', snd ww)).

Definition logged_effect {W E : Type} (ev : E) (f : W -> W) : W * list E -> W * list E :=
  fun ww => (f (fst ww), snd ww ++ [ev]).

Definition unlogged_effect {W E : Type} (f : W -> W) : W * list E -> W * list E :=
  fun ww => (f (fst ww), snd ww).

Definition unlogged_query {W E A : Type} (f : W -> A * W) : W * list E -> A * (W * list E) :=
  fun ww => let (a, w') := f (fst ww) in (a, (w', snd ww)).

(** A recorded computation does what the plain one does: from the same
    world it has the same outcome and leaves the same world, the record
    apart.  [same_method] is the same for the methods of an object. *)
Definition same_run {W E A : Type} (m : M W A) (m' : M (W * list E) A) : Prop :=
  forall (w : W) (log : list E),
    exists log' : list E, m' (w, log) = (fst (m w), (snd (m w), log')).

Definition same_method {S W E A : Type} (m : M (S * W) A) (m' : M (S * (W * list E)) A)
  : Prop :=
  forall (self : S) (w : W) (log : list E),
    exists log' : list E,
      m' (self, (w, log))
      = (fst (m (self, w)), (fst (snd (m (self, w))), (snd (snd (m (self, w))), log'))).

(** The calls of the scanner. *)
Inductive scan_call : Type :=
| MakeSocket
| SetTimeout (ms : N)
| ConnectEx (ip : str) (port : N)
| CloseSocket.

#[export] Instance socket_recorded {W sock : Type} (L : ScanCelestron.SocketLib W sock)
  : ScanCelestron.SocketLib (W * list scan_call) sock := {
  ScanCelestron.socket_socket := logged MakeSocket ScanCelestron.socket_socket;
  ScanCelestron.settimeout := fun s t => logged (SetTimeout t) (ScanCelestron.settimeout s t);
  ScanCelestron.connect_ex := fun s ip port =>
    logged (ConnectEx ip port) (ScanCelestron.connect_ex s ip port);
  ScanCelestron.close := fun s => logged_effect CloseSocket (ScanCelestron.close s)
}.

(** The calls of one [scan_port] that gets as far as [reached] calls. *)
Definition scan_calls (ip : str) (port timeout : N) (reached : nat) : list scan_call :=
  firstn reached [MakeSocket; SetTimeout timeout; ConnectEx ip port; CloseSocket].

(** The calls of the module tester. *)
Inductive tester_call : Type :=
| Socket
| Connect (host : str) (port : N)
| Send (data : bytes)
| Close
| Dump (name text : str).

(** A command of the source as it goes over the wire: its text, then
    carriage return and line feed. *)
Definition line (command : string) : bytes :=
  B command ++ [ascii_of_N 13; ascii_of_N 10].

(** The commands of the five suites, in the order of the source. *)
Definition battery_lines : list bytes :=
  [line "WIFISTATUS"; line "WIFISCAN"; line "WIFICONNECT"; line "PING 8.8.8.8";
   line "PING 192.168.1.1";
   line "BTSTATUS"; line "BTSCAN"; line "BTPAIR";
   line "GPSSTATUS"; line "GPSCOORDS"; line "GPSSAT"; line "GPSTIME";
   line "USBSTATUS"; line "USBRELAY ON"; line "USBRELAY OFF";
   line "VERSION"; line "UPTIME"; line "TEMPERATURE"; line "MEMORY"].

#[export] Instance tester_recorded {W sock datetime : Type}
  (L : WifiBtGpsTest.TesterLib W sock datetime)
  : WifiBtGpsTest.TesterLib (W * list tester_call) sock datetime := {
  WifiBtGpsTest.socket_socket := logged Socket WifiBtGpsTest.socket_socket;
  WifiBtGpsTest.settimeout := fun s t => unlogged (WifiBtGpsTest.settimeout s t);
  WifiBtGpsTest.connect := fun s h p => logged (Connect h p) (WifiBtGpsTest.connect s h p);
  WifiBtGpsTest.send := fun s data => logged (Send data) (WifiBtGpsTest.send s data);
  WifiBtGpsTest.recv := fun s n => unlogged (WifiBtGpsTest.recv s n);
  WifiBtGpsTest.close := fun s => logged_effect Close (WifiBtGpsTest.close s);
  WifiBtGpsTest.sleep := fun ms => unlogged_effect (WifiBtGpsTest.sleep ms);
  WifiBtGpsTest.datetime_now := unlogged_query WifiBtGpsTest.datetime_now;
  WifiBtGpsTest.isoformat := WifiBtGpsTest.isoformat;
  WifiBtGpsTest.elapsed := WifiBtGpsTest.elapsed;
  WifiBtGpsTest.stamp := WifiBtGpsTest.stamp;
  WifiBtGpsTest.encode_error := WifiBtGpsTest.encode_error;
  WifiBtGpsTest.decode_error := WifiBtGpsTest.decode_error
}.

Lemma recorded_read_after_write {W : Type} (F : WifiBtGpsTest.FileLib W)
      (name text : str) (w w' : W * list tester_call) :
  logged (Dump name text) (WifiBtGpsTest.write_text name text) w = (Ret tt, w') ->
  unlogged (WifiBtGpsTest.read_text name) w' = (Ret text, w').
Proof.
  unfold logged, unlogged. destruct w as [w0 l], w' as [w1 l']. cbn [fst snd].
  destruct (WifiBtGpsTest.write_text name text w0) as [r w2] eqn:E.
  intros [= -> -> <-].
  now rewrite (WifiBtGpsTest.read_after_write _ _ _ E).
Qed.

#[export] Instance files_recorded {W : Type} (F : WifiBtGpsTest.FileLib W)
  : WifiBtGpsTest.FileLib (W * list tester_call) := {
  WifiBtGpsTest.write_text := fun name text =>
    logged (Dump name text) (WifiBtGpsTest.write_text name text);
  WifiBtGpsTest.read_text := fun name => unlogged (WifiBtGpsTest.read_text name);
  WifiBtGpsTest.read_after_write := recorded_read_after_write F
}.

(** The calls of the mount session. *)
Inductive mount_call : Type :=
| TelnetOpen (host : option str) (port : N)
| SerialOpen (name : str) (baudrate : N)
| TelnetWrite (data : bytes)
| SerialWrite (data : bytes)
| TelnetClose
| SerialClose.

(** The close and the write that belong to an open. *)
Definition closing (c : mount_call) : mount_call :=
  match c with
  | TelnetOpen _ _ => TelnetClose
  | _ => SerialClose
  end.

Definition writing (c : mount_call) : bytes -> mount_call :=
  match c with
  | TelnetOpen _ _ => TelnetWrite
  | _ => SerialWrite
  end.

(** The commands of [get_mount_info], and those of a whole [main]. *)
Definition mount_info_lines : list bytes := [line "MS"; line "GV"; line "GA"; line "GZ"].

Definition session_lines : list bytes := line "echo test" :: mount_info_lines.

(** The write [send_command] of the mount makes: on the telnet connection
    when the object holds one, on the serial port otherwise. *)
Definition line_write {TN SER : Type} (self : TelescopeComm.mount TN SER)
  : bytes -> mount_call :=
  match TelescopeComm.tn self with
  | Some _ => TelnetWrite
  | None => SerialWrite
  end.

(** Whether [send_command] of the mount has a line to write on: the object
    is marked connected and holds a telnet connection or a serial port. *)
Definition on_line {TN SER : Type} (self : TelescopeComm.mount TN SER) : bool :=
  TelescopeComm.connected self
  && match TelescopeComm.tn self, TelescopeComm.serial self with
     | None, None => false
     | _, _ => true
     end.

#[export] Instance mount_recorded {W TN SER : Type} (L : TelescopeComm.MountLib W TN SER)
  : TelescopeComm.MountLib (W * list mount_call) TN SER := {
  TelescopeComm.Telnet := fun h p t => logged (TelnetOpen h p) (TelescopeComm.Telnet h p t);
  TelescopeComm.telnet_write := fun t data =>
    logged (TelnetWrite data) (TelescopeComm.telnet_write t data);
  TelescopeComm.telnet_read_some := fun t => unlogged (TelescopeComm.telnet_read_some t);
  TelescopeComm.telnet_close := fun t => logged_effect TelnetClose (TelescopeComm.telnet_close t);
  TelescopeComm.comports := unlogged_query TelescopeComm.comports;
  TelescopeComm.Serial := fun name b t =>
    logged (SerialOpen name b) (TelescopeComm.Serial name b t);
  TelescopeComm.serial_write := fun p data =>
    logged (SerialWrite data) (TelescopeComm.serial_write p data);
  TelescopeComm.serial_readline := fun p => unlogged (TelescopeComm.serial_readline p);
  TelescopeComm.serial_close := fun p => logged_effect SerialClose (TelescopeComm.serial_close p);
  TelescopeComm.sleep := fun ms => unlogged_effect (TelescopeComm.sleep ms);
  TelescopeComm.encode_error := TelescopeComm.encode_error;
  TelescopeComm.decode_error := TelescopeComm.decode_error
}.

#[export] Instance clock_recorded {W : Type} (C : TelescopeMain.ClockLib W)
  : TelescopeMain.ClockLib (W * list mount_call) := {
  TelescopeMain.now_isoformat := unlogged_query TelescopeMain.now_isoformat
}.

(** The calls of the diagnostic. *)
Inductive probe_call : Type :=
| PortOpen (port : str) (baud : N)
| PortWrite (data : bytes)
| PortClose.

(** The calls of one attempt of the probe: the open, the writes of the
    first [k] test commands, and the close when there is one. *)
Definition attempt_calls (port : str) (baud : N) (k : nat) (closed : bool)
  : list probe_call :=
  PortOpen port baud :: map PortWrite (firstn k DiagnoseMain.test_commands)
    ++ if closed then [PortClose] else [].

(** Whether a call returned. *)
Definition returned {A : Type} (r : res A) : bool :=
  match r with
  | Ret _ => true
  | Raise _ => false
  end.

#[export] Instance diag_recorded {W SER : Type} (L : DiagnoseMain.DiagLib W SER)
  : DiagnoseMain.DiagLib (W * list probe_call) SER := {
  DiagnoseMain.Serial := fun port baud t =>
    logged (PortOpen port baud) (DiagnoseMain.Serial port baud t);
  DiagnoseMain.in_waiting := fun s => unlogged (DiagnoseMain.in_waiting s);
  DiagnoseMain.read := fun s n => unlogged (DiagnoseMain.read s n);
  DiagnoseMain.write := fun s data => logged (PortWrite data) (DiagnoseMain.write s data);
  DiagnoseMain.close := fun s => logged_effect PortClose (DiagnoseMain.close s);
  DiagnoseMain.comports := unlogged_query DiagnoseMain.comports;
  DiagnoseMain.sleep := fun ms => unlogged_effect (DiagnoseMain.sleep ms);
  DiagnoseMain.input := unlogged_query DiagnoseMain.input
}.

End Recorded.

(** ** A scripted serial port

    One instance of the diagnostic's library: the port opens at every baud
    rate, accepts every write, and always has the same bytes waiting. *)

Module Bench.

Import DiagnoseMain.

Record Port : Type := {
  waiting : bytes
}.

#[export] Instance bench_lib : DiagLib Port unit := {
  Serial := fun _ _ _ => ret tt;
  in_waiting := fun _ w => (Ret (N.of_nat (List.length (waiting w))), w);
  read := fun _ n w => (Ret (firstn (N.to_nat n) (waiting w)), w);
  write := fun _ data w => (Ret (N.of_nat (List.length data)), w);
  close := fun _ w => w;
  comports := fun w => ([], w);
  sleep := fun _ w => w;
  input := fun w => ([], w)
}.

End Bench.

(** * Properties *)

(** ** Strings and dictionaries *)

Lemma str_eqb_eq (a b : str) : str_eqb a b = true <-> a = b.
Proof.
  revert b. induction a as [|x a IH]; intros [|y b]; cbn; try (split; [discriminate|discriminate]).
  - split; reflexivity.
  - rewrite andb_true_iff, N.eqb_eq, IH. split; [intros [-> ->]; reflexivity | intros [= -> ->]; auto].
Qed.

Lemma dict_set_in (V : Type) (d : list (str * V)) (k k' : str) (v v' : V) :
  In (k, v) (dict_set d k' v') -> (k = k' /\ v = v') \/ In (k, v) d.
Proof.
  induction d as [|[k0 v0] d IH]; cbn.
  - intros [[= <- <-]|[]]. now left.
  - destruct (str_eqb k0 k') eqn:E; cbn.
    + apply str_eqb_eq in E. subst k0.
      intros [[= <- <-]|Hin]; [now left | right; now right].
    + intros [Heq|Hin]; [right; now left|].
      destruct (IH Hin) as [?|?]; [now left | right; now right].
Qed.

Lemma dict_get_in (V : Type) (d : list (str * V)) (k : str) (v : V) :
  dict_get d k = Some v -> In (k, v) d.
Proof.
  induction d as [|[k0 v0] d IH]; cbn; [discriminate|].
  destruct (str_eqb k0 k) eqn:E.
  - apply str_eqb_eq in E. subst k0. intros [= ->]. now left.
  - intros Hg. right. now apply IH.
Qed.

Lemma dict_get_set_other (V : Type) (d : list (str * V)) (k k' : str) (v : V) :
  str_eqb k' k = false -> dict_get (dict_set d k' v) k = dict_get d k.
Proof.
  intros Hne. induction d as [|[k0 v0] d IH]; cbn.
  - now rewrite Hne.
  - destruct (str_eqb k0 k') eqn:E1; cbn.
    + apply str_eqb_eq in E1. subst k0. now rewrite Hne.
    + destruct (str_eqb k0 k); [reflexivity | exact IH].
Qed.


(** *** Well-formed text *)

Lemma text_ok_U (s : string) : text_ok (U s).
Proof.
  unfold text_ok, U. apply Forall_map, Forall_forall. intros a _.
  pose proof (N_ascii_bounded a). unfold is_scalar.
  apply orb_true_iff. left. apply N.ltb_lt. lia.
Qed.

Lemma text_ok_app (s t : str) : text_ok s -> text_ok t -> text_ok (s ++ t).
Proof. intros Hs Ht. apply Forall_app. now split. Qed.

Lemma lstrip_ok (s : str) : text_ok s -> text_ok (lstrip s).
Proof.
  induction 1 as [|c s Hc Hs IH]; cbn; [constructor|].
  destruct (isspace c); [exact IH | now constructor].
Qed.

Lemma strip_ok (s : str) : text_ok s -> text_ok (strip s).
Proof.
  intros Hs. unfold strip, rstrip. apply Forall_rev, lstrip_ok, Forall_rev, lstrip_ok, Hs.
Qed.

(** The strict decoder yields scalar values only. *)
Lemma utf8_decode_ok_upto (n : nat) :
  forall (bs : bytes) (s : str),
    (List.length bs <= n)%nat -> utf8_decode bs = Some s -> text_ok s.
Proof.
  induction n as [|n IH]; intros bs s Hlen Hdec.
  - destruct bs; [|inversion Hlen]. injection Hdec as <-. constructor.
  - destruct bs as [|b0 r0]; [injection Hdec as <-; constructor|].
    cbn [utf8_decode] in Hdec. cbv zeta in Hdec. cbn [List.length] in Hlen.
    destruct (N_of_ascii b0 <? 128) eqn:E1.
    { destruct (utf8_decode r0) as [t|] eqn:Et; [|discriminate]. injection Hdec as <-.
      constructor; [|apply (IH r0); [lia | exact Et]].
      apply N.ltb_lt in E1. unfold is_scalar. apply orb_true_iff. left. apply N.ltb_lt. lia. }
    destruct ((194 <=? N_of_ascii b0) && (N_of_ascii b0 <=? 223)) eqn:E2.
    { destruct r0 as [|b1 r1]; [discriminate|].
      destruct (continuation (N_of_ascii b1)) eqn:C1; [|discriminate].
      destruct (utf8_decode r1) as [t|] eqn:Et; [|discriminate]. injection Hdec as <-.
      constructor; [|apply (IH r1); [cbn [List.length] in Hlen; lia | exact Et]].
      apply andb_true_iff in E2. destruct E2 as [_ Hhi]. apply N.leb_le in Hhi.
      unfold continuation in C1. apply andb_true_iff in C1. destruct C1 as [_ Hc1].
      apply N.leb_le in Hc1.
      unfold is_scalar. apply orb_true_iff. left. apply N.ltb_lt. nia. }
    destruct ((224 <=? N_of_ascii b0) && (N_of_ascii b0 <=? 239)) eqn:E3.
    { destruct r0 as [|b1 [|b2 r2]]; try discriminate.
      match type of Hdec with (if ?c then _ else _) = _ => destruct c eqn:C end;
        [|discriminate].
      destruct (utf8_decode r2) as [t|] eqn:Et; [|discriminate]. injection Hdec as <-.
      constructor; [|apply (IH r2); [cbn [List.length] in Hlen; lia | exact Et]].
      apply andb_true_iff in C. exact (proj2 C). }
    destruct ((240 <=? N_of_ascii b0) && (N_of_ascii b0 <=? 244)) eqn:E4; [|discriminate].
    destruct r0 as [|b1 [|b2 [|b3 r3]]]; try discriminate.
    match type of Hdec with (if ?c then _ else _) = _ => destruct c eqn:C end;
      [|discriminate].
    destruct (utf8_decode r3) as [t|] eqn:Et; [|discriminate]. injection Hdec as <-.
    constructor; [|apply (IH r3); [cbn [List.length] in Hlen; lia | exact Et]].
    apply andb_true_iff in C. exact (proj2 C).
Qed.

Lemma utf8_decode_ok (bs : bytes) (s : str) : utf8_decode bs = Some s -> text_ok s.
Proof. apply (@utf8_decode_ok_upto (List.length bs)). lia. Qed.

(** ** The subnet sweep ([scan_celestron.py]) *)

Section ScanFacts.
Import ScanCelestron.
Context {W sock : Type} `{SocketLib W sock}.

(** [scan_port] by cases on the outcome of the connect attempt. *)
Lemma scan_port_cases (ip : str) (port timeout : N) (w : W) :
  exists w' : W,
    scan_port ip port timeout w
    = (Ret match fst (connect_attempt ip port timeout w) with
           | Ret code => Z.eqb code 0
           | Raise _ => false
           end, w').
Proof.
  unfold scan_port, connect_attempt, try_except, bind, effect, ret.
  destruct (socket_socket w) as [[s|e] w1]; cbn [fst]; [|eauto].
  destruct (settimeout s timeout w1) as [[[]|e] w2]; cbn [fst]; [|eauto].
  destruct (connect_ex s ip port w2) as [[code|e] w3]; cbn [fst]; eauto.
Qed.

(** C9: the single-host probe is total.  In every world, for every address,
    port and timeout, [scan_port] returns a boolean and never raises; the
    boolean is [True] exactly when the connect attempt returned the success
    indicator [0], and [False] for every other indicator and every raised
    exception alike. *)
Theorem scan_port_total (ip : str) (port timeout : N) (w : W) :
  exists (b : bool) (w' : W),
    scan_port ip port timeout w = (Ret b, w')
    /\ (b = true <-> fst (connect_attempt ip port timeout w) = Ret 0%Z)
    /\ (b = false <-> fst (connect_attempt ip port timeout w) <> Ret 0%Z).
Proof.
  destruct (scan_port_cases ip port timeout w) as (w' & E).
  eexists _, w'. split; [exact E|].
  destruct (fst (connect_attempt ip port timeout w)) as [code|e].
  - destruct (Z.eqb code 0) eqn:Ecode.
    + apply Z.eqb_eq in Ecode. rewrite Ecode.
      split; split; try reflexivity; try discriminate. intros Hno. now contradiction Hno.
    + apply Z.eqb_neq in Ecode.
      split; split; try reflexivity; try discriminate.
      * intros [= Hz]. now contradiction Ecode.
      * intros _ [= Hz]. now contradiction Ecode.
  - split; split; try reflexivity; discriminate.
Qed.

(** The sweep loop never raises, whatever the network does. *)
Lemma sweep_loop_returns (l : list N) :
  forall (found : list str) (w : W),
    exists (r : list str) (w' : W), sweep_loop l found w = (Ret r, w').
Proof.
  induction l as [|i l IH]; intros found w; cbn [sweep_loop].
  - now exists found, w.
  - unfold bind. destruct (scan_port_cases (ip_of i) 2000 500 w) as (w1 & ->).
    destruct (match fst (connect_attempt (ip_of i) 2000 500 w) with
              | Ret code => Z.eqb code 0
              | Raise _ => false
              end); apply IH.
Qed.

End ScanFacts.

Lemma range_spec (lo hi : nat) (i : N) :
  In i (range lo hi) <-> N.of_nat lo <= i < N.of_nat hi.
Proof.
  unfold range. rewrite in_map_iff. split.
  - intros [n [<- Hn]]. apply in_seq in Hn. lia.
  - intros Hi. exists (N.to_nat i). split; [lia|]. apply in_seq. lia.
Qed.

Lemma range_sorted (lo hi : nat) : StronglySorted N.lt (range lo hi).
Proof.
  unfold range. generalize (hi - lo)%nat as n. intros n. revert lo.
  induction n as [|n IH]; intros lo; cbn; constructor.
  - apply IH.
  - apply Forall_forall. intros x Hx. apply in_map_iff in Hx.
    destruct Hx as [m [<- Hm]]. apply in_seq in Hm. lia.
Qed.

Lemma filter_sorted (A : Type) (R : A -> A -> Prop) (p : A -> bool) (l : list A) :
  StronglySorted R l -> StronglySorted R (filter p l).
Proof.
  induction 1 as [|a l Hs IH Hall]; cbn; [constructor|].
  destruct (p a); [|exact IH]. constructor; [exact IH|].
  apply Forall_forall. intros x Hx. apply filter_In in Hx.
  rewrite Forall_forall in Hall. apply Hall. tauto.
Qed.

(** ** Decimal text *)

(** [f"{i}"] is the decimal text of [i]: read back digit by digit it gives
    [i], and it has no leading zero. *)

Lemma U_cons (c : ascii) (s : string) : U (String c s) = N_of_ascii c :: U s.
Proof. reflexivity. Qed.

Lemma decimal_from_acc (d : Decimal.uint) :
  forall p, decimal_from (N.pos p) (U (NilEmpty.string_of_uint d))
            = Some (N.pos (Pos.of_uint_acc d p)).
Proof.
  induction d; intros p; cbn [NilEmpty.string_of_uint Pos.of_uint_acc];
    [reflexivity | rewrite U_cons; cbn [decimal_from]; 
      match goal with |- context [N_of_ascii ?c] =>
        let v := eval vm_compute in (N_of_ascii c) in change (N_of_ascii c) with v end;
      match goal with |- context [(?a <=? ?b) && (?c <=? ?d)] =>
        change ((a <=? b) && (c <=? d)) with true end;
      cbv iota; rewrite <- IHd; f_equal; lia ..].
Qed.

Lemma decimal_from_zero (d : Decimal.uint) :
  decimal_from 0 (U (NilEmpty.string_of_uint d)) = Some (Pos.of_uint d).
Proof.
  induction d; cbn [NilEmpty.string_of_uint Pos.of_uint];
    [reflexivity | rewrite U_cons; cbn [decimal_from];
      match goal with |- context [N_of_ascii ?c] =>
        let v := eval vm_compute in (N_of_ascii c) in change (N_of_ascii c) with v end;
      match goal with |- context [(?a <=? ?b) && (?c <=? ?d)] =>
        change ((a <=? b) && (c <=? d)) with true end;
      cbv iota; first [exact IHd | rewrite <- decimal_from_acc; f_equal] ..].
Qed.

Lemma to_uint_nonnil (i : N) : N.to_uint i <> Decimal.Nil.
Proof.
  destruct i as [|p]; [discriminate|]. cbn. apply DecimalPos.Unsigned.to_uint_nonnil.
Qed.

Lemma str_of_N_digits (i : N) :
  str_of_N i = U (NilEmpty.string_of_uint (N.to_uint i)) /\ str_of_N i <> [].
Proof.
  unfold str_of_N, NilZero.string_of_uint.
  pose proof (to_uint_nonnil i) as Hn.
  destruct (N.to_uint i); try contradiction; (split; [reflexivity | cbv iota; cbn [NilEmpty.string_of_uint]; rewrite U_cons; discriminate]).
Qed.

Lemma str_of_N_value (i : N) : decimal_value (str_of_N i) = Some i.
Proof.
  destruct (str_of_N_digits i) as [E Hne].
  unfold decimal_value. destruct (str_of_N i) as [|c s] eqn:Es; [contradiction|].
  rewrite E, decimal_from_zero. f_equal. apply DecimalN.Unsigned.of_to.
Qed.

Lemma nzhead_no_zero (d : Decimal.uint) :
  match Decimal.nzhead d with Decimal.D0 _ => False | _ => True end.
Proof. induction d; cbn; auto. Qed.

Lemma str_of_N_canonical (i : N) : canonical_decimal (str_of_N i) = true.
Proof.
  destruct (str_of_N_digits i) as [E _]. rewrite E.
  pose proof (DecimalN.Unsigned.to_of (N.to_uint i)) as Hn.
  rewrite DecimalN.Unsigned.of_to in Hn.
  pose proof (to_uint_nonnil i) as Hnil.
  destruct (N.to_uint i) as [|d|d|d|d|d|d|d|d|d|d] eqn:Ed; [contradiction|..];
    cbn [NilEmpty.string_of_uint]; rewrite U_cons;
    try (destruct d; reflexivity).
  unfold Decimal.unorm in Hn. cbn [Decimal.nzhead] in Hn.
  pose proof (nzhead_no_zero d) as Hz.
  destruct (Decimal.nzhead d) eqn:Eh; try contradiction; try discriminate.
  injection Hn as Hd. subst d. reflexivity.
Qed.

Lemma str_of_N_inj (i j : N) : str_of_N i = str_of_N j -> i = j.
Proof.
  intros E. pose proof (str_of_N_value i) as Hi. rewrite E, str_of_N_value in Hi.
  now injection Hi.
Qed.

(** The address of the sweep: the literal prefix, then the decimal text of
    the suffix. *)
Lemma ip_of_reads (i : N) :
  exists digits : str,
    ScanCelestron.ip_of i = U "192.168.68." ++ digits
    /\ decimal_value digits = Some i
    /\ canonical_decimal digits = true.
Proof.
  exists (str_of_N i). split; [reflexivity|]. split.
  - apply str_of_N_value.
  - apply str_of_N_canonical.
Qed.

Lemma ip_of_inj (i j : N) : ScanCelestron.ip_of i = ScanCelestron.ip_of j -> i = j.
Proof.
  unfold ScanCelestron.ip_of. intros E. apply app_inv_head in E. now apply str_of_N_inj.
Qed.

Lemma sorted_nodup (l : list N) : StronglySorted N.lt l -> NoDup l.
Proof.
  induction 1 as [|a l Hs IH Hall]; constructor; [|exact IH].
  intros Hin. rewrite Forall_forall in Hall. specialize (Hall a Hin). lia.
Qed.

Lemma ip_of_nodup (l : list N) : NoDup l -> NoDup (map ScanCelestron.ip_of l).
Proof.
  induction 1 as [|a l Ha Hl IH]; cbn [map]; constructor; [|exact IH].
  intros Hin. apply in_map_iff in Hin. destruct Hin as (b & E & Hb).
  apply ip_of_inj in E. now subst b.
Qed.

Section OracleSweep.
Import ScanCelestron.

Lemma scan_port_oracle (v : str -> res Z) (log : list str) (ip : str) (port timeout : N) :
  let net := {| verdict := v; probes := log |} in
  scan_port ip port timeout net
  = (Ret (accepts net ip), {| verdict := v; probes := log ++ [ip] |}).
Proof.
  cbn. unfold scan_port, try_except, bind, accepts; cbn.
  destruct (v ip) as [code|e]; reflexivity.
Qed.

Lemma sweep_loop_oracle (v : str -> res Z) (l : list N) :
  forall (found log : list str),
    sweep_loop l found {| verdict := v; probes := log |}
    = (Ret (found ++ map ip_of
                     (filter (fun i => accepts {| verdict := v; probes := [] |} (ip_of i)) l)),
       {| verdict := v; probes := log ++ map ip_of l |}).
Proof.
  induction l as [|i l IH]; intros found log.
  - cbn. now rewrite !app_nil_r.
  - cbn [sweep_loop]. unfold bind at 1. rewrite scan_port_oracle.
    cbn [filter map].
    change (accepts {| verdict := v; probes := log |} (ip_of i))
      with (accepts {| verdict := v; probes := [] |} (ip_of i)).
    destruct (accepts {| verdict := v; probes := [] |} (ip_of i));
      rewrite IH; cbn [map]; rewrite <- !app_assoc; reflexivity.
Qed.

(** C3: the sweep over a connectivity oracle.  Whatever the oracle answers,
    the sweep attempts a connect on the addresses with suffix 1 to 254, each
    once and in that order, and returns the accepting ones in ascending order
    of their suffix; when no address accepts, the result is the empty list.
    The address of suffix [i] is the text [192.168.68.] followed by the
    decimal digits of [i], with no leading zero: the 254 addresses are
    distinct, from [192.168.68.1] to [192.168.68.254], and an address is in
    the result exactly when it is one of them and accepts. *)
Theorem sweep_oracle (v : str -> res Z) (log : list str) :
  let net := {| verdict := v; probes := log |} in
  let hits := filter (fun i => accepts net (ip_of i)) (range 1 255) in
  sweep net = (Ret (map ip_of hits),
               {| verdict := v; probes := log ++ map ip_of (range 1 255) |})
  /\ (forall i, In i (range 1 255) <-> 1 <= i <= 254)
  /\ StronglySorted N.lt (range 1 255)
  /\ StronglySorted N.lt hits
  /\ ((forall ip, accepts net ip = false) -> map ip_of hits = [])
  /\ (forall i, exists digits : str,
         ip_of i = U "192.168.68." ++ digits
         /\ decimal_value digits = Some i
         /\ canonical_decimal digits = true)
  /\ (forall i j, ip_of i = ip_of j -> i = j)
  /\ ip_of 1 = U "192.168.68.1"
  /\ ip_of 254 = U "192.168.68.254"
  /\ List.length (map ip_of (range 1 255)) = 254%nat
  /\ NoDup (map ip_of (range 1 255))
  /\ NoDup (map ip_of hits)
  /\ (forall ip, In ip (map ip_of hits)
                 <-> exists i, 1 <= i <= 254 /\ ip = ip_of i /\ accepts net ip = true).
Proof.
  cbv zeta. split; [|split; [|split; [|split; [|split]]]].
  - unfold sweep. rewrite sweep_loop_oracle. reflexivity.
  - intros i. rewrite range_spec. lia.
  - apply range_sorted.
  - apply filter_sorted, range_sorted.
  - intros Hno.
    assert (Hf : forall l, filter (fun i => accepts {| verdict := v; probes := log |} (ip_of i)) l = []).
    { induction l as [|a l IH]; cbn [filter]; [reflexivity|]. now rewrite Hno. }
    now rewrite Hf.
  - split; [exact ip_of_reads|]. split; [exact ip_of_inj|].
    split; [reflexivity|]. split; [reflexivity|]. split; [reflexivity|].
    split; [apply ip_of_nodup, sorted_nodup, range_sorted|].
    split; [apply ip_of_nodup, sorted_nodup, filter_sorted, range_sorted|].
    intros ip. rewrite in_map_iff. split.
    + intros (i & <- & Hi). apply filter_In in Hi. destruct Hi as [Hi Ha].
      apply range_spec in Hi. exists i. split; [lia|]. split; [reflexivity|exact Ha].
    + intros (i & Hi & -> & Ha). exists i. split; [reflexivity|].
      apply filter_In. split; [apply range_spec; lia | exact Ha].
Qed.

(** The scenario of the specification: of the hosts probed, only
    [192.168.68.5] accepts. *)
Example sweep_single_host :
  fst (sweep {| verdict := fun ip => if str_eqb ip (U "192.168.68.5")
                                     then Ret 0%Z else Ret 111%Z;
                probes := [] |})
  = Ret [U "192.168.68.5"].
Proof. vm_compute. reflexivity. Qed.

End OracleSweep.

(** ** Port detection ([diagnose_homebrew.py]) *)

Lemma startswith_spec (s prefix : str) :
  startswith s prefix = true <-> exists post : str, s = prefix ++ post.
Proof.
  revert s. induction prefix as [|p prefix IH]; intros s.
  - split; [intros _; now exists s | intros _; destruct s; reflexivity].
  - destruct s as [|c s].
    + split; [discriminate | intros (post & E); discriminate].
    + cbn [startswith]. rewrite andb_true_iff, N.eqb_eq, IH. split.
      * intros (-> & post & ->). now exists post.
      * intros (post & [= -> ->]). split; [reflexivity | now exists post].
Qed.

(** The search decides the occurrence. *)
Lemma contains_spec (needle hay : str) :
  contains needle hay = true <-> occurs needle hay.
Proof.
  unfold occurs. induction hay as [|c hay IH]; cbn [contains].
  - rewrite orb_false_r, startswith_spec. split.
    + intros (post & E). now exists [], post.
    + intros (pre & post & E). destruct pre; [|discriminate].
      cbn in E. now exists post.
  - rewrite orb_true_iff, startswith_spec, IH. split.
    + intros [(post & E)|(pre & post & E)].
      * now exists [], post.
      * exists (c :: pre), post. cbn. now rewrite E.
    + intros (pre & post & E). destruct pre as [|c' pre].
      * left. now exists post.
      * right. injection E as _ E. now exists pre, post.
Qed.

Lemma contains_not (needle hay : str) :
  contains needle hay = false -> ~ occurs needle hay.
Proof.
  intros E Ho. apply contains_spec in Ho. rewrite Ho in E. discriminate.
Qed.

Section DetectFacts.
Import DiagnoseHomebrew.
Variable lower : str -> str.

Lemma keyword_loop_existsb (kws : list str) (p : port_info) :
  keyword_loop lower kws p
  = if existsb (fun k => keyword_hit lower k p) kws then Some (device p) else None.
Proof.
  induction kws as [|k kws IH]; cbn; [reflexivity|].
  destruct (keyword_hit lower k p); cbn; [reflexivity | exact IH].
Qed.

Lemma port_loop_find (kws : list str) (ports : list port_info) :
  port_loop lower kws ports
  = option_map device
      (find (fun p => existsb (fun k => keyword_hit lower k p) kws) ports).
Proof.
  induction ports as [|p ports IH]; cbn; [reflexivity|].
  rewrite keyword_loop_existsb.
  destruct (existsb (fun k => keyword_hit lower k p) kws); cbn; [reflexivity | exact IH].
Qed.

Lemma existsb_perm (A : Type) (f : A -> bool) (l l' : list A) :
  Permutation l l' -> existsb f l = existsb f l'.
Proof.
  induction 1 as [| x l l' _ IH | x y l | l l' l'' _ IH1 _ IH2]; cbn.
  - reflexivity.
  - now rewrite IH.
  - destruct (f x), (f y); reflexivity.
  - now rewrite IH1.
Qed.

Lemma port_loop_perm (kws kws' : list str) (ports : list port_info) :
  Permutation kws' kws -> port_loop lower kws' ports = port_loop lower kws ports.
Proof.
  intros HP. rewrite !port_loop_find. f_equal.
  induction ports as [|p ports IH]; cbn; [reflexivity|].
  rewrite (existsb_perm (fun k => keyword_hit lower k p) HP), IH. reflexivity.
Qed.

Lemma keyword_hit_case (k : str) (p q : port_info) :
  same_modulo_case lower p q -> keyword_hit lower k p = keyword_hit lower k q.
Proof.
  intros (_ & Hd & Hh). unfold keyword_hit. now rewrite Hd, Hh.
Qed.

Lemma any_keyword_case (kws : list str) (p q : port_info) :
  same_modulo_case lower p q ->
  existsb (fun k => keyword_hit lower k p) kws
  = existsb (fun k => keyword_hit lower k q) kws.
Proof.
  intros Hpq. induction kws as [|k kws IH]; cbn [existsb]; [reflexivity|].
  now rewrite IH, (keyword_hit_case k Hpq).
Qed.

Lemma port_loop_case (kws : list str) (ports ports' : list port_info) :
  Forall2 (same_modulo_case lower) ports ports' ->
  port_loop lower kws ports' = port_loop lower kws ports.
Proof.
  induction 1 as [|p q ports ports' Hpq _ IH]; cbn; [reflexivity|].
  rewrite !keyword_loop_existsb, <- (any_keyword_case kws Hpq).
  destruct Hpq as (Hdev & _).
  destruct (existsb _ kws); [now rewrite Hdev | exact IH].
Qed.

(** The condition of the inner loop over all keywords, in words of
    substrings. *)
Lemma any_keyword_names_chip (p : port_info) :
  existsb (fun k => keyword_hit lower k p) keywords = true <-> names_chip lower p.
Proof.
  unfold names_chip. rewrite existsb_exists. split.
  - intros (k & Hk & Hhit). exists k. split; [exact Hk|].
    unfold keyword_hit in Hhit. apply orb_true_iff in Hhit.
    destruct Hhit as [Hd|Hh]; [left | right]; now apply contains_spec.
  - intros (k & Hk & Hocc). exists k. split; [exact Hk|].
    unfold keyword_hit. apply orb_true_iff.
    destruct Hocc as [Hd|Hh]; [left | right]; now apply contains_spec.
Qed.

Lemma port_loop_first (ports : list port_info) (d : str) :
  port_loop lower keywords ports = Some d
  <-> exists (before : list port_info) (p : port_info) (after : list port_info),
        ports = before ++ p :: after
        /\ names_chip lower p
        /\ (forall q, In q before -> ~ names_chip lower q)
        /\ d = device p.
Proof.
  induction ports as [|p0 ports IH]; cbn [port_loop].
  - split; [discriminate|]. intros (before & p & after & E & _).
    destruct before; discriminate.
  - rewrite keyword_loop_existsb.
    destruct (existsb (fun k => keyword_hit lower k p0) keywords) eqn:Eh.
    + apply any_keyword_names_chip in Eh. split.
      * intros [= <-]. exists [], p0, ports. repeat split; [exact Eh|]. intros q [].
      * intros (before & p & after & E & Hp & Hbefore & ->).
        destruct before as [|q before].
        -- injection E as E1 _. now rewrite E1.
        -- injection E as E1 _. destruct (Hbefore p0); [now left | exact Eh].
    + assert (Hno : ~ names_chip lower p0).
      { intros Hn. apply any_keyword_names_chip in Hn. rewrite Hn in Eh. discriminate. }
      rewrite IH. split.
      * intros (before & p & after & -> & Hp & Hbefore & ->).
        exists (p0 :: before), p, after. repeat split; [exact Hp|].
        intros q [<-|Hq]; [exact Hno | now apply Hbefore].
      * intros (before & p & after & E & Hp & Hbefore & ->).
        destruct before as [|q before].
        -- injection E as E1 _. rewrite E1 in Hno. contradiction.
        -- injection E as _ E2. exists before, p, after. repeat split; [exact E2 | exact Hp|].
           intros q' Hq. apply Hbefore. now right.
Qed.

Lemma port_loop_none (ports : list port_info) :
  port_loop lower keywords ports = None
  <-> forall p, In p ports -> ~ names_chip lower p.
Proof.
  induction ports as [|p0 ports IH]; cbn [port_loop].
  - split; [intros _ p [] | reflexivity].
  - rewrite keyword_loop_existsb.
    destruct (existsb (fun k => keyword_hit lower k p0) keywords) eqn:Eh.
    + apply any_keyword_names_chip in Eh. split; [discriminate|].
      intros Hall. destruct (Hall p0); [now left | exact Eh].
    + assert (Hno : ~ names_chip lower p0).
      { intros Hn. apply any_keyword_names_chip in Hn. rewrite Hn in Eh. discriminate. }
      rewrite IH. split.
      * intros Hall p [<-|Hp]; [exact Hno | now apply Hall].
      * intros Hall p Hp. apply Hall. now right.
Qed.

End DetectFacts.

Section DetectClaims.
Import DiagnoseHomebrew.

Lemma ascii_upper_isascii (s : str) : isascii s = true -> isascii (ascii_upper s) = true.
Proof.
  unfold isascii, ascii_upper. rewrite !forallb_forall. intros Hs c Hc.
  apply in_map_iff in Hc. destruct Hc as (c0 & <- & Hc0). specialize (Hs c0 Hc0).
  apply N.ltb_lt in Hs. apply N.ltb_lt.
  destruct ((97 <=? c0) && (c0 <=? 122)); lia.
Qed.

Lemma ascii_lower_upper (s : str) : ascii_lower (ascii_upper s) = ascii_lower s.
Proof.
  unfold ascii_lower, ascii_upper. rewrite map_map. apply map_ext. intros c.
  destruct (97 <=? c) eqn:H1; destruct (c <=? 122) eqn:H2; cbn [andb]; try reflexivity.
  apply N.leb_le in H1, H2.
  replace ((65 <=? c - 32) && (c - 32 <=? 90)) with true
    by (symmetry; apply andb_true_iff; split; apply N.leb_le; lia).
  replace ((65 <=? c) && (c <=? 90)) with false
    by (symmetry; apply andb_false_iff; right; apply N.leb_gt; lia).
  lia.
Qed.

Lemma shout_same (p : port_info) : same_modulo_case ascii_lower p (shout p).
Proof.
  unfold same_modulo_case, shout; cbn. now rewrite !ascii_lower_upper.
Qed.

Lemma shout_same_ascii (lower : str -> str) (p : port_info) :
  (forall s, isascii s = true -> lower s = ascii_lower s) ->
  ascii_port p = true -> same_modulo_case lower p (shout p).
Proof.
  intros Hlow Hp. apply andb_true_iff in Hp. destruct Hp as [Hd Hh].
  unfold same_modulo_case, shout; cbn.
  rewrite (Hlow _ (ascii_upper_isascii _ Hd)), (Hlow _ (ascii_upper_isascii _ Hh)).
  rewrite (Hlow _ Hd), (Hlow _ Hh), !ascii_lower_upper. auto.
Qed.

(** C7: on a list of descriptors [detect_homebrew_port] does not raise.  It
    returns the device path of the first descriptor, in enumeration order,
    that names a chip: one of the keywords [CH340], [CP210], [FTDI],
    [USB-SERIAL], [ESP32], [Arduino], lower-cased, occurs as a substring in
    its lower-cased description or in its lower-cased hardware ID.  It
    returns [None] exactly when no descriptor names a chip.  The result does
    not depend on the order of the keyword list, and it depends on
    descriptions and hardware IDs only through their lower-case forms: for a
    [lower] that is [str.lower] on ASCII text, upper-casing the ASCII
    description and hardware ID of every descriptor leaves the result
    unchanged. *)
Theorem detect_first_match (lower : str -> str) (ports : list port_info) :
  (exists r : option str, detect_homebrew_port lower (Some ports) = Ret r)
  /\ (forall d : str,
        detect_homebrew_port lower (Some ports) = Ret (Some d)
        <-> exists (before : list port_info) (p : port_info) (after : list port_info),
              ports = before ++ p :: after
              /\ names_chip lower p
              /\ (forall q, In q before -> ~ names_chip lower q)
              /\ d = device p)
  /\ (detect_homebrew_port lower (Some ports) = Ret None
      <-> forall p, In p ports -> ~ names_chip lower p)
  /\ detect_homebrew_port lower (Some ports)
     = Ret (option_map device
              (find (fun p => existsb (fun k => keyword_hit lower k p) keywords) ports))
  /\ (forall kws', Permutation kws' keywords ->
        Ret (port_loop lower kws' ports) = detect_homebrew_port lower (Some ports))
  /\ (forall ports', Forall2 (same_modulo_case lower) ports ports' ->
        detect_homebrew_port lower (Some ports') = detect_homebrew_port lower (Some ports))
  /\ ((forall s, isascii s = true -> lower s = ascii_lower s) ->
      forallb ascii_port ports = true ->
      detect_homebrew_port lower (Some (map shout ports))
      = detect_homebrew_port lower (Some ports)).
Proof.
  split; [|split; [|split; [|split; [|split; [|split]]]]].
  - cbn. eauto.
  - intros d. cbn. rewrite <- port_loop_first. split; [intros [= E]; exact E | intros ->; reflexivity].
  - cbn. rewrite <- port_loop_none. split; [intros [= E]; exact E | intros ->; reflexivity].
  - cbn. now rewrite port_loop_find.
  - intros kws' HP. cbn. now rewrite (port_loop_perm lower ports HP).
  - intros ports' HF. cbn. now rewrite (port_loop_case keywords HF).
  - intros Hlow Hascii. cbn. f_equal. apply port_loop_case.
    induction ports as [|p ports IH]; cbn [map]; constructor.
    + apply shout_same_ascii; [exact Hlow|].
      cbn [forallb] in Hascii. now apply andb_true_iff in Hascii.
    + apply IH. cbn [forallb] in Hascii. now apply andb_true_iff in Hascii.
Qed.

(** Three ports with ASCII descriptions: the modem names no chip, the
    board after it names [Arduino], the adapter after that names [CH340].
    The board is detected, also with every description and hardware ID in
    upper case. *)
Lemma detect_first_match_bench :
  let modem := {| device := U "COM1"; description := U "Standard Modem";
                  hwid := U "ACPI PNP0501"; manufacturer := None |} in
  let uno := {| device := U "COM3"; description := U "Arduino Uno (COM3)";
                hwid := U "USB VID:PID=2341:0043"; manufacturer := None |} in
  let wch := {| device := U "COM4"; description := U "USB-SERIAL CH340 (COM4)";
                hwid := U "USB VID:PID=1A86:7523"; manufacturer := Some (U "wch.cn") |} in
  detect_homebrew_port ascii_lower (Some [modem; uno; wch]) = Ret (Some (U "COM3"))
  /\ detect_homebrew_port ascii_lower (Some (map shout [modem; uno; wch]))
     = detect_homebrew_port ascii_lower (Some [modem; uno; wch]).
Proof.
  cbv zeta.
  match goal with |- detect_homebrew_port _ (Some ?ports) = _ /\ _ =>
    destruct (detect_first_match ascii_lower ports)
      as (_ & Hfirst & _ & _ & _ & _ & Hshout)
  end.
  split.
  - apply Hfirst.
    match goal with |- exists _ _ _, [?a; ?b; ?c] = _ /\ _ => exists [a], b, [c] end.
    split; [reflexivity|]. split; [|split; [|reflexivity]].
    + exists (U "Arduino"). split; [cbn; tauto|]. left.
      exists [], (U " uno (com3)"). reflexivity.
    + intros q [<-|[]] (k & Hk & Hocc). cbn [In] in Hk.
      repeat (destruct Hk as [<-|Hk];
              [destruct Hocc as [Ho|Ho]; apply contains_spec in Ho;
               vm_compute in Ho; discriminate|]).
      destruct Hk.
  - apply Hshout; [intros s _; reflexivity | reflexivity].
Defined.

(** Two descriptors matching different keywords: the one enumerated first
    wins, although its keyword comes last in the keyword list. *)
Example detect_enumeration_order :
  let uno := {| device := U "COM3"; description := U "ARDUINO Uno (COM3)";
                hwid := U "USB VID:PID=2341:0043"; manufacturer := None |} in
  let wch := {| device := U "COM4"; description := U "usb-serial ch340 (COM4)";
                hwid := U "USB VID:PID=1A86:7523"; manufacturer := Some (U "wch.cn") |} in
  detect_homebrew_port ascii_lower (Some [uno; wch]) = Ret (Some (U "COM3"))
  /\ detect_homebrew_port ascii_lower (Some [wch; uno]) = Ret (Some (U "COM4")).
Proof. split; vm_compute; reflexivity. Qed.

(** C8: on the empty sequence of descriptors [detect_homebrew_port] returns
    [None] and does not raise; an empty enumeration makes [main] return at
    its guard without an error. *)
Theorem detect_empty (lower : str -> str) :
  detect_homebrew_port lower (Some []) = Ret None
  /\ main_autodetect lower [] = Ret None.
Proof. split; reflexivity. Qed.

End DetectClaims.

(** ** The command battery ([wifi_bt_gps_test.py]) *)

Section TesterFacts.
Import WifiBtGpsTest.
Context {W sock datetime : Type} `{TesterLib W sock datetime}.

Local Abbreviation St := (tester sock * W)%type.

(** [send_command] by cases on the outcome of each library call. *)
Lemma send_command_cases (command : str) (delay : N) (self : tester sock) (w : W) :
  send_command command delay (self, w) =
  match tn self with
  | None =>
      (Ret (U "Error: 'NoneType' object has no attribute 'send'"), (self, w))
  | Some s =>
      match utf8_encode (command ++ crlf) with
      | None => (Ret (U "Error: " ++ exn_msg (encode_error (command ++ crlf))), (self, w))
      | Some data =>
          match send s data w with
          | (Raise e, w1) => (Ret (U "Error: " ++ exn_msg e), (self, w1))
          | (Ret _, w1) =>
              match recv s 1024 (sleep delay w1) with
              | (Raise e, w2) => (Ret (U "Error: " ++ exn_msg e), (self, w2))
              | (Ret raw, w2) =>
                  match utf8_decode raw with
                  | None => (Ret (U "Error: " ++ exn_msg (decode_error raw)), (self, w2))
                  | Some text => (Ret (strip text), (self, w2))
                  end
              end
          end
      end
  end.
Proof.
  unfold send_command, tn_attr, io, codec, effect, get_self, try_except, bind, ret, raise.
  cbn [fst snd].
  destruct (tn self) as [s|] eqn:Htn; [|reflexivity].
  destruct (utf8_encode (command ++ crlf)) as [data|]; [|reflexivity].
  cbn [fst snd].
  destruct (send s data w) as [[n|e] w1]; [|reflexivity].
  cbn [fst snd]. rewrite Htn. cbn [fst snd].
  destruct (recv s 1024 (sleep delay w1)) as [[raw|e] w2]; [|reflexivity].
  cbn [fst snd].
  destruct (utf8_decode raw) as [text|]; reflexivity.
Qed.

Lemma send_command_returns (command : str) (delay : N) (st : St) :
  exists (r : str) (w' : W),
    send_command command delay st = (Ret r, (fst st, w'))
    /\ (lib_texts_ok _ -> text_ok r).
Proof.
  destruct st as [self w]. rewrite send_command_cases. cbn [fst].
  assert (Herr : forall e, text_ok (exn_msg e) -> text_ok (U "Error: " ++ exn_msg e))
    by (intros e He; apply text_ok_app; [apply text_ok_U | exact He]).
  destruct (tn self) as [s|]; [|eexists _, _; split; [reflexivity | intros _; apply text_ok_U]].
  destruct (utf8_encode (command ++ crlf)) as [data|].
  2:{ eexists _, _; split; [reflexivity|]. intros (_ & _ & Henc & _). apply Herr, Henc. }
  destruct (send s data w) as [[n|e] w1] eqn:Es.
  2:{ eexists _, _; split; [reflexivity|]. intros (Hsend & _). eapply Herr, Hsend, Es. }
  destruct (recv s 1024 (sleep delay w1)) as [[raw|e] w2] eqn:Er.
  2:{ eexists _, _; split; [reflexivity|]. intros (_ & Hrecv & _). eapply Herr, Hrecv, Er. }
  destruct (utf8_decode raw) as [text|] eqn:Ed.
  - eexists _, _; split; [reflexivity|]. intros _. eapply strip_ok, utf8_decode_ok, Ed.
  - eexists _, _; split; [reflexivity|]. intros (_ & _ & _ & Hdec & _). apply Herr, Hdec.
Qed.

(** One step of a suite: a [send_command] followed by the rest. *)
Ltac send_step :=
  match goal with
  | |- context [bind (send_command ?c ?d) ?k ?st] =>
      let r := fresh "r" in let w' := fresh "w" in
      let E := fresh "E" in let T := fresh "T" in
      destruct (send_command_returns c d st) as (r & w' & E & T);
      unfold bind at 1; rewrite E; cbn [fst snd]
  end.

Lemma test_wifi_module_returns (st : St) :
  exists (t : tests) (w' : W),
    test_wifi_module st = (Ret t, (fst st, w'))
    /\ map fst t = [U "wifi_status"; U "wifi_scan"; U "wifi_connect";
                    U "internet_ping"; U "local_ping"]
    /\ (lib_texts_ok _ -> Forall text_ok (map snd t)).
Proof.
  unfold test_wifi_module. repeat send_step.
  eexists _, _. split; [reflexivity|]. split; [reflexivity|].
  intros Hlib. cbn. repeat constructor; auto.
Qed.

Lemma test_bluetooth_module_returns (st : St) :
  exists (t : tests) (w' : W),
    test_bluetooth_module st = (Ret t, (fst st, w'))
    /\ map fst t = [U "bt_status"; U "bt_scan"; U "bt_pair"]
    /\ (lib_texts_ok _ -> Forall text_ok (map snd t)).
Proof.
  unfold test_bluetooth_module. repeat send_step.
  eexists _, _. split; [reflexivity|]. split; [reflexivity|].
  intros Hlib. cbn. repeat constructor; auto.
Qed.

Lemma test_gps_module_returns (st : St) :
  exists (t : tests) (w' : W),
    test_gps_module st = (Ret t, (fst st, w'))
    /\ map fst t = [U "gps_status"; U "gps_coordinates"; U "gps_satellites"; U "gps_time"]
    /\ (lib_texts_ok _ -> Forall text_ok (map snd t)).
Proof.
  unfold test_gps_module. repeat send_step.
  eexists _, _. split; [reflexivity|]. split; [reflexivity|].
  intros Hlib. cbn. repeat constructor; auto.
Qed.

Lemma test_usb_relay_returns (st : St) :
  exists (t : tests) (w' : W),
    test_usb_relay st = (Ret t, (fst st, w'))
    /\ map fst t = [U "usb_status"; U "usb_relay_on"; U "usb_relay_off"]
    /\ (lib_texts_ok _ -> Forall text_ok (map snd t)).
Proof.
  unfold test_usb_relay. repeat send_step.
  unfold bind at 1, io, effect. cbn [fst snd]. repeat send_step.
  eexists _, _. split; [reflexivity|]. split; [reflexivity|].
  intros Hlib. cbn. repeat constructor; auto.
Qed.

Lemma test_device_info_returns (st : St) :
  exists (t : tests) (w' : W),
    test_device_info st = (Ret t, (fst st, w'))
    /\ map fst t = [U "device_version"; U "device_uptime"; U "device_temperature";
                    U "memory_status"]
    /\ (lib_texts_ok _ -> Forall text_ok (map snd t)).
Proof.
  unfold test_device_info. repeat send_step.
  eexists _, _. split; [reflexivity|]. split; [reflexivity|].
  intros Hlib. cbn. repeat constructor; auto.
Qed.










(** A successful [connect_telnet] leaves a socket in [self.tn] and the
    results as they were. *)
Lemma connect_telnet_true (st st1 : St) :
  connect_telnet st = (Ret true, st1) ->
  exists s : sock, tn (fst st1) = Some s /\ test_results (fst st1) = test_results (fst st)
                   /\ host (fst st1) = host (fst st) /\ port (fst st1) = port (fst st).
Proof.
  destruct st as [self w].
  unfold connect_telnet, try_except, bind, io, set_self, get_self, ret. cbn [fst snd].
  destruct (socket_socket w) as [[s|e] w1]; cbn [fst snd]; [|discriminate].
  destruct (settimeout s 5000 w1) as [[[]|e] w2]; cbn [fst snd]; [|discriminate].
  change (host (with_tn (Some s) self)) with (host self).
  change (port (with_tn (Some s) self)) with (port self).
  destruct (connect s (host self) (port self) w2) as [[[]|e] w3]; cbn [fst snd]; [|discriminate].
  intros [= <-]. exists s. cbn. auto.
Qed.


Ltac suite_step lem :=
  match goal with
  | |- context [bind _ _ ?st] =>
      let t := fresh "t" in let w' := fresh "w" in
      let E := fresh "E" in let K := fresh "K" in let V := fresh "V" in
      destruct (lem st) as (t & w' & E & K & V);
      unfold bind at 1; rewrite E; cbn [fst snd];
      unfold bind at 1, set_result, set_self; cbn [fst snd]
  end.

Ltac clock_step :=
  unfold bind at 1, io, lift; cbn [fst snd];
  match goal with
  | |- context [datetime_now ?w] =>
      let t := fresh "now" in let w' := fresh "w" in
      destruct (datetime_now w) as [t w']; cbn [fst snd]
  end.

(** The result set of a run, from the mappings of the five suites and the
    two readings of the clock. *)
Lemma run_all_tests_connected (st st1 : St) :
  connect_telnet st = (Ret true, st1) ->
  exists (t1 t2 t3 t4 t5 : tests) (a b : datetime) (st' : St),
    let r :=
      dict_set (dict_set (dict_set (dict_set (dict_set (dict_set (dict_set
        (test_results (fst st))
        (U "wifi_tests") (Mapping t1))
        (U "bluetooth_tests") (Mapping t2))
        (U "gps_tests") (Mapping t3))
        (U "usb_tests") (Mapping t4))
        (U "device_tests") (Mapping t5))
        (U "test_duration") (Text (elapsed a b)))
        (U "test_timestamp") (Text (isoformat a)) in
    run_all_tests st = (Ret (Some r), st')
    /\ test_results (fst st') = r
    /\ Forall2 (fun t row => map fst t = snd row
                             /\ (lib_texts_ok _ -> Forall text_ok (map snd t)))
         [t1; t2; t3; t4; t5] suite_table.
Proof.
  intros Hc. destruct (connect_telnet_true _ Hc) as (s & Htn & Hres & _).
  unfold run_all_tests. unfold bind at 1. rewrite Hc. cbn [negb].
  destruct st1 as [self1 w1]. cbn [fst] in Htn, Hres.
  clock_step.
  suite_step test_wifi_module_returns.
  suite_step test_bluetooth_module_returns.
  suite_step test_gps_module_returns.
  suite_step test_usb_relay_returns.
  suite_step test_device_info_returns.
  clock_step.
  unfold bind at 1, set_result, set_self; cbn [fst snd].
  unfold bind at 1, set_result, set_self; cbn [fst snd].
  unfold bind at 1, tn_attr, get_self. unfold bind at 1. cbn [fst snd tn with_result].
  rewrite Htn. unfold ret at 1. cbn [fst snd].
  unfold bind at 1, io, effect. cbn [fst snd].
  unfold bind at 1, get_self, ret. cbn [fst snd test_results with_result].
  rewrite Hres.
  eexists _, _, _, _, _, _, _, _. cbv zeta. split; [reflexivity|].
  split; [cbn [fst test_results with_result]; now rewrite Hres|].
  repeat (constructor; [split; assumption|]). constructor.
Qed.


(** [connect_telnet] returns a boolean. *)
Lemma connect_telnet_returns (st : St) :
  exists (b : bool) (st1 : St), connect_telnet st = (Ret b, st1).
Proof.
  destruct st as [self w].
  unfold connect_telnet, try_except, bind, io, set_self, get_self, ret. cbn [fst snd].
  destruct (socket_socket w) as [[s|e] w1]; cbn [fst snd]; [|eauto].
  destruct (settimeout s 5000 w1) as [[[]|e] w2]; cbn [fst snd]; [|eauto].
  change (host (with_tn (Some s) self)) with (host self).
  change (port (with_tn (Some s) self)) with (port self).
  destruct (connect s (host self) (port self) w2) as [[[]|e] w3]; cbn [fst snd]; eauto.
Qed.

Lemma dict_set_keys_nodup (V : Type) (d : list (str * V)) (k : str) (v : V) :
  NoDup (map fst d) -> NoDup (map fst (dict_set d k v)).
Proof.
  intros Hnd. induction d as [|[k' v'] d IH]; cbn.
  - constructor; [intros [] | constructor].
  - cbn in Hnd. inversion Hnd as [|x l Hnotin Hnd']; subst.
    destruct (str_eqb k' k) eqn:E; cbn; [exact Hnd|].
    constructor; [|now apply IH].
    intros Hin. apply in_map_iff in Hin. destruct Hin as ([k0 v0] & Hk0 & Hin).
    cbn in Hk0. subst k0. apply dict_set_in in Hin. destruct Hin as [[-> _]|Hin].
    + rewrite str_eqb_refl in E. discriminate.
    + apply Hnotin. apply in_map_iff. now exists (k', v0).
Qed.

Lemma dict_set_forall (V : Type) (P : str * V -> Prop) (d : list (str * V)) (k : str) (v : V) :
  Forall P d -> P (k, v) -> Forall P (dict_set d k v).
Proof.
  intros Hd Hkv. induction Hd as [|[k' v'] d Hx Hd IH]; cbn.
  - now constructor.
  - destruct (str_eqb k' k) eqn:E.
    + apply str_eqb_eq in E. subst k'. now constructor.
    + constructor; [exact Hx | exact IH].
Qed.

Lemma results_ok_set (r : results) (k : str) (e : entry) :
  results_ok r -> text_ok k -> entry_ok e -> results_ok (dict_set r k e).
Proof.
  intros [Hnd Hall] Hk He. split; [now apply dict_set_keys_nodup|].
  apply dict_set_forall; [exact Hall | now split].
Qed.

Lemma nodup_literals (l : list str) :
  (fix distinct (l : list str) : bool :=
     match l with
     | [] => true
     | k :: l' => negb (existsb (str_eqb k) l') && distinct l'
     end) l = true -> NoDup l.
Proof.
  induction l as [|k l IH]; intros Hd; [constructor|].
  apply andb_true_iff in Hd. destruct Hd as [Hk Hl]. constructor; [|now apply IH].
  intros Hin. apply negb_true_iff in Hk.
  assert (Hex : existsb (str_eqb k) l = true)
    by (apply existsb_exists; exists k; split; [exact Hin | apply str_eqb_refl]).
  congruence.
Qed.

Lemma suite_tests_ok (t : tests) (row : str * list str) :
  In row suite_table -> map fst t = snd row -> Forall text_ok (map snd t) -> tests_ok t.
Proof.
  intros Hrow Hkeys Hvals. split.
  - rewrite Hkeys. cbn [suite_table In] in Hrow.
    repeat (destruct Hrow as [<-|Hrow]; [apply nodup_literals; reflexivity|]). contradiction.
  - assert (Hk : Forall text_ok (map fst t)).
    { rewrite Hkeys. cbn [suite_table In] in Hrow.
      repeat (destruct Hrow as [<-|Hrow];
              [cbn [snd]; repeat constructor; apply text_ok_U|]). contradiction. }
    clear Hkeys. induction t as [|[k v] t IH]; [constructor|].
    cbn in Hk, Hvals. inversion Hk; inversion Hvals; subst.
    constructor; [now split | now apply IH].
Qed.

(** The result set of a run is one [save_results] writes and reads back:
    each key once and every text well formed, given that the library's own
    texts are. *)
Lemma run_results_ok (st st' : St) (r : results) :
  lib_texts_ok _ ->
  results_ok (test_results (fst st)) ->
  run_all_tests st = (Ret (Some r), st') ->
  results_ok r.
Proof.
  intros Hlib Hok Hrun.
  destruct (connect_telnet_returns st) as ([|] & st1 & Hc).
  2:{ unfold run_all_tests in Hrun. unfold bind at 1 in Hrun. rewrite Hc in Hrun.
      cbn in Hrun. discriminate. }
  destruct (run_all_tests_connected _ Hc)
    as (t1 & t2 & t3 & t4 & t5 & a & b & st2 & Hrun' & _ & Hsuites).
  cbv zeta in Hrun'. rewrite Hrun' in Hrun. injection Hrun as <- _.
  repeat match goal with
         | H : Forall2 _ (_ :: _) _ |- _ => inversion H; clear H; subst
         | H : Forall2 _ [] _ |- _ => clear H
         | H : _ /\ _ |- _ => destruct H
         end.
  destruct Hlib as (Hl1 & Hl2 & Hl3 & Hl4 & Hl5 & Hl6).
  assert (Hlib : lib_texts_ok _) by (repeat split; assumption).
  repeat (apply results_ok_set; [| apply text_ok_U |]);
    [exact Hok | ..]; cbn [entry_ok]; try apply Hl5; try apply Hl6.
  all: eapply suite_tests_ok; [| eassumption | auto].
  all: cbn [suite_table In]; auto 10.
Qed.

(** C2: the device-information scenario.  On a transport on which
    [send_command] answers [VERSION] with [v1.2.3] and each of [UPTIME],
    [TEMPERATURE] and [MEMORY] with the empty string, [test_device_info]
    returns the mapping of the four names to these responses.  [Inv] is
    what stays true of the transport from one command to the next. *)
Theorem device_info_scenario (Inv : St -> Prop) (st : St) :
  (forall st0, Inv st0 ->
     exists st1, send_command (U "VERSION") 500 st0 = (Ret (U "v1.2.3"), st1) /\ Inv st1) ->
  (forall cmd st0, In cmd [U "UPTIME"; U "TEMPERATURE"; U "MEMORY"] -> Inv st0 ->
     exists st1, send_command cmd 500 st0 = (Ret [], st1) /\ Inv st1) ->
  Inv st ->
  exists st',
    test_device_info st
    = (Ret [(U "device_version", U "v1.2.3"); (U "device_uptime", []);
            (U "device_temperature", []); (U "memory_status", [])], st')
    /\ Inv st'.
Proof.
  intros Hversion Hother H0.
  unfold test_device_info.
  destruct (Hversion _ H0) as (st1 & E1 & H1).
  unfold bind at 1. rewrite E1.
  destruct (Hother (U "UPTIME") _ (or_introl eq_refl) H1) as (st2 & E2 & H2).
  unfold bind at 1. rewrite E2.
  destruct (Hother (U "TEMPERATURE") _ (or_intror (or_introl eq_refl)) H2) as (st3 & E3 & H3).
  unfold bind at 1. rewrite E3.
  destruct (Hother (U "MEMORY") _ (or_intror (or_intror (or_introl eq_refl))) H3)
    as (st4 & E4 & H4).
  unfold bind at 1. rewrite E4.
  exists st4. split; [reflexivity | exact H4].
Qed.

End TesterFacts.

(** ** The mount session ([telescope_comm.py]) *)

Section MountFacts.
Import TelescopeComm.
Context {W TN SER : Type} `{MountLib W TN SER}.

Local Abbreviation St := (mount TN SER * W)%type.

(** [send_command] by cases on the state of the object and the outcome of
    each library call. *)
Lemma mount_send_command_cases (command : str) (self : mount TN SER) (w : W) :
  send_command command (self, w) =
  if negb (connected self) then (Ret None, (self, w))
  else
    match tn self with
    | Some t =>
        match ascii_encode (command ++ crlf) with
        | None => (Ret None, (self, w))
        | Some data =>
            match telnet_write t data w with
            | (Raise _, w1) => (Ret None, (self, w1))
            | (Ret _, w1) =>
                match telnet_read_some t (sleep 500 w1) with
                | (Raise _, w2) => (Ret None, (self, w2))
                | (Ret raw, w2) =>
                    match ascii_decode raw with
                    | None => (Ret None, (self, w2))
                    | Some text => (Ret (Some (strip text)), (self, w2))
                    end
                end
            end
        end
    | None =>
        match serial self with
        | Some p =>
            match ascii_encode (command ++ crlf) with
            | None => (Ret None, (self, w))
            | Some data =>
                match serial_write p data w with
                | (Raise _, w1) => (Ret None, (self, w1))
                | (Ret _, w1) =>
                    match serial_readline p (sleep 500 w1) with
                    | (Raise _, w2) => (Ret None, (self, w2))
                    | (Ret raw, w2) =>
                        match ascii_decode raw with
                        | None => (Ret None, (self, w2))
                        | Some text => (Ret (Some (strip text)), (self, w2))
                        end
                    end
                end
            end
        | None => (Ret None, (self, w))
        end
    end.
Proof.
  unfold send_command, io, codec, effect, get_self. unfold bind at 1. cbn [fst snd].
  destruct (connected self); cbn [negb]; [|reflexivity].
  unfold try_except, bind, ret, raise.
  destruct (tn self) as [t|].
  - destruct (ascii_encode (command ++ crlf)) as [data|]; [|reflexivity].
    cbn [fst snd].
    destruct (telnet_write t data w) as [[[]|e] w1]; [|reflexivity].
    cbn [fst snd].
    destruct (telnet_read_some t (sleep 500 w1)) as [[raw|e] w2]; [|reflexivity].
    cbn [fst snd].
    destruct (ascii_decode raw) as [text|]; reflexivity.
  - destruct (serial self) as [p|]; [|reflexivity].
    destruct (ascii_encode (command ++ crlf)) as [data|]; [|reflexivity].
    cbn [fst snd].
    destruct (serial_write p data w) as [[n|e] w1]; [|reflexivity].
    cbn [fst snd].
    destruct (serial_readline p (sleep 500 w1)) as [[raw|e] w2]; [|reflexivity].
    cbn [fst snd].
    destruct (ascii_decode raw) as [text|]; reflexivity.
Qed.

Lemma mount_send_command_returns (command : str) (st : St) :
  exists (r : option str) (w' : W), send_command command st = (Ret r, (fst st, w')).
Proof.
  destruct st as [self w]. rewrite mount_send_command_cases. cbn [fst].
  destruct (connected self); cbn [negb]; [|eauto].
  destruct (tn self) as [t|].
  - destruct (ascii_encode (command ++ crlf)) as [data|]; [|eauto].
    destruct (telnet_write t data w) as [[[]|e] w1]; [|eauto].
    destruct (telnet_read_some t (sleep 500 w1)) as [[raw|e] w2]; [|eauto].
    destruct (ascii_decode raw) as [text|]; eauto.
  - destruct (serial self) as [p|]; [|eauto].
    destruct (ascii_encode (command ++ crlf)) as [data|]; [|eauto].
    destruct (serial_write p data w) as [[n|e] w1]; [|eauto].
    destruct (serial_readline p (sleep 500 w1)) as [[raw|e] w2]; [|eauto].
    destruct (ascii_decode raw) as [text|]; eauto.
Qed.

(** One turn of the loop of [get_mount_info]. *)
Lemma mount_info_loop_step (cmd : str) (cmds : list str) (results : list (str * str))
      (st : St) (response : option str) (w1 : W) :
  send_command cmd st = (Ret response, (fst st, w1)) ->
  mount_info_loop (cmd :: cmds) results st
  = mount_info_loop cmds
      match response with
      | Some r => if truthy r then dict_set results cmd r else results
      | None => results
      end
      (fst st, sleep 200 w1).
Proof.
  intros E. cbn [mount_info_loop]. unfold bind at 1. rewrite E.
  unfold bind at 1, io, effect. cbn [fst snd]. reflexivity.
Qed.

Lemma mount_info_loop_returns (cmds : list str) :
  forall (results : list (str * str)) (st : St),
    exists (r : list (str * str)) (w' : W),
      mount_info_loop cmds results st = (Ret r, (fst st, w'))
      /\ (forall k v, In (k, v) r -> In (k, v) results \/ (In k cmds /\ v <> [])).
Proof.
  induction cmds as [|cmd cmds IH]; intros results st.
  - exists results, (snd st). destruct st; cbn. split; [reflexivity | auto].
  - destruct (mount_send_command_returns cmd st) as (response & w1 & E).
    rewrite (mount_info_loop_step _ cmds results _ E).
    match goal with |- context [mount_info_loop cmds ?rs ?s] =>
      destruct (IH rs s) as (r & w' & E' & Hr) end.
    exists r, w'. split; [exact E'|].
    intros k v Hin. destruct (Hr k v Hin) as [Hold|[Hk Hv]].
    + destruct response as [resp|]; [|now left].
      destruct resp as [|c resp]; cbn [truthy] in Hold; [now left|].
      apply dict_set_in in Hold. destruct Hold as [[-> ->]|Hold]; [|now left].
      right. split; [now left | discriminate].
    + right. split; [now right | exact Hv].
Qed.

Lemma mount_info_loop_unconnected (cmds : list str) :
  forall (results : list (str * str)) (self : mount TN SER) (w : W),
    connected self = false ->
    exists w', mount_info_loop cmds results (self, w) = (Ret results, (self, w')).
Proof.
  induction cmds as [|cmd cmds IH]; intros results self w Hc.
  - exists w. reflexivity.
  - assert (E : send_command cmd (self, w) = (Ret None, (fst (self, w), w))).
    { rewrite mount_send_command_cases, Hc. reflexivity. }
    rewrite (mount_info_loop_step _ cmds results _ E). cbn [fst].
    apply IH, Hc.
Qed.

(** C10: [get_mount_info] always returns a mapping; every value in it is a
    non-empty string and every key is one of the four commands.  A command
    enters the mapping only when its response is a non-empty string: a
    response of [None] or of the empty string leaves the mapping as it was,
    so keys of issued commands can be missing, all four of them on a session
    that is not connected. *)
Theorem mount_info_only_truthy (st : St) :
  exists (r : list (str * str)) (w' : W),
    get_mount_info st = (Ret r, (fst st, w'))
    /\ (forall k v, In (k, v) r -> v <> [] /\ In k commands)
    /\ (forall k v, dict_get r k = Some v -> v <> [] /\ In k commands)
    /\ (connected (fst st) = false -> r = [])
    /\ (forall cmd results response w1,
          send_command cmd st = (Ret response, (fst st, w1)) ->
          mount_info_loop [cmd] results st
          = (Ret match response with
                 | Some (c :: s) => dict_set results cmd (c :: s)
                 | _ => results
                 end, (fst st, sleep 200 w1))).
Proof.
  unfold get_mount_info.
  destruct (mount_info_loop_returns commands [] st) as (r & w' & E & Hr).
  exists r, w'. split; [exact E|].
  assert (Hval : forall k v, In (k, v) r -> v <> [] /\ In k commands).
  { intros k v Hin. destruct (Hr k v Hin) as [[]|[Hk Hv]]. auto. }
  split; [exact Hval|]. split; [|split].
  - intros k v Hg. apply Hval. now apply dict_get_in.
  - intros Hc. destruct st as [self w]. cbn [fst] in *.
    destruct (mount_info_loop_unconnected commands [] self w Hc) as (w2 & E2).
    rewrite E2 in E. now injection E as <- _.
  - intros cmd results response w1 Es.
    rewrite (mount_info_loop_step _ [] results _ Es). cbn [mount_info_loop]. unfold ret.
    destruct response as [[|c s]|]; reflexivity.
Qed.


End MountFacts.
(** ** Responses, silence and errors *)

Section ReadOutcomes.
Context {W sock datetime : Type} {L : WifiBtGpsTest.TesterLib W sock datetime}.
Context {W' TN SER : Type} {L' : TelescopeComm.MountLib W' TN SER}.


End ReadOutcomes.

Section SimulatedSilence.
Import WifiBtGpsTest Simulation.


End SimulatedSilence.

(** ** Exceptions on an open session *)

Section CaughtExceptions.
Context {W sock datetime : Type} {L : WifiBtGpsTest.TesterLib W sock datetime}.
Context {W' TN SER : Type} {L' : TelescopeComm.MountLib W' TN SER}.


End CaughtExceptions.

Section BrokenTelnetLine.
Import TelescopeComm MountScript.


End BrokenTelnetLine.
(** ** The JSON report *)

Section JsonFacts.
Import Json.

(** Arithmetic with division and remainder by constants. *)
Ltac divmod := zify; Z.to_euclidean_division_equations; lia.

(** *** Hexadecimal escapes *)

Lemma hex_value_digit (d : N) : d < 16 -> hex_value (hex_digit d) = Some d.
Proof.
  intros Hd. unfold hex_digit, hex_value.
  destruct (d <? 10) eqn:E; [apply N.ltb_lt in E | apply N.ltb_ge in E].
  - replace ((48 <=? 48 + d) && (48 + d <=? 57)) with true
      by (symmetry; apply andb_true_iff; split; apply N.leb_le; lia).
    f_equal. lia.
  - replace ((48 <=? 87 + d) && (87 + d <=? 57)) with false
      by (symmetry; apply andb_false_iff; right; apply N.leb_gt; lia).
    replace ((97 <=? 87 + d) && (87 + d <=? 102)) with true
      by (symmetry; apply andb_true_iff; split; apply N.leb_le; lia).
    f_equal. lia.
Qed.

Lemma decode_hex4 (n : N) (rest : str) :
  n < 65536 -> decode_uXXXX (hex4 n ++ rest) = Some (n, rest).
Proof.
  intros Hn. unfold hex4, decode_uXXXX. cbn [app].
  rewrite !hex_value_digit by (apply N.mod_lt; discriminate).
  do 2 f_equal. divmod.
Qed.

(** *** Surrogate pairs *)

Lemma lor_disjoint (a b k : N) : b < 2 ^ k -> N.lor (a * 2 ^ k) b = a * 2 ^ k + b.
Proof.
  intros Hb. rewrite <- N.lxor_lor, <- N.add_nocarry_lxor; try reflexivity.
  all: apply N.bits_inj; intros i; rewrite N.land_spec, N.bits_0.
  all: destruct (N.ltb_spec i k) as [Hlt|Hge].
  all: try (rewrite N.mul_pow2_bits_low by exact Hlt; reflexivity).
  all: rewrite <- (N.mod_small b (2 ^ k)) by exact Hb.
  all: rewrite N.mod_pow2_bits_high by exact Hge; apply andb_false_r.
Qed.

Lemma high_surrogate (n : N) :
  n < 1048576 -> N.lor 55296 (N.land (N.shiftr n 10) 1023) = 55296 + n / 1024.
Proof.
  intros Hn. change 1023 with (N.ones 10). rewrite N.land_ones, N.shiftr_div_pow2.
  change (2 ^ 10) with 1024. rewrite N.mod_small by divmod.
  change 55296 with (54 * 2 ^ 10) at 1. rewrite lor_disjoint; [reflexivity|].
  change (2 ^ 10) with 1024. divmod.
Qed.

Lemma low_surrogate (n : N) : N.lor 56320 (N.land n 1023) = 56320 + n mod 1024.
Proof.
  change 1023 with (N.ones 10). rewrite N.land_ones. change (2 ^ 10) with 1024.
  change 56320 with (55 * 2 ^ 10) at 1. rewrite lor_disjoint; [reflexivity|].
  change (2 ^ 10) with 1024. apply N.mod_lt. discriminate.
Qed.

Lemma join_surrogates (n : N) :
  n < 1048576 ->
  65536 + N.lor (N.shiftl (55296 + n / 1024 - 55296) 10) (56320 + n mod 1024 - 56320)
  = 65536 + n.
Proof.
  intros Hn. rewrite (N.add_comm 55296), (N.add_comm 56320), !N.add_sub.
  rewrite N.shiftl_mul_pow2, lor_disjoint by (apply N.mod_lt; discriminate).
  change (2 ^ 10) with 1024. divmod.
Qed.

(** *** Strings *)

Lemma scalar_cases (c : N) :
  is_scalar c = true -> c < 55296 \/ (57344 <= c /\ c < 1114112).
Proof.
  unfold is_scalar. rewrite orb_true_iff, andb_true_iff, N.ltb_lt, N.leb_le, N.ltb_lt. tauto.
Qed.

(** The decoder reads the escape of one code point back as that code
    point. *)
Lemma scanstring_char (c : N) (fuel : nat) (rest acc : str) :
  is_scalar c = true ->
  scanstring (S fuel) (escape_char c ++ rest) acc = scanstring fuel rest (c :: acc).
Proof.
  intros Hc. apply scalar_cases in Hc. unfold escape_char.
  destruct (c =? 34) eqn:E34; [apply N.eqb_eq in E34; subst c; reflexivity|].
  destruct (c =? 92) eqn:E92; [apply N.eqb_eq in E92; subst c; reflexivity|].
  destruct (c =? 10) eqn:E10; [apply N.eqb_eq in E10; subst c; reflexivity|].
  destruct (c =? 13) eqn:E13; [apply N.eqb_eq in E13; subst c; reflexivity|].
  destruct (c =? 9) eqn:E9; [apply N.eqb_eq in E9; subst c; reflexivity|].
  destruct (c =? 12) eqn:E12; [apply N.eqb_eq in E12; subst c; reflexivity|].
  destruct (c =? 8) eqn:E8; [apply N.eqb_eq in E8; subst c; reflexivity|].
  destruct ((32 <=? c) && (c <=? 126)) eqn:Eprint.
  - apply andb_true_iff in Eprint. destruct Eprint as [Hlo _]. apply N.leb_le in Hlo.
    cbn [app scanstring]. rewrite E34, E92.
    replace (c <? 32) with false by (symmetry; apply N.ltb_ge; exact Hlo).
    reflexivity.
  - destruct (c <? 65536) eqn:Ebmp; [apply N.ltb_lt in Ebmp | apply N.ltb_ge in Ebmp].
    + unfold u_escape. rewrite <- !app_assoc.
      change ([92; 117] ++ hex4 c ++ rest) with (92 :: 117 :: hex4 c ++ rest).
      cbn -[decode_uXXXX hex4]. rewrite decode_hex4 by exact Ebmp.
      replace ((55296 <=? c) && (c <=? 56319)) with false; [reflexivity|].
      symmetry. apply andb_false_iff. destruct Hc as [Hc|[Hc _]];
        [left; apply N.leb_gt | right; apply N.leb_gt]; lia.
    + assert (Hn : c - 65536 < 1048576) by lia.
      cbv zeta. rewrite high_surrogate, low_surrogate by exact Hn.
      remember ((c - 65536) / 1024) as q eqn:Eq.
      remember ((c - 65536) mod 1024) as r eqn:Er.
      assert (Hq : q < 1024) by (subst q; apply N.Div0.div_lt_upper_bound; lia).
      assert (Hr : r < 1024) by (subst r; apply N.mod_lt; discriminate).
      unfold u_escape. rewrite <- !app_assoc.
      change ([92; 117] ++ hex4 (55296 + q) ++ [92; 117] ++ hex4 (56320 + r) ++ rest)
        with (92 :: 117 :: hex4 (55296 + q) ++ 92 :: 117 :: hex4 (56320 + r) ++ rest).
      cbn -[decode_uXXXX hex4 N.lor N.shiftl N.sub N.add].
      rewrite decode_hex4 by lia.
      replace ((55296 <=? 55296 + q) && (55296 + q <=? 56319)) with true
        by (symmetry; apply andb_true_iff; split; apply N.leb_le; lia).
      cbn -[decode_uXXXX hex4 N.lor N.shiftl N.sub N.add].
      rewrite decode_hex4 by lia.
      replace ((56320 <=? 56320 + r) && (56320 + r <=? 57343)) with true
        by (symmetry; apply andb_true_iff; split; apply N.leb_le; lia).
      subst q r. rewrite join_surrogates by exact Hn.
      replace (65536 + (c - 65536)) with c by lia. reflexivity.
Qed.

Lemma scanstring_text (s : str) :
  forall (fuel : nat) (rest acc : str),
    text_ok s -> (List.length s < fuel)%nat ->
    scanstring fuel (flat_map escape_char s ++ 34 :: rest) acc = Some (rev acc ++ s, rest).
Proof.
  induction s as [|c s IH]; intros fuel rest acc Hok Hfuel.
  - destruct fuel as [|fuel]; [inversion Hfuel|]. cbn. now rewrite app_nil_r.
  - destruct fuel as [|fuel]; [inversion Hfuel|].
    inversion Hok as [|c' s' Hc Hs]; subst.
    cbn [flat_map]. rewrite <- app_assoc, scanstring_char by exact Hc.
    rewrite IH by (try exact Hs; cbn [List.length] in Hfuel; lia).
    cbn [rev]. now rewrite <- app_assoc.
Qed.

Lemma escape_char_length (c : N) : (1 <= List.length (escape_char c))%nat.
Proof.
  unfold escape_char.
  repeat match goal with |- context [if ?b then _ else _] => destruct b end;
    cbn; try rewrite !length_app; cbn; lia.
Qed.

Lemma escaped_length (s : str) : (List.length s <= List.length (flat_map escape_char s))%nat.
Proof.
  induction s as [|c s IH]; cbn; [lia|].
  rewrite length_app. pose proof (escape_char_length c). lia.
Qed.

(** A string value reads back, whatever follows its closing quote. *)
Lemma scanstring_encoded (s rest : str) :
  text_ok s ->
  exists body,
    encode_string s ++ rest = 34 :: body
    /\ scanstring (List.length body) body [] = Some (s, rest).
Proof.
  intros Hok. exists (flat_map escape_char s ++ 34 :: rest). split.
  - unfold encode_string. cbn [app]. now rewrite <- app_assoc.
  - rewrite scanstring_text; [reflexivity | exact Hok |].
    rewrite length_app. cbn [List.length]. pose proof (escaped_length s). lia.
Qed.

(** *** Values *)

Lemma value_induction (P : value -> Prop) :
  (forall s, P (JString s)) ->
  (forall ms, Forall (fun m => P (snd m)) ms -> P (JObject ms)) ->
  forall v, P v.
Proof.
  intros Hs Ho. fix IH 1. intros [s|ms]; [apply Hs|]. apply Ho.
  induction ms as [|[k x] ms IHms]; constructor; [apply IH | exact IHms].
Qed.

Lemma value_ok_object (ms : list (str * value)) :
  value_ok (JObject ms) <-> NoDup (map fst ms) /\ members_ok ms.
Proof.
  cbn [value_ok]. apply and_iff_compat_l. unfold members_ok.
  induction ms as [|[k x] ms IH]; split; intros Hall.
  - constructor.
  - exact I.
  - destruct Hall as (Hk & Hx & Hrest). constructor; [now split | now apply IH].
  - inversion Hall as [|m ms' [Hk Hx] Hrest]; subst. repeat split; [exact Hk | exact Hx | now apply IH].
Qed.

Lemma need_object (ms : list (str * value)) : need (JObject ms) = S (members_need ms).
Proof.
  cbn [need]. f_equal. induction ms as [|[k x] ms IH]; cbn; [reflexivity|]. now rewrite IH.
Qed.

Lemma skip_ws_indent (level : nat) (c : N) (rest : str) :
  is_ws c = false -> skip_ws (newline_indent level ++ c :: rest) = c :: rest.
Proof.
  intros Hc. unfold newline_indent. cbn [app skip_ws is_ws N.eqb Pos.eqb orb].
  induction (2 * level)%nat as [|n IH]; cbn [repeat app skip_ws].
  - now rewrite Hc.
  - exact IH.
Qed.

(** The encoding of a value starts with a quote or a brace. *)
Lemma encode_head (level : nat) (v : value) :
  exists c body, encode level v = c :: body /\ is_ws c = false.
Proof.
  destruct v as [s|[|[k0 v0] ms]]; cbn [encode encode_string app];
    eexists _, _; split; reflexivity.
Qed.

Lemma skip_ws_encode (level : nat) (v : value) (rest : str) :
  skip_ws (encode level v ++ rest) = encode level v ++ rest.
Proof.
  destruct (encode_head level v) as (c & body & -> & Hc). cbn [app skip_ws]. now rewrite Hc.
Qed.

Lemma encode_object (level : nat) (k0 : str) (v0 : value) (ms : list (str * value)) :
  encode level (JObject ((k0, v0) :: ms))
  = 123 :: newline_indent (S level)
    ++ 34 :: flat_map escape_char k0
    ++ 34 :: 58 :: 32 :: encode (S level) v0
    ++ later_members level ms ++ newline_indent level ++ [125].
Proof.
  cbn [encode]. unfold later_members, encode_string. cbn [app].
  repeat (rewrite <- ?app_assoc; cbn [app]). reflexivity.
Qed.

(** *** Dictionaries built from pairs *)

Lemma dict_set_new (V : Type) (d : list (str * V)) (k : str) (v : V) :
  ~ In k (map fst d) -> dict_set d k v = d ++ [(k, v)].
Proof.
  induction d as [|[k' v'] d IH]; cbn; intros Hnew; [reflexivity|].
  destruct (str_eqb k' k) eqn:E.
  - apply str_eqb_eq in E. tauto.
  - f_equal. apply IH. tauto.
Qed.

Lemma fold_dict_set (V : Type) (l : list (str * V)) :
  forall acc, NoDup (map fst (acc ++ l)) ->
    fold_left (fun d kv => dict_set d (fst kv) (snd kv)) l acc = acc ++ l.
Proof.
  induction l as [|[k v] l IH]; intros acc Hnd; cbn [fold_left fst snd].
  - now rewrite app_nil_r.
  - rewrite dict_set_new.
    + rewrite IH; rewrite <- app_assoc; [reflexivity | exact Hnd].
    + rewrite map_app in Hnd. cbn in Hnd. apply NoDup_remove_2 in Hnd.
      intros Hin. apply Hnd, in_or_app. now left.
Qed.

Lemma dict_of_pairs_nodup (V : Type) (l : list (str * V)) :
  NoDup (map fst l) -> dict_of_pairs l = l.
Proof. intros Hnd. unfold dict_of_pairs. now rewrite fold_dict_set. Qed.

(** *** Objects *)

(** The loop of [JSONObject] on the text of a member and the members after
    it, given that each value among them reads back. *)
Lemma object_members_encoded (level : nat) (rest : str) (ms : list (str * value)) :
  Forall (fun m => forall lvl tail fuel,
            (need (snd m) <= fuel)%nat ->
            scan_once fuel (encode lvl (snd m) ++ tail) = Some (snd m, tail)) ms ->
  Forall (fun m => text_ok (fst m)) ms ->
  forall (k0 : str) (v0 : value) (pairs : list (str * value)) (fuel : nat),
    text_ok k0 ->
    (forall lvl tail fuel',
        (need v0 <= fuel')%nat ->
        scan_once fuel' (encode lvl v0 ++ tail) = Some (v0, tail)) ->
    (S (need v0 + members_need ms) <= fuel)%nat ->
    object_members fuel
      (flat_map escape_char k0
       ++ 34 :: 58 :: 32 :: encode (S level) v0
       ++ later_members level ms ++ newline_indent level ++ 125 :: rest) pairs
    = Some (JObject (dict_of_pairs (rev pairs ++ (k0, v0) :: ms)), rest).
Proof.
  induction ms as [|[k1 v1] ms IH]; intros Hvals Hkeys k0 v0 pairs fuel Hk0 Hv0 Hfuel.
  - destruct fuel as [|fuel]; [inversion Hfuel|].
    cbn [object_members]. rewrite scanstring_text; [|exact Hk0|].
    2:{ rewrite length_app. pose proof (escaped_length k0). cbn [List.length]. lia. }
    cbn [rev app skip_ws is_ws N.eqb Pos.eqb orb].
    rewrite skip_ws_encode, Hv0 by (cbn in Hfuel; lia).
    cbn [later_members flat_map app]. rewrite skip_ws_indent by reflexivity.
    cbn [N.eqb Pos.eqb]. reflexivity.
  - destruct fuel as [|fuel]; [inversion Hfuel|].
    inversion Hvals as [|m ms' Hv1 Hvals']; subst.
    inversion Hkeys as [|m ms' Hk1 Hkeys']; subst.
    cbn [fst snd] in Hv1, Hk1. cbn [members_need fold_right snd] in Hfuel.
    fold (members_need ms) in Hfuel.
    cbn [object_members]. rewrite scanstring_text; [|exact Hk0|].
    2:{ rewrite length_app. pose proof (escaped_length k0). cbn [List.length]. lia. }
    cbn [rev app skip_ws is_ws N.eqb Pos.eqb orb].
    rewrite skip_ws_encode, Hv0 by lia.
    cbn [later_members flat_map]. fold (later_members level ms).
    unfold encode_string. repeat (rewrite <- ?app_assoc; cbn [app]).
    cbn [skip_ws is_ws N.eqb Pos.eqb orb].
    rewrite skip_ws_indent by reflexivity. cbn [N.eqb Pos.eqb].
    rewrite (IH Hvals' Hkeys' k1 v1 ((k0, v0) :: pairs) fuel Hk1 Hv1) by lia.
    cbn [rev]. now rewrite <- app_assoc.
Qed.

(** A well-formed value reads back from its encoding at any indentation,
    whatever text follows it. *)
Lemma scan_once_encoded (v : value) :
  value_ok v ->
  forall (level : nat) (rest : str) (fuel : nat),
    (need v <= fuel)%nat ->
    scan_once fuel (encode level v ++ rest) = Some (v, rest).
Proof.
  induction v as [s|ms IH] using value_induction; intros Hok level rest fuel Hfuel.
  - destruct fuel as [|fuel]; [inversion Hfuel|].
    destruct (scanstring_encoded rest Hok) as (body & Ebody & Hscan).
    cbn [encode]. rewrite Ebody. cbn [scan_once N.eqb Pos.eqb]. now rewrite Hscan.
  - apply value_ok_object in Hok. destruct Hok as [Hnd Hms].
    rewrite need_object in Hfuel.
    destruct fuel as [|fuel]; [inversion Hfuel|].
    destruct ms as [|[k0 v0] ms]; [reflexivity|].
    rewrite encode_object.
    inversion IH as [|m ms' IH0 IHms]; subst.
    inversion Hms as [|m ms' [Hk0 Hv0] Hms']; subst. cbn [fst snd] in *.
    cbn [members_need fold_right snd] in Hfuel. fold (members_need ms) in Hfuel.
    cbn [app scan_once N.eqb Pos.eqb].
    repeat (rewrite <- ?app_assoc; cbn [app]).
    rewrite skip_ws_indent by reflexivity. cbn [N.eqb Pos.eqb].
    rewrite (object_members_encoded level rest (ms := ms)).
    + cbn [rev app]. now rewrite dict_of_pairs_nodup.
    + rewrite Forall_forall in IHms, Hms' |- *. intros m Hm lvl tail fuel' Hf.
      apply IHms; [exact Hm | apply Hms', Hm | exact Hf].
    + rewrite Forall_forall in Hms' |- *. intros m Hm. apply Hms', Hm.
    + exact Hk0.
    + intros lvl tail fuel' Hf. now apply IH0.
    + lia.
Qed.

Lemma need_le_length (v : value) (level : nat) :
  (need v <= List.length (encode level v))%nat.
Proof.
  revert level. induction v as [s|ms IH] using value_induction; intros level.
  - cbn. rewrite length_app. cbn. lia.
  - rewrite need_object. destruct ms as [|[k0 v0] ms]; [cbn; lia|].
    rewrite encode_object. inversion IH as [|m ms' IH0 IHms]; subst. cbn [snd] in IH0.
    cbn [members_need fold_right snd]. fold (members_need ms).
    repeat first [rewrite length_app | progress cbn [List.length]].
    specialize (IH0 (S level)).
    assert (Hlater : (members_need ms <= List.length (later_members level ms))%nat).
    { clear IH0 IH. induction IHms as [|[k x] ms' Hx _ IHl]; [cbn; lia|].
      cbn [members_need fold_right snd later_members flat_map].
      fold (members_need ms'). fold (later_members level ms').
      cbn [snd] in Hx. specialize (Hx (S level)).
      repeat first [rewrite length_app | progress cbn [List.length]]. lia. }
    lia.
Qed.

(** Every well-formed value is read back from its pretty-printed text. *)
Lemma loads_dumps (v : value) : value_ok v -> loads (dumps v) = Some v.
Proof.
  intros Hok. unfold loads, dumps.
  rewrite <- (app_nil_r (encode 0 v)) at 2. rewrite skip_ws_encode.
  rewrite scan_once_encoded; [reflexivity | exact Hok |].
  pose proof (need_le_length v 0). lia.
Qed.

End JsonFacts.

(** *** The saved report *)

Section ReportFacts.
Import WifiBtGpsTest Json.

Lemma tests_value_ok (t : tests) :
  tests_ok t -> value_ok (JObject (map (fun kv => (fst kv, JString (snd kv))) t)).
Proof.
  intros [Hnd Hall]. apply value_ok_object. split.
  - rewrite map_map. cbn [fst]. exact Hnd.
  - unfold members_ok. rewrite Forall_map. cbn [fst snd value_ok]. exact Hall.
Qed.

Lemma results_value_ok (r : results) : results_ok r -> value_ok (json_of_results r).
Proof.
  intros [Hnd Hall]. unfold json_of_results. apply value_ok_object. split.
  - rewrite map_map. cbn [fst]. exact Hnd.
  - unfold members_ok. rewrite Forall_map. cbn [fst snd].
    eapply Forall_impl; [|exact Hall]. intros [k e] [Hk He]. cbn [fst snd] in *.
    split; [exact Hk|]. destruct e as [t|s]; [now apply tests_value_ok | exact He].
Qed.

Lemma json_of_entry_inj (e e' : entry) : json_of_entry e = json_of_entry e' -> e = e'.
Proof.
  destruct e as [t|s], e' as [t'|s']; cbn; intros Heq; try discriminate.
  - injection Heq as Heq. f_equal. revert t' Heq.
    induction t as [|[k v] t IH]; intros [|[k' v'] t']; cbn; intros Heq;
      try discriminate; [reflexivity|].
    injection Heq as -> -> Heq. f_equal. now apply IH.
  - now injection Heq as ->.
Qed.

Lemma json_of_results_inj (r r' : results) :
  json_of_results r = json_of_results r' -> r = r'.
Proof.
  unfold json_of_results. intros Heq. injection Heq as Heq. revert r' Heq.
  induction r as [|[k e] r IH]; intros [|[k' e'] r']; cbn; intros Heq;
    try discriminate; [reflexivity|].
  injection Heq as -> He Heq. apply json_of_entry_inj in He. subst e'.
  f_equal. now apply IH.
Qed.

Context {W sock datetime : Type} `{TesterLib W sock datetime} `{FileLib W}.

Local Abbreviation St := (tester sock * W)%type.

(** [save_results] by cases on its argument and on the outcome of the
    write. *)
Lemma save_results_cases (filename : option str) (self : tester sock) (w : W) :
  save_results filename (self, w) =
  let text := dumps (json_of_results (test_results self)) in
  let finish (name : str) (w0 : W) : res str * St :=
      match write_text name text w0 with
      | (Ret _, w2) => (Ret name, (self, w2))
      | (Raise e, w2) => (Raise e, (self, w2))
      end in
  match filename with
  | Some (c :: name) => finish (c :: name) w
  | _ =>
      let (now, w1) := datetime_now w in
      finish (U "wifi_bt_gps_test_" ++ stamp now ++ U ".json") w1
  end.
Proof.
  unfold save_results. cbv zeta.
  destruct filename as [[|c fname]|];
    unfold io, lift, get_self, bind, ret; cbn [fst snd].
  2:{ destruct (write_text (c :: fname) _ w) as [[[]|e] w2]; reflexivity. }
  all: destruct (datetime_now w) as [now w1]; cbn [fst snd].
  all: match goal with |- context [write_text ?n ?t ?w0] =>
         destruct (write_text n t w0) as [[[]|e] w2] end; reflexivity.
Qed.

(** A [save_results] that returns has written the report under the name
    it returns, and left the object as it was. *)
Lemma save_results_written (self : tester sock) (w : W) (filename : option str)
      (name : str) (st' : St) :
  save_results filename (self, w) = (Ret name, st') ->
  exists w1 w2,
    write_text name (dumps (json_of_results (test_results self))) w1 = (Ret tt, w2)
    /\ st' = (self, w2).
Proof.
  intros Hsave. rewrite save_results_cases in Hsave. cbv zeta in Hsave.
  destruct filename as [[|c fname]|].
  2:{ destruct (write_text (c :: fname) _ w) as [[[]|e] w2] eqn:Ew; [|discriminate].
      injection Hsave as <- <-. eauto. }
  all: destruct (datetime_now w) as [now w1].
  all: match type of Hsave with context [write_text ?n ?t ?w0] =>
         destruct (write_text n t w0) as [[[]|e] w2] eqn:Ew end; [|discriminate].
  all: injection Hsave as <- <-; eauto.
Qed.

(** A written report parses to the value of its result set. *)
Lemma written_report_loads (self : tester sock) (r : results) (name : str) (w1 w2 : W) :
  results_ok r ->
  write_text name (dumps (json_of_results r)) w1 = (Ret tt, w2) ->
  load_results name (self, w2) = (Ret (Some (json_of_results r)), (self, w2)).
Proof.
  intros Hok Hw. unfold load_results, bind, io, ret. cbn [fst snd].
  rewrite (read_after_write _ _ _ Hw). cbn [fst snd].
  now rewrite loads_dumps by (apply results_value_ok, Hok).
Qed.

(** C5: a result set written by [save_results] reads back as itself.  When
    [save_results] has written the file, parsing the file yields the JSON
    value of [self.test_results], every key and every string, the duration
    and the timestamp among them, as it was; and no other result set has
    that value.  The result set is one a run builds: each key once, every
    text a sequence of Unicode scalar values. *)
Theorem saved_report_reads_back (self : tester sock) (w : W) (filename : option str)
        (name : str) (st' : St) :
  results_ok (test_results self) ->
  save_results filename (self, w) = (Ret name, st') ->
  load_results name st' = (Ret (Some (json_of_results (test_results self))), st')
  /\ (forall r : results,
        json_of_results r = json_of_results (test_results self) -> r = test_results self)
  /\ fst st' = self.
Proof.
  intros Hok Hsave.
  pose proof Hsave as Hw. apply save_results_written in Hw.
  destruct Hw as (w1 & w2 & Hw & ->).
  split; [|split].
  - eapply written_report_loads; eassumption.
  - intros r. apply json_of_results_inj.
  - reflexivity.
Qed.

(** From the run to the file and back: the report saved after a run parses
    to the result set the run returned. *)
Lemma run_report_reads_back (st st1 st2 : St) (r : results) (filename : option str)
      (name : str) :
  lib_texts_ok _ ->
  results_ok (test_results (fst st)) ->
  run_all_tests st = (Ret (Some r), st1) ->
  save_results filename st1 = (Ret name, st2) ->
  load_results name st2 = (Ret (Some (json_of_results r)), st2).
Proof.
  intros Hlib Hok Hrun Hsave.
  assert (Hr : results_ok r) by (eapply run_results_ok; eassumption).
  assert (Hself : test_results (fst st1) = r).
  { destruct (connect_telnet_returns st) as ([|] & st0 & Hc).
    - destruct (run_all_tests_connected _ Hc)
        as (t1 & t2 & t3 & t4 & t5 & a & b & st' & Hrun' & Hres & _).
      cbv zeta in Hrun', Hres. rewrite Hrun' in Hrun. now injection Hrun as <- <-.
    - unfold run_all_tests in Hrun. unfold bind at 1 in Hrun. rewrite Hc in Hrun.
      cbn in Hrun. discriminate. }
  destruct st1 as [self1 w1]. cbn [fst] in Hself.
  pose proof Hsave as Hw. apply save_results_written in Hw.
  destruct Hw as (w2 & w3 & Hw & ->).
  rewrite Hself in Hw. eapply written_report_loads; eassumption.
Qed.

End ReportFacts.

(** ** The scenarios on the simulated device *)

Section SimulatedRuns.
Import WifiBtGpsTest Simulation.

(** On the simulated socket, a command whose answer arrives before the
    timeout is answered with the stripped text of the answer. *)
Lemma sim_send_command_answered (self : tester unit) (w : Sim) (command : str)
      (data payload : bytes) (latency : N) (text : str) :
  tn self = Some tt ->
  utf8_encode (command ++ crlf) = Some data ->
  sim_device w data = Data latency payload ->
  latency <= 500 ->
  utf8_decode (firstn (N.to_nat 1024) payload) = Some text ->
  exists w', send_command command 500 (self, w) = (Ret (strip text), (self, w'))
             /\ sim_device w' = sim_device w.
Proof.
  intros Htn Henc Hdev Hlat Hdec.
  rewrite send_command_cases, Htn, Henc.
  cbn [send recv sleep sim_lib]. unfold sim_send. rewrite Hdev.
  unfold sim_recv. cbn [sim_inbox sim_clock sim_timeout with_clock with_inbox].
  destruct (sim_timeout w) as [d|].
  - replace (sim_clock w + latency <=? sim_clock w + 500 + d) with true
      by (symmetry; apply N.leb_le; lia).
    rewrite Hdec. eexists. split; reflexivity.
  - rewrite Hdec. eexists. split; reflexivity.
Qed.

Lemma version_session_version (st : tester unit * Sim) :
  version_session st ->
  exists st1, send_command (U "VERSION") 500 st = (Ret (U "v1.2.3"), st1)
              /\ version_session st1.
Proof.
  destruct st as [self w]. intros [Htn Hdev]. cbn [fst snd] in *.
  destruct (@sim_send_command_answered self w (U "VERSION")
              (B "VERSION" ++ map ascii_of_N crlf) (B "v1.2.3" ++ map ascii_of_N crlf)
              20 (U "v1.2.3" ++ crlf)) as (w' & E & Hdev');
    try reflexivity; try exact Htn; [now rewrite Hdev | lia |].
  exists (self, w'). split; [exact E | split; cbn [fst snd]; [exact Htn | now rewrite Hdev']].
Qed.

Lemma version_session_other (cmd : str) (st : tester unit * Sim) :
  In cmd [U "UPTIME"; U "TEMPERATURE"; U "MEMORY"] ->
  version_session st ->
  exists st1, send_command cmd 500 st = (Ret [], st1) /\ version_session st1.
Proof.
  destruct st as [self w]. intros Hcmd [Htn Hdev]. cbn [fst snd] in *.
  assert (Hanswer : exists data,
             utf8_encode (cmd ++ crlf) = Some data
             /\ version_only data = Data 20 (map ascii_of_N crlf)).
  { cbn [In] in Hcmd. destruct Hcmd as [<-|[<-|[<-|[]]]]; eexists; split; reflexivity. }
  destruct Hanswer as (data & Henc & Hans).
  destruct (@sim_send_command_answered self w cmd data (map ascii_of_N crlf) 20 crlf)
    as (w' & E & Hdev'); try reflexivity; try assumption; [now rewrite Hdev | lia |].
  exists (self, w'). split; [exact E | split; cbn [fst snd]; [exact Htn | now rewrite Hdev']].
Qed.

(** The scenario of C2 on the simulated device. *)
Lemma device_info_scenario_simulated :
  let st := (with_tn (Some tt) (init unit (U "192.168.68.5") 2000),
             with_timeout 5000 (boot version_only true)) in
  version_session st
  /\ exists st',
       test_device_info st
       = (Ret [(U "device_version", U "v1.2.3"); (U "device_uptime", []);
               (U "device_temperature", []); (U "memory_status", [])], st')
       /\ version_session st'.
Proof.
  cbv zeta.
  assert (Hst : version_session
                  (with_tn (Some tt) (init unit (U "192.168.68.5") 2000),
                   with_timeout 5000 (boot version_only true)))
    by (split; reflexivity).
  split; [exact Hst|].
  exact (@device_info_scenario _ _ _ sim_lib version_session _
           version_session_version version_session_other Hst).
Defined.


End SimulatedRuns.

Section SimulatedReport.
Import WifiBtGpsTest Simulation Json.

Lemma text_ok_digits (width : nat) (n : N) : text_ok (padded width n).
Proof.
  unfold padded. apply text_ok_app; [|apply text_ok_U].
  apply Forall_forall. intros c Hc. apply repeat_spec in Hc. now subst c.
Qed.

Lemma text_ok_fraction (ms : N) : text_ok (fraction ms).
Proof.
  unfold fraction. destruct (ms mod 1000 =? 0); [constructor|].
  apply text_ok_app; [apply text_ok_U | apply text_ok_digits].
Qed.

(** The texts of the simulated library are well formed. *)
Lemma sim_texts_ok : lib_texts_ok sim_lib.
Proof.
  unfold lib_texts_ok. split; [|split; [|split; [|split; [|split]]]].
  - intros s data w e w' Hsend. cbn [send sim_lib] in Hsend. unfold sim_send in Hsend.
    discriminate Hsend.
  - intros s n w e w' Hrecv. cbn [recv sim_lib] in Hrecv. unfold sim_recv in Hrecv.
    assert (Hexp : forall d, text_ok (exn_msg (expired d)))
      by (intros d; unfold expired; destruct (d =? 0); apply text_ok_U).
    destruct (sim_inbox w) as [t payload| | |m], (sim_timeout w) as [d|];
      try discriminate Hrecv.
    + destruct (t <=? sim_clock w + d); [discriminate Hrecv|].
      injection Hrecv as <- _. apply Hexp.
    + injection Hrecv as <- _. apply Hexp.
    + injection Hrecv as <- _. apply text_ok_U.
    + injection Hrecv as <- _. apply text_ok_U.
    + injection Hrecv as <- _. apply text_ok_U.
  - intros line. apply text_ok_U.
  - intros raw. apply text_ok_U.
  - intros a b. cbn [elapsed sim_lib]. unfold sim_elapsed, str_of_N. cbv zeta.
    repeat first [apply text_ok_digits | apply text_ok_fraction | apply text_ok_U
                 | apply text_ok_app].
  - intros a. cbn [isoformat sim_lib]. unfold sim_isoformat, clock_time.
    repeat first [apply text_ok_digits | apply text_ok_fraction | apply text_ok_U
                 | apply text_ok_app].
Qed.

(** A run against the device [version_only], saved under the default name
    and read back: the file holds the result set of the run. *)
Example simulated_report_reads_back :
  let st0 := (init unit (U "192.168.68.5") 2000, boot version_only true) in
  fst ((r <- run_all_tests ;;
        name <- save_results None ;;
        back <- load_results name ;;
        ret (name, option_map json_of_results r, back)) st0)
  = Ret (U "wifi_bt_gps_test_20240101_000010.json",
         Some (json_of_results (test_results (fst (snd (run_all_tests st0))))),
         Some (json_of_results (test_results (fst (snd (run_all_tests st0)))))).
Proof. vm_compute. reflexivity. Qed.

(** The theorem of C5 on a result set in the simulated file system. *)
Lemma saved_report_reads_back_simulated :
  let self := {| host := U "192.168.68.5"; port := 2000; tn := Some tt;
                 test_results := sample_results |} in
  let w := boot mute true in
  let name := U "report.json" in
  let st' := snd (save_results (Some name) (self, w)) in
  results_ok (test_results self)
  /\ save_results (Some name) (self, w) = (Ret name, st')
  /\ load_results name st' = (Ret (Some (json_of_results (test_results self))), st')
  /\ (forall r : results,
        json_of_results r = json_of_results (test_results self) -> r = test_results self)
  /\ fst st' = self.
Proof.
  cbv zeta.
  assert (Hok : results_ok sample_results).
  { unfold results_ok, sample_results.
    repeat first [ apply text_ok_U | apply nodup_literals; reflexivity
                 | apply Forall_nil | apply Forall_cons | split ]. }
  assert (Hsave : save_results (Some (U "report.json"))
                    ({| host := U "192.168.68.5"; port := 2000; tn := Some tt;
                        test_results := sample_results |}, boot mute true)
                  = (Ret (U "report.json"),
                     snd (save_results (Some (U "report.json"))
                            ({| host := U "192.168.68.5"; port := 2000; tn := Some tt;
                                test_results := sample_results |}, boot mute true))))
    by reflexivity.
  split; [exact Hok|]. split; [exact Hsave|].
  exact (@saved_report_reads_back _ _ _ sim_lib sim_files_lib
           {| host := U "192.168.68.5"; port := 2000; tn := Some tt;
              test_results := sample_results |}
           (boot mute true) (Some (U "report.json")) (U "report.json") _ Hok Hsave).
Defined.

End SimulatedReport.

(** ** The theorems on responses and errors, on the simulated lines *)

Section SimulatedOutcomes.
Import Simulation MountScript.



End SimulatedOutcomes.

Section SimulatedDeviceTests.
Import WifiBtGpsTest Simulation.

(** The scenario of the specification through the whole run: against the
    device [version_only], the result set of [run_all_tests] holds the
    device-tests mapping of C2. *)
Example device_tests_of_the_run :
  match fst (run_all_tests (init unit (U "192.168.68.5") 2000, boot version_only true)) with
  | Ret (Some r) => dict_get r (U "device_tests")
  | _ => None
  end
  = Some (Mapping [(U "device_version", U "v1.2.3"); (U "device_uptime", []);
                   (U "device_temperature", []); (U "memory_status", [])]).
Proof. vm_compute. reflexivity. Qed.

End SimulatedDeviceTests.

Section Surrogates.
Import Json.

(** Why a result set's texts are asked to be scalar values: a string that
    holds the two halves of a surrogate pair as separate code points is
    written as one escaped pair, which reads back as a single code point. *)
Example split_surrogates_merge :
  loads (dumps (JString [55357; 56832])) = Some (JString [128512])
  /\ loads (dumps (JString [128512])) = Some (JString [128512]).
Proof. split; vm_compute; reflexivity. Qed.

End Surrogates.

(** * Further properties of the scripts *)

(** ** The record changes nothing

    A run over a recorded library has the outcome of the run over the
    library itself and leaves the same world, and the same object. *)

Section Transparent.
Import Recorded.

Lemma same_run_ret (W E A : Type) (a : A) : same_run (E:=E) (W:=W) (ret a) (ret a).
Proof. intros w log. exists log. reflexivity. Qed.

Lemma same_run_raise (W E A : Type) (e : exn) :
  same_run (E:=E) (W:=W) (A:=A) (raise e) (raise e).
Proof. intros w log. exists log. reflexivity. Qed.

Lemma same_run_bind (W E A B : Type) (m : M W A) (m' : M (W * list E) A)
      (k : A -> M W B) (k' : A -> M (W * list E) B) :
  same_run m m' -> (forall a, same_run (k a) (k' a)) -> same_run (bind m k) (bind m' k').
Proof.
  intros Hm Hk w log. unfold bind. destruct (Hm w log) as (log1 & ->).
  destruct (m w) as [[a|e] w1]; cbn [fst snd]; [apply Hk | eauto].
Qed.

Lemma same_run_try (W E A : Type) (m : M W A) (m' : M (W * list E) A)
      (h : exn -> M W A) (h' : exn -> M (W * list E) A) :
  same_run m m' -> (forall e, same_run (h e) (h' e)) ->
  same_run (try_except m h) (try_except m' h').
Proof.
  intros Hm Hh w log. unfold try_except. destruct (Hm w log) as (log1 & ->).
  destruct (m w) as [[a|e] w1]; cbn [fst snd]; [eauto | apply Hh].
Qed.

Lemma same_run_logged (W E A : Type) (ev : E) (m : M W A) : same_run m (logged ev m).
Proof.
  intros w log. unfold logged. cbn [fst snd]. destruct (m w) as [r w1]. eauto.
Qed.

Lemma same_run_unlogged (W E A : Type) (m : M W A) : same_run (E:=E) m (unlogged m).
Proof.
  intros w log. unfold unlogged. cbn [fst snd]. destruct (m w) as [r w1]. eauto.
Qed.

Lemma same_run_logged_effect (W E : Type) (ev : E) (f : W -> W) :
  same_run (effect f) (effect (logged_effect ev f)).
Proof. intros w log. unfold effect, logged_effect. cbn [fst snd]. eauto. Qed.

Lemma same_run_unlogged_effect (W E : Type) (f : W -> W) :
  same_run (E:=E) (effect f) (effect (unlogged_effect f)).
Proof. intros w log. unfold effect, unlogged_effect. cbn [fst snd]. eauto. Qed.

Lemma same_run_unlogged_query (W E A : Type) (q : W -> A * W) :
  same_run (E:=E) (lift q) (lift (unlogged_query q)).
Proof.
  intros w log. unfold lift, unlogged_query. cbn [fst snd]. destruct (q w) as [a w1]. eauto.
Qed.

Lemma same_method_ret (S W E A : Type) (a : A) :
  same_method (S:=S) (E:=E) (W:=W) (ret a) (ret a).
Proof. intros self w log. exists log. reflexivity. Qed.

Lemma same_method_raise (S W E A : Type) (e : exn) :
  same_method (S:=S) (E:=E) (W:=W) (A:=A) (raise e) (raise e).
Proof. intros self w log. exists log. reflexivity. Qed.

Lemma same_method_bind (S W E A B : Type) (m : M (S * W) A) (m' : M (S * (W * list E)) A)
      (k : A -> M (S * W) B) (k' : A -> M (S * (W * list E)) B) :
  same_method m m' -> (forall a, same_method (k a) (k' a)) ->
  same_method (bind m k) (bind m' k').
Proof.
  intros Hm Hk self w log. unfold bind. destruct (Hm self w log) as (log1 & ->).
  destruct (m (self, w)) as [[a|e] [self1 w1]]; cbn [fst snd]; [apply Hk | eauto].
Qed.

Lemma same_method_try (S W E A : Type) (m : M (S * W) A) (m' : M (S * (W * list E)) A)
      (h : exn -> M (S * W) A) (h' : exn -> M (S * (W * list E)) A) :
  same_method m m' -> (forall e, same_method (h e) (h' e)) ->
  same_method (try_except m h) (try_except m' h').
Proof.
  intros Hm Hh self w log. unfold try_except. destruct (Hm self w log) as (log1 & ->).
  destruct (m (self, w)) as [[a|e] [self1 w1]]; cbn [fst snd]; [eauto | apply Hh].
Qed.

Lemma same_method_io (S W E A : Type) (m : M W A) (m' : M (W * list E) A) :
  same_run m m' -> same_method (S:=S) (io m) (io m').
Proof.
  intros Hm self w log. unfold io. cbn [fst snd]. destruct (Hm w log) as (log1 & ->).
  destruct (m w) as [r w1]. cbn [fst snd]. eauto.
Qed.

Lemma same_method_get (S W E : Type) : same_method (S:=S) (W:=W) (E:=E) get_self get_self.
Proof. intros self w log. exists log. reflexivity. Qed.

Lemma same_method_set (S W E : Type) (f : S -> S) :
  same_method (W:=W) (E:=E) (set_self f) (set_self f).
Proof. intros self w log. exists log. reflexivity. Qed.

Lemma same_method_codec (S W E A : Type) (r : option A) (e : exn) :
  same_method (S:=S) (W:=W) (E:=E) (codec r e) (codec r e).
Proof. destruct r; [apply same_method_ret | apply same_method_raise]. Qed.

Lemma same_run_object (S W E A : Type) (self : S) (m : M (S * W) A)
      (m' : M (S * (W * list E)) A) :
  same_method m m' -> same_run (Entry.with_object self m) (Entry.with_object self m').
Proof.
  intros Hm w log. unfold Entry.with_object. destruct (Hm self w log) as (log1 & ->).
  destruct (m (self, w)) as [r [self1 w1]]. cbn [fst snd]. eauto.
Qed.

(** What a recorded run returns is what the plain run returns. *)
Lemma same_run_record (W E A : Type) (m : M W A) (m' : M (W * list E) A)
      (w : W) (log log' : list E) (r : res A) (w' : W) :
  same_run m m' -> m' (w, log) = (r, (w', log')) -> r = fst (m w) /\ w' = snd (m w).
Proof.
  intros Hm Hrun. destruct (Hm w log) as (log1 & Hsame). rewrite Hsame in Hrun.
  injection Hrun as <- <- _. auto.
Qed.

Lemma same_method_record (S W E A : Type) (m : M (S * W) A) (m' : M (S * (W * list E)) A)
      (self self' : S) (w : W) (log log' : list E) (r : res A) (w' : W) :
  same_method m m' -> m' (self, (w, log)) = (r, (self', (w', log'))) ->
  r = fst (m (self, w)) /\ self' = fst (snd (m (self, w))) /\ w' = snd (snd (m (self, w))).
Proof.
  intros Hm Hrun. destruct (Hm self w log) as (log1 & Hsame). rewrite Hsame in Hrun.
  injection Hrun as <- <- <- _. auto.
Qed.

Ltac same_step :=
  first
    [ apply same_method_ret | apply same_method_raise | apply same_method_get
    | apply same_method_set | apply same_method_codec
    | apply same_run_ret | apply same_run_raise
    | apply same_run_logged | apply same_run_unlogged
    | apply same_run_logged_effect | apply same_run_unlogged_effect
    | apply same_run_unlogged_query
    | apply same_method_io
    | apply same_run_object
    | apply same_method_bind; [|intros ?]
    | apply same_method_try; [|intros ?]
    | apply same_run_bind; [|intros ?]
    | apply same_run_try; [|intros ?]
    | match goal with
      | |- same_method (match ?x with _ => _ end) _ => destruct x
      | |- same_method (if ?b then _ else _) _ => destruct b
      | |- same_run (match ?x with _ => _ end) _ => destruct x
      | |- same_run (if ?b then _ else _) _ => destruct b
      end ].

Section Tester.
Import WifiBtGpsTest.
Context {W sock datetime : Type} (L : TesterLib W sock datetime) (F : FileLib W).

Lemma same_send_command (command : str) (delay : N) :
  same_method (send_command (H:=L) command delay)
              (send_command (H:=tester_recorded L) command delay).
Proof.
  unfold send_command, tn_attr. cbv zeta.
  cbn [send recv sleep encode_error decode_error tester_recorded].
  repeat same_step.
Qed.

Ltac same_tester := repeat first [apply same_send_command | same_step].

Lemma same_test_wifi_module :
  same_method (test_wifi_module (H:=L)) (test_wifi_module (H:=tester_recorded L)).
Proof. unfold test_wifi_module. cbv zeta. same_tester. Qed.

Lemma same_test_bluetooth_module :
  same_method (test_bluetooth_module (H:=L)) (test_bluetooth_module (H:=tester_recorded L)).
Proof. unfold test_bluetooth_module. cbv zeta. same_tester. Qed.

Lemma same_test_gps_module :
  same_method (test_gps_module (H:=L)) (test_gps_module (H:=tester_recorded L)).
Proof. unfold test_gps_module. cbv zeta. same_tester. Qed.

Lemma same_test_usb_relay :
  same_method (test_usb_relay (H:=L)) (test_usb_relay (H:=tester_recorded L)).
Proof.
  unfold test_usb_relay. cbv zeta. cbn [sleep tester_recorded]. same_tester.
Qed.

Lemma same_test_device_info :
  same_method (test_device_info (H:=L)) (test_device_info (H:=tester_recorded L)).
Proof. unfold test_device_info. cbv zeta. same_tester. Qed.

Lemma same_connect_telnet :
  same_method (connect_telnet (H:=L)) (connect_telnet (H:=tester_recorded L)).
Proof.
  unfold connect_telnet. cbn [socket_socket settimeout connect tester_recorded].
  repeat same_step.
Qed.

Lemma same_run_all_tests :
  same_method (run_all_tests (H:=L)) (run_all_tests (H:=tester_recorded L)).
Proof.
  unfold run_all_tests, set_result, tn_attr.
  cbn [datetime_now close elapsed isoformat tester_recorded].
  repeat first [ apply same_connect_telnet | apply same_test_wifi_module
               | apply same_test_bluetooth_module | apply same_test_gps_module
               | apply same_test_usb_relay | apply same_test_device_info | same_step ].
Qed.

Lemma same_save_results (filename : option str) :
  same_method (save_results (H:=L) (H0:=F) filename)
              (save_results (H:=tester_recorded L) (H0:=files_recorded F) filename).
Proof.
  unfold save_results.
  cbn [datetime_now stamp tester_recorded write_text files_recorded].
  repeat same_step.
Qed.

(** The record changes nothing in a run of the tester's [main]. *)
Lemma same_tester_main (a : WifiBtGpsMain.args) :
  same_run (WifiBtGpsMain.main (H:=L) (H0:=F) a)
           (WifiBtGpsMain.main (H:=tester_recorded L) (H0:=files_recorded F) a).
Proof.
  unfold WifiBtGpsMain.main.
  repeat first [ apply same_run_all_tests | apply same_save_results | same_step ].
Qed.

End Tester.
Section Mount.
Import TelescopeComm.
Context {W TN SER : Type} (L : MountLib W TN SER) (C : TelescopeMain.ClockLib W).

Lemma same_mount_send_command (command : str) :
  same_method (send_command (H:=L) command) (send_command (H:=mount_recorded L) command).
Proof.
  unfold send_command. cbv zeta.
  cbn [telnet_write telnet_read_some serial_write serial_readline sleep
       encode_error decode_error mount_recorded].
  repeat same_step.
Qed.

Lemma same_mount_info_loop (cmds : list str) :
  forall results : list (str * str),
    same_method (mount_info_loop (H:=L) cmds results)
                (mount_info_loop (H:=mount_recorded L) cmds results).
Proof.
  induction cmds as [|cmd cmds IH]; intros results; cbn [mount_info_loop].
  - apply same_method_ret.
  - cbv zeta. cbn [sleep mount_recorded].
    repeat first [apply same_mount_send_command | apply IH | same_step].
Qed.

Lemma same_mount_connect_telnet :
  same_method (connect_telnet (H:=L)) (connect_telnet (H:=mount_recorded L)).
Proof. unfold connect_telnet. cbn [Telnet mount_recorded]. repeat same_step. Qed.

Lemma same_connect_serial (port : option str) (baudrate : N) :
  same_method (connect_serial (H:=L) port baudrate)
              (connect_serial (H:=mount_recorded L) port baudrate).
Proof.
  unfold connect_serial. cbn [comports Serial mount_recorded]. repeat same_step.
Qed.

Lemma same_disconnect :
  same_method (disconnect (H:=L)) (disconnect (H:=mount_recorded L)).
Proof.
  unfold disconnect. cbn [telnet_close serial_close mount_recorded]. repeat same_step.
Qed.

(** The record changes nothing in a run of the mount's [main]. *)
Lemma same_mount_main (a : TelescopeMain.args) :
  same_run (TelescopeMain.main (H:=L) (H0:=C) a)
           (TelescopeMain.main (H:=mount_recorded L) (H0:=clock_recorded C) a).
Proof.
  unfold TelescopeMain.main, TelescopeMain.establish, TelescopeMain.collect,
    test_connection, get_mount_info.
  cbn [TelescopeMain.now_isoformat clock_recorded].
  repeat first [ apply same_mount_connect_telnet | apply same_connect_serial
               | apply same_mount_send_command | apply same_mount_info_loop
               | apply same_disconnect | same_step ].
Qed.

End Mount.

Section Scanner.
Import ScanCelestron.
Context {W sock : Type} (L : SocketLib W sock).

Lemma same_scan_port (ip : str) (port timeout : N) :
  same_run (scan_port (H:=L) ip port timeout)
           (scan_port (H:=socket_recorded L) ip port timeout).
Proof.
  unfold scan_port. cbn [socket_socket settimeout connect_ex close socket_recorded].
  repeat same_step.
Qed.

Lemma same_sweep_loop (l : list N) :
  forall found : list str,
    same_run (sweep_loop (H:=L) l found) (sweep_loop (H:=socket_recorded L) l found).
Proof.
  induction l as [|i l IH]; intros found; cbn [sweep_loop].
  - apply same_run_ret.
  - cbv zeta. repeat first [apply same_scan_port | apply IH | same_step].
Qed.

End Scanner.

Section Probe.
Import DiagnoseHomebrew DiagnoseMain.
Context {W SER : Type} (L : DiagLib W SER).

Lemma same_command_loop (ser : SER) (cmds : list bytes) :
  same_run (command_loop (H:=L) ser cmds) (command_loop (H:=diag_recorded L) ser cmds).
Proof.
  induction cmds as [|cmd cmds IH]; cbn [command_loop].
  - apply same_run_ret.
  - cbn [write in_waiting read sleep diag_recorded].
    repeat first [apply IH | same_step].
Qed.

Lemma same_probe (port : str) (baud : N) :
  same_run (probe (H:=L) port baud) (probe (H:=diag_recorded L) port baud).
Proof.
  unfold probe. cbn [Serial in_waiting read sleep close diag_recorded].
  repeat first [apply same_command_loop | same_step].
Qed.

Lemma same_test_serial_connection (port : str) (baudrates : list N) :
  same_run (test_serial_connection (H:=L) port baudrates)
           (test_serial_connection (H:=diag_recorded L) port baudrates).
Proof.
  induction baudrates as [|baud baudrates IH]; cbn [test_serial_connection].
  - apply same_run_ret.
  - repeat first [apply same_probe | apply IH | same_step].
Qed.

(** The record changes nothing in a run of the diagnostic. *)
Lemma same_script (lower upper : str -> str) (isdigit : str -> bool)
      (int : str -> option Z) (w : W) (log : list probe_call) :
  exists log' : list probe_call,
    script (H:=diag_recorded L) lower upper isdigit int (w, log)
    = (fst (script (H:=L) lower upper isdigit int w),
       (snd (script (H:=L) lower upper isdigit int w), log')).
Proof.
  unfold script, main. cbn [comports input diag_recorded]. unfold unlogged_query.
  cbn [fst snd].
  destruct (comports w) as [enumerated w1]. cbn [fst snd].
  destruct (list_com_ports enumerated) as [ports|].
  2:{ destruct (input w1) as [key w2]. cbn [fst snd]. eauto. }
  destruct (detect_homebrew_port lower (Some ports)) as [homebrew_port|e].
  2:{ cbn [fst snd]. destruct (input w1) as [key w2]. cbn [fst snd]. eauto. }
  destruct (input w1) as [answer w2]. cbn [fst snd].
  destruct (select_port lower upper isdigit int ports homebrew_port answer) as [test_port|f].
  2:{ cbn [fst snd]. destruct (input w2) as [key w3]. cbn [fst snd]. eauto. }
  destruct (same_test_serial_connection test_port default_baudrates w2 log) as (log1 & ->).
  destruct (test_serial_connection test_port default_baudrates w2) as [[[]|e] w3];
    cbn [fst snd].
  - destruct (input w3) as [key w4]. cbn [fst snd]. eauto.
  - destruct (input w3) as [key w4]. cbn [fst snd]. eauto.
Qed.

End Probe.

End Transparent.

(** ** The sweep on any network ([scan_celestron.py]) *)

Section SweepAnyNetwork.
Import ScanCelestron.
Context {W sock : Type} `{SocketLib W sock}.

Lemma sweep_loop_hits (l : list N) :
  StronglySorted N.lt l ->
  forall (found : list str) (w : W),
    exists (hits : list N) (w' : W),
      sweep_loop l found w = (Ret (found ++ map ip_of hits), w')
      /\ (forall i, In i hits -> In i l)
      /\ StronglySorted N.lt hits.
Proof.
  induction 1 as [|i l Hs IH Hall]; intros found w; cbn [sweep_loop].
  - exists [], w. cbn. rewrite app_nil_r. repeat split; [tauto | constructor].
  - unfold bind. destruct (scan_port_cases (ip_of i) 2000 500 w) as (w1 & ->).
    destruct (match fst (connect_attempt (ip_of i) 2000 500 w) with
              | Ret code => Z.eqb code 0
              | Raise _ => false
              end).
    + destruct (IH (found ++ [ip_of i]) w1) as (hits & w' & E & Hin & Hsorted).
      exists (i :: hits), w'. rewrite E, <- app_assoc. split; [reflexivity|]. split.
      * intros j [<-|Hj]; [now left | right; now apply Hin].
      * constructor; [exact Hsorted|]. apply Forall_forall. intros j Hj.
        rewrite Forall_forall in Hall. apply Hall, Hin, Hj.
    + destruct (IH found w1) as (hits & w' & E & Hin & Hsorted).
      exists hits, w'. split; [exact E|]. split; [|exact Hsorted].
      intros j Hj. right. now apply Hin.
Qed.

(** X1: on every network, whatever each connect attempt does and however
    the network changes between attempts, the sweep does not raise, and the
    list it builds holds addresses [192.168.68.i] with [i] between 1 and
    254, in strictly ascending order of [i], none of them twice.  The
    address of [i] is the text [192.168.68.] followed by the decimal digits
    of [i], with no leading zero, so that two suffixes never give the same
    address. *)
Theorem sweep_on_any_network (w : W) :
  exists (hits : list N) (w' : W),
    sweep w = (Ret (map ip_of hits), w')
    /\ (forall i, In i hits -> 1 <= i <= 254)
    /\ StronglySorted N.lt hits
    /\ NoDup hits
    /\ NoDup (map ip_of hits)
    /\ (forall i, exists digits : str,
           ip_of i = U "192.168.68." ++ digits
           /\ decimal_value digits = Some i
           /\ canonical_decimal digits = true)
    /\ (forall i j, ip_of i = ip_of j -> i = j)
    /\ ip_of 1 = U "192.168.68.1"
    /\ ip_of 254 = U "192.168.68.254".
Proof.
  destruct (sweep_loop_hits (range_sorted 1 255) [] w) as (hits & w' & E & Hin & Hsorted).
  exists hits, w'. split; [exact E|]. split; [|split; [exact Hsorted|]].
  - intros i Hi. apply Hin, range_spec in Hi. lia.
  - split; [now apply sorted_nodup|]. split; [now apply ip_of_nodup, sorted_nodup|].
    split; [exact ip_of_reads|]. split; [exact ip_of_inj|]. split; reflexivity.
Qed.

End SweepAnyNetwork.

Section RecordedSweep.
Import ScanCelestron Recorded.
Context {W sock : Type} (L : SocketLib W sock).

(** The calls of one [scan_port]. *)
Lemma recorded_scan_port (ip : str) (port timeout : N) (w : W) (log : list scan_call) :
  exists (b : bool) (w' : W) (reached : nat),
    scan_port ip port timeout (w, log)
    = (Ret b, (w', log ++ scan_calls ip port timeout reached))
    /\ (1 <= reached <= 4)%nat
    /\ (b = true -> reached = 4%nat)
    /\ (reached = 4%nat <-> exists code, fst (connect_attempt ip port timeout w) = Ret code).
Proof.
  unfold scan_port, connect_attempt, try_except, bind, effect, ret.
  cbn [socket_socket settimeout connect_ex close socket_recorded].
  unfold logged, logged_effect. cbn [fst snd].
  destruct (socket_socket w) as [[s|e] w1]; cbn [fst snd].
  2:{ exists false, w1, 1%nat. split; [reflexivity|]. split; [lia|].
      split; [discriminate|]. split; [discriminate | intros (code & Hc); discriminate]. }
  destruct (settimeout s timeout w1) as [[[]|e] w2]; cbn [fst snd].
  2:{ exists false, w2, 2%nat. rewrite <- app_assoc.
      split; [reflexivity|]. split; [lia|].
      split; [discriminate|]. split; [discriminate | intros (code & Hc); discriminate]. }
  destruct (connect_ex s ip port w2) as [[code|e] w3]; cbn [fst snd].
  - exists (Z.eqb code 0), (close s w3), 4%nat. repeat rewrite <- app_assoc.
    split; [reflexivity|]. split; [lia|]. split; [reflexivity|]. split; eauto.
  - exists false, w3, 3%nat. repeat rewrite <- app_assoc.
    split; [reflexivity|]. split; [lia|].
    split; [discriminate|]. split; [discriminate | intros (code & Hc); discriminate].
Qed.

Lemma recorded_sweep_loop (l : list N) :
  forall (found : list str) (w : W) (log : list scan_call),
    exists (r : list str) (w' : W) (attempts : list (list scan_call)),
      sweep_loop l found (w, log) = (Ret r, (w', log ++ List.concat attempts))
      /\ Forall2 (fun i calls =>
                    exists reached : nat,
                      calls = scan_calls (ip_of i) 2000 500 reached
                      /\ (1 <= reached <= 4)%nat)
           l attempts.
Proof.
  induction l as [|i l IH]; intros found w log.
  - exists found, w, []. cbn. rewrite app_nil_r. split; [reflexivity | constructor].
  - destruct (recorded_scan_port (ip_of i) 2000 500 w log)
      as (b & w1 & reached & E & Hr & _ & _).
    cbn [sweep_loop]. unfold bind at 1. rewrite E.
    destruct (IH (if b then found ++ [ip_of i] else found) w1
                 (log ++ scan_calls (ip_of i) 2000 500 reached))
      as (r & w' & attempts & E' & Hall).
    exists r, w', (scan_calls (ip_of i) 2000 500 reached :: attempts).
    cbn [List.concat]. rewrite app_assoc. split.
    + destruct b; exact E'.
    + constructor; [eauto | exact Hall].
Qed.

(** X2: the calls of the scanner, on every network.  The calls of one
    [scan_port] are the first ones of: making a socket, setting the timeout
    given, connecting to the address and port given, closing the socket.  It
    gets to the close exactly when the connect attempt returns, whatever the
    indicator, and it returns [True] only then: a socket whose [settimeout]
    or [connect_ex] raises is not closed.  The sweep does this for each of
    the addresses with suffix 1 to 254, in ascending order, each once, on
    port 2000 with a timeout of 0.5 seconds, going on to the next address
    whatever happened at the one before.  The address of suffix [i] is the
    text [192.168.68.] followed by the decimal digits of [i], with no
    leading zero; the 254 addresses are distinct.  The outcome and the world
    are those of the run without the record. *)
Theorem sweep_calls (w : W) (log : list scan_call) :
  (forall ip port timeout w0 log0,
     let plain := scan_port ip port timeout w0 in
     exists reached : nat,
       scan_port ip port timeout (w0, log0)
       = (fst plain,
          (snd plain, log0 ++ firstn reached [MakeSocket; SetTimeout timeout;
                                             ConnectEx ip port; CloseSocket]))
       /\ (1 <= reached <= 4)%nat
       /\ (fst plain = Ret true -> reached = 4%nat)
       /\ (reached = 4%nat <->
           exists code, fst (connect_attempt ip port timeout w0) = Ret code))
  /\ exists attempts : list (list scan_call),
       sweep (w, log) = (fst (sweep w), (snd (sweep w), log ++ List.concat attempts))
       /\ Forall2 (fun i calls =>
                     exists reached : nat,
                       calls = firstn reached [MakeSocket; SetTimeout 500;
                                               ConnectEx (ip_of i) 2000; CloseSocket]
                       /\ (1 <= reached <= 4)%nat)
            (range 1 255) attempts
       /\ (forall i, In i (range 1 255) <-> 1 <= i <= 254)
       /\ StronglySorted N.lt (range 1 255)
       /\ (forall i, exists digits : str,
              ip_of i = U "192.168.68." ++ digits
              /\ decimal_value digits = Some i
              /\ canonical_decimal digits = true)
       /\ (forall i j, ip_of i = ip_of j -> i = j)
       /\ NoDup (map ip_of (range 1 255))
       /\ ip_of 1 = U "192.168.68.1"
       /\ ip_of 254 = U "192.168.68.254".
Proof.
  split.
  - intros ip port timeout w0 log0. cbv zeta.
    destruct (recorded_scan_port ip port timeout w0 log0)
      as (b & w' & reached & E & Hr & Hb & Hclose).
    destruct (@same_run_record _ _ _ _ _ _ _ _ _ _ (same_scan_port L ip port timeout) E)
      as (Hret & Hw).
    exists reached. rewrite <- Hret, <- Hw. split; [exact E|]. split; [exact Hr|].
    split; [|exact Hclose]. intros [= Ht]. exact (Hb Ht).
  - destruct (recorded_sweep_loop (range 1 255) [] w log) as (r & w' & attempts & E & Hall).
    destruct (@same_run_record _ _ _ _ _ _ _ _ _ _ (same_sweep_loop L (range 1 255) []) E) as (Hret & Hw).
    exists attempts. unfold sweep at 2 3. rewrite <- Hret, <- Hw.
    split; [exact E|]. split; [exact Hall|].
    split; [intros i; rewrite range_spec; lia|]. split; [apply range_sorted|].
    split; [exact ip_of_reads|]. split; [exact ip_of_inj|].
    split; [apply ip_of_nodup, sorted_nodup, range_sorted|]. split; reflexivity.
Qed.

End RecordedSweep.

(** ** The mount session ([telescope_comm.py]) *)

Section MountSession.
Import TelescopeComm.
Context {W TN SER : Type} `{MountLib W TN SER}.

Local Abbreviation St := (mount TN SER * W)%type.

(** X3: [connect_telnet] of the mount never raises.  When it returns
    [True] the object holds the new connection in [self.tn] and is marked
    connected, nothing else changed; when it returns [False] the object is
    as it was. *)
Theorem mount_connect_telnet_outcome (self : mount TN SER) (w : W) :
  exists (b : bool) (self' : mount TN SER) (w' : W),
    connect_telnet (self, w) = (Ret b, (self', w'))
    /\ (b = true -> exists t, Telnet (host self) (port self) (timeout self) w = (Ret t, w')
                              /\ self' = with_connected true (with_tn (Some t) self))
    /\ (b = false -> self' = self).
Proof.
  unfold connect_telnet, try_except, bind, io, set_self, get_self, ret. cbn [fst snd].
  destruct (Telnet (host self) (port self) (timeout self) w) as [[t|e] w1] eqn:E;
    cbn [fst snd].
  - exists true, (with_connected true (with_tn (Some t) self)), w1.
    split; [reflexivity|]. split; [|discriminate]. intros _. exists t. auto.
  - exists false, self, w1. split; [reflexivity|]. split; [discriminate | reflexivity].
Qed.

(** X4: [connect_serial] never raises.  Without a port name it connects to
    the first port of the enumeration, exactly as if that name had been
    given; with no port enumerated, or with an empty name, it returns
    [False] and opens nothing.  A [True] leaves the new port in
    [self.serial] and marks the object connected; a [False] leaves the
    object as it was. *)
Theorem connect_serial_outcome (port : option str) (baudrate : N)
        (self : mount TN SER) (w : W) :
  (exists (b : bool) (self' : mount TN SER) (w' : W),
     connect_serial port baudrate (self, w) = (Ret b, (self', w'))
     /\ (b = true -> exists name p w0,
           Serial name baudrate (timeout self) w0 = (Ret p, w')
           /\ self' = with_connected true (with_serial (Some p) self))
     /\ (b = false -> self' = self))
  /\ (forall p0 rest w1, comports w = (p0 :: rest, w1) ->
        connect_serial None baudrate (self, w)
        = connect_serial (Some (DiagnoseHomebrew.device p0)) baudrate (self, w1))
  /\ (forall w1, comports w = ([], w1) ->
        connect_serial None baudrate (self, w) = (Ret false, (self, w1)))
  /\ connect_serial (Some []) baudrate (self, w) = (Ret false, (self, w)).
Proof.
  assert (Hnamed : forall name w0,
            exists (b : bool) (self' : mount TN SER) (w' : W),
              connect_serial (Some name) baudrate (self, w0) = (Ret b, (self', w'))
              /\ (b = true -> exists name p w0,
                    Serial name baudrate (timeout self) w0 = (Ret p, w')
                    /\ self' = with_connected true (with_serial (Some p) self))
              /\ (b = false -> self' = self)).
  { intros [|c name] w0.
    - exists false, self, w0. split; [reflexivity|]. split; [discriminate | reflexivity].
    - unfold connect_serial, try_except, bind, io, set_self, get_self, ret. cbn [fst snd].
      destruct (Serial (c :: name) baudrate (timeout self) w0) as [[p|e] w1] eqn:E;
        cbn [fst snd].
      + exists true, (with_connected true (with_serial (Some p) self)), w1.
        split; [reflexivity|]. split; [|discriminate]. intros _. exists (c :: name), p, w0. auto.
      + exists false, self, w1. split; [reflexivity|].
        split; [discriminate | reflexivity]. }
  assert (Hfirst : forall p0 rest w1, comports w = (p0 :: rest, w1) ->
            connect_serial None baudrate (self, w)
            = connect_serial (Some (DiagnoseHomebrew.device p0)) baudrate (self, w1)).
  { intros p0 rest w1 E.
    unfold connect_serial, try_except, bind, io, lift, set_self, get_self, ret.
    cbn [fst snd]. rewrite E. cbn [fst snd]. reflexivity. }
  assert (Hnone : forall w1, comports w = ([], w1) ->
            connect_serial None baudrate (self, w) = (Ret false, (self, w1))).
  { intros w1 E.
    unfold connect_serial, try_except, bind, io, lift, set_self, get_self, ret.
    cbn [fst snd]. rewrite E. cbn [fst snd]. reflexivity. }
  split; [|split; [exact Hfirst | split; [exact Hnone | reflexivity]]].
  destruct port as [name|]; [apply Hnamed|].
  destruct (comports w) as [[|p0 rest] w1] eqn:E.
  - rewrite (Hnone _ eq_refl). exists false, self, w1.
    split; [reflexivity|]. split; [discriminate | reflexivity].
  - rewrite (Hfirst _ _ _ eq_refl). apply Hnamed.
Qed.

(** [disconnect] returns, and the object it leaves differs from the one it
    found by the connected mark at most. *)
Lemma disconnect_returns (self : mount TN SER) (w : W) :
  exists w', disconnect (self, w) = (Ret tt, (with_connected false self, w')).
Proof.
  unfold disconnect, bind, get_self, set_self, io, effect, ret. cbn [fst snd].
  destruct (tn self) as [t|], (serial self) as [p|]; cbn [fst snd]; eauto.
Qed.

(** X5: after [disconnect] the session is over for every later call, on
    every transport: [send_command] returns [None] and touches nothing,
    [test_connection] returns [False], and [get_mount_info] returns the empty
    mapping, having done nothing but its four pauses of 0.2 seconds.  The
    closed handles stay in [self.tn] and [self.serial]. *)
Theorem disconnect_ends_session (self : mount TN SER) (w : W) :
  exists (self' : mount TN SER) (w' : W),
    disconnect (self, w) = (Ret tt, (self', w'))
    /\ tn self' = tn self /\ serial self' = serial self /\ connected self' = false
    /\ (forall cmd w0, send_command cmd (self', w0) = (Ret None, (self', w0)))
    /\ (forall w0, test_connection (self', w0) = (Ret false, (self', w0)))
    /\ (forall w0, get_mount_info (self', w0)
                   = (Ret [], (self', sleep 200 (sleep 200 (sleep 200 (sleep 200 w0)))))).
Proof.
  destruct (disconnect_returns self w) as (w' & E).
  exists (with_connected false self), w'. split; [exact E|].
  split; [reflexivity|]. split; [reflexivity|]. split; [reflexivity|].
  assert (Hsend : forall cmd w0,
            send_command cmd (with_connected false self, w0)
            = (Ret None, (with_connected false self, w0))).
  { intros cmd w0. rewrite mount_send_command_cases. reflexivity. }
  split; [exact Hsend|]. split.
  - intros w0. unfold test_connection, bind. rewrite Hsend. reflexivity.
  - intros w0. unfold get_mount_info, commands.
    repeat (cbn [mount_info_loop]; unfold bind at 1; rewrite Hsend;
            unfold bind at 1, io, effect; cbn [fst snd]).
    reflexivity.
Qed.

(** X6: a serial line that accepts every write and on which no byte ever
    arrives passes [test_connection], since the empty string [readline]
    times out with is not [None]; [get_mount_info] on the same line returns
    the empty mapping.  [Inv] is what stays true of the line from one call
    to the next. *)
Theorem silent_serial_line_passes_test (Inv : W -> Prop) (self : mount TN SER)
        (p : SER) (w : W) :
  connected self = true -> tn self = None -> serial self = Some p ->
  (forall data w0, Inv w0 -> exists n w1, serial_write p data w0 = (Ret n, w1) /\ Inv w1) ->
  (forall w0, Inv w0 -> exists w1, serial_readline p w0 = (Ret [], w1) /\ Inv w1) ->
  (forall ms w0, Inv w0 -> Inv (sleep ms w0)) ->
  Inv w ->
  (exists w', test_connection (self, w) = (Ret true, (self, w')))
  /\ (exists w', get_mount_info (self, w) = (Ret [], (self, w'))).
Proof.
  intros Hc Ht Hs Hwrite Hread Hsleep Hw.
  assert (Hsend : forall cmd w0, Inv w0 -> ascii_encode (cmd ++ crlf) <> None ->
            exists w1, send_command cmd (self, w0) = (Ret (Some []), (self, w1)) /\ Inv w1).
  { intros cmd w0 Hw0 Henc. rewrite mount_send_command_cases, Hc, Ht, Hs. cbn [negb].
    destruct (ascii_encode (cmd ++ crlf)) as [data|]; [|contradiction].
    destruct (Hwrite data w0 Hw0) as (n & w1 & -> & Hw1).
    destruct (Hread (sleep 500 w1) (Hsleep _ _ Hw1)) as (w2 & -> & Hw2).
    cbn [ascii_decode]. exists w2. split; [reflexivity | exact Hw2]. }
  split.
  - destruct (Hsend (U "echo test") w Hw) as (w1 & E & _); [discriminate|].
    exists w1. unfold test_connection, bind. rewrite E. reflexivity.
  - unfold get_mount_info, commands.
    assert (Hloop : forall (cmds : list str) w0, Inv w0 ->
              Forall (fun cmd : str => ascii_encode (cmd ++ crlf) <> None) cmds ->
              exists w1, mount_info_loop cmds [] (self, w0) = (Ret [], (self, w1))).
    { induction cmds as [|cmd cmds IH]; intros w0 Hw0 Hall.
      - exists w0. reflexivity.
      - inversion Hall as [|? ? Hcmd Hrest]; subst.
        destruct (Hsend cmd w0 Hw0 Hcmd) as (w1 & E & Hw1).
        rewrite (@mount_info_loop_step _ _ _ _ cmd cmds [] (self, w0) (Some []) w1 E).
        cbn [truthy fst]. apply IH; [apply Hsleep, Hw1 | exact Hrest]. }
    apply Hloop; [exact Hw|]. repeat constructor; discriminate.
Qed.

End MountSession.

(** ** What a run of the module tester sends ([wifi_bt_gps_test.py]) *)

Section RecordedTester.
Import WifiBtGpsTest Recorded.
Context {W sock datetime : Type} (L : TesterLib W sock datetime).

Local Abbreviation RW := (W * list tester_call)%type.
Local Abbreviation St := (tester sock * RW)%type.

(** On an open socket, [send_command] makes one [send], with the command and
    its line end. *)
Lemma recorded_send_command (command : str) (delay : N) (self : tester sock)
      (w : W) (log : list tester_call) (s : sock) (data : bytes) :
  tn self = Some s ->
  utf8_encode (command ++ crlf) = Some data ->
  exists (r : str) (w' : W),
    send_command command delay (self, (w, log)) = (Ret r, (self, (w', log ++ [Send data]))).
Proof.
  intros Htn Henc. rewrite send_command_cases, Htn, Henc.
  cbn [send recv sleep tester_recorded]. unfold logged, unlogged, unlogged_effect.
  cbn [fst snd].
  destruct (send s data w) as [[n|e] w1]; cbn [fst snd];
    [|eexists _, _; reflexivity].
  destruct (recv s 1024 (sleep delay w1)) as [[raw|e] w2]; cbn [fst snd];
    [|eexists _, _; reflexivity].
  destruct (utf8_decode raw) as [text|]; eexists _, _; reflexivity.
Qed.

Ltac recorded_step Htn :=
  match goal with
  | |- context [bind (send_command ?c ?d) ?k (?self, (?w, ?log))] =>
      let r := fresh "r" in let w' := fresh "w" in let E := fresh "E" in
      let enc := eval vm_compute in (utf8_encode (c ++ crlf)) in
      match enc with
      | Some ?data =>
          destruct (@recorded_send_command c d self w log _ data Htn) as (r & w' & E);
          [vm_compute; reflexivity|];
          unfold bind at 1; rewrite E; cbn [fst snd]
      end
  end.

Ltac recorded_done :=
  unfold ret; eexists _, _; split;
  [repeat rewrite <- app_assoc; cbn [app]; reflexivity |].

Lemma recorded_wifi_module (self : tester sock) (w : W) (log : list tester_call) (s : sock) :
  tn self = Some s ->
  exists (t : tests) (w' : W),
    test_wifi_module (self, (w, log))
    = (Ret t, (self, (w', log ++ map Send (firstn 5 battery_lines)))).
Proof.
  intros Htn. unfold test_wifi_module. cbv zeta.
  do 5 recorded_step Htn.
  unfold ret. eexists _, _. repeat rewrite <- app_assoc. reflexivity.
Qed.

Lemma recorded_bluetooth_module (self : tester sock) (w : W) (log : list tester_call)
      (s : sock) :
  tn self = Some s ->
  exists (t : tests) (w' : W),
    test_bluetooth_module (self, (w, log))
    = (Ret t, (self, (w', log ++ map Send (firstn 3 (skipn 5 battery_lines))))).
Proof.
  intros Htn. unfold test_bluetooth_module. cbv zeta.
  do 3 recorded_step Htn.
  unfold ret. eexists _, _. repeat rewrite <- app_assoc. reflexivity.
Qed.

Lemma recorded_gps_module (self : tester sock) (w : W) (log : list tester_call) (s : sock) :
  tn self = Some s ->
  exists (t : tests) (w' : W),
    test_gps_module (self, (w, log))
    = (Ret t, (self, (w', log ++ map Send (firstn 4 (skipn 8 battery_lines))))).
Proof.
  intros Htn. unfold test_gps_module. cbv zeta.
  do 4 recorded_step Htn.
  unfold ret. eexists _, _. repeat rewrite <- app_assoc. reflexivity.
Qed.

Lemma recorded_usb_relay (self : tester sock) (w : W) (log : list tester_call) (s : sock) :
  tn self = Some s ->
  exists (t : tests) (w' : W),
    test_usb_relay (self, (w, log))
    = (Ret t, (self, (w', log ++ map Send (firstn 3 (skipn 12 battery_lines))))).
Proof.
  intros Htn. unfold test_usb_relay. cbv zeta.
  do 2 recorded_step Htn.
  unfold bind at 1, io, effect. cbn [fst snd sleep tester_recorded].
  unfold unlogged_effect. cbn [fst snd].
  recorded_step Htn.
  unfold ret. eexists _, _. repeat rewrite <- app_assoc. reflexivity.
Qed.

Lemma recorded_device_info (self : tester sock) (w : W) (log : list tester_call) (s : sock) :
  tn self = Some s ->
  exists (t : tests) (w' : W),
    test_device_info (self, (w, log))
    = (Ret t, (self, (w', log ++ map Send (skipn 15 battery_lines)))).
Proof.
  intros Htn. unfold test_device_info. cbv zeta.
  do 4 recorded_step Htn.
  unfold ret. eexists _, _. repeat rewrite <- app_assoc. reflexivity.
Qed.

Lemma recorded_connect_telnet (self : tester sock) (w : W) (log : list tester_call) :
  exists (b : bool) (self' : tester sock) (w' : W) (calls : list tester_call),
    connect_telnet (self, (w, log)) = (Ret b, (self', (w', log ++ calls)))
    /\ test_results self' = test_results self
    /\ (b = true -> (exists s, tn self' = Some s)
                    /\ calls = [Socket; Connect (host self) (port self)])
    /\ (b = false -> calls = [Socket] \/ calls = [Socket; Connect (host self) (port self)]).
Proof.
  unfold connect_telnet, try_except, bind, io, set_self, get_self, ret. cbn [fst snd].
  cbn [socket_socket settimeout connect tester_recorded]. unfold logged, unlogged.
  cbn [fst snd].
  destruct (socket_socket w) as [[s|e] w1]; cbn [fst snd].
  2:{ exists false, self, w1, [Socket].
      split; [reflexivity|]. split; [reflexivity|]. split; [discriminate | auto]. }
  destruct (settimeout s 5000 w1) as [[[]|e] w2]; cbn [fst snd].
  2:{ exists false, (with_tn (Some s) self), w2, [Socket].
      split; [reflexivity|]. split; [reflexivity|]. split; [discriminate | auto]. }
  change (host (with_tn (Some s) self)) with (host self).
  change (port (with_tn (Some s) self)) with (port self).
  destruct (connect s (host self) (port self) w2) as [[[]|e] w3]; cbn [fst snd].
  - exists true, (with_tn (Some s) self), w3, [Socket; Connect (host self) (port self)].
    rewrite <- app_assoc.
    split; [reflexivity|]. split; [reflexivity|].
    split; [intros _; split; [exists s|]; reflexivity | discriminate].
  - exists false, (with_tn (Some s) self), w3, [Socket; Connect (host self) (port self)].
    rewrite <- app_assoc.
    split; [reflexivity|]. split; [reflexivity|]. split; [discriminate | auto].
Qed.

Ltac recorded_suite lem Htn :=
  match goal with
  | |- context [bind _ _ (?self, (?w, ?log))] =>
      let t := fresh "t" in let w' := fresh "w" in let E := fresh "E" in
      destruct (@lem self w log _ Htn) as (t & w' & E);
      unfold bind at 1; rewrite E; cbn [fst snd];
      unfold bind at 1, set_result, set_self; cbn [fst snd]
  end.

Ltac recorded_clock :=
  unfold bind at 1, io, lift; cbn [fst snd];
  cbn [datetime_now tester_recorded]; unfold unlogged_query; cbn [fst snd];
  match goal with
  | |- context [datetime_now ?w] =>
      let t := fresh "now" in let w' := fresh "w" in
      destruct (datetime_now w) as [t w']; cbn [fst snd]
  end.

(** The calls of a run, by its outcome. *)
Lemma recorded_run_all_tests (self : tester sock) (w : W) (log : list tester_call) :
  exists (r : option results) (self' : tester sock) (w' : W) (calls : list tester_call),
    run_all_tests (self, (w, log)) = (Ret r, (self', (w', log ++ calls)))
    /\ match r with
       | Some results =>
           calls = [Socket; Connect (host self) (port self)]
                     ++ map Send battery_lines ++ [Close]
           /\ test_results self' = results /\ results <> []
       | None =>
           (calls = [Socket] \/ calls = [Socket; Connect (host self) (port self)])
           /\ test_results self' = test_results self
       end.
Proof.
  destruct (recorded_connect_telnet self w log)
    as (b & self1 & w1 & calls1 & Hc & Hres & Htrue & Hfalse).
  unfold run_all_tests. unfold bind at 1. rewrite Hc.
  destruct b; cbn [negb].
  2:{ exists None, self1, w1, calls1. split; [reflexivity|]. auto. }
  destruct (Htrue eq_refl) as ((s & Htn) & ->). clear Htrue Hfalse Hc.
  recorded_clock.
  recorded_suite recorded_wifi_module Htn.
  recorded_suite recorded_bluetooth_module Htn.
  recorded_suite recorded_gps_module Htn.
  recorded_suite recorded_usb_relay Htn.
  recorded_suite recorded_device_info Htn.
  recorded_clock.
  unfold bind at 1, set_result, set_self; cbn [fst snd].
  unfold bind at 1, set_result, set_self; cbn [fst snd].
  unfold bind at 1, tn_attr, get_self. unfold bind at 1. cbn [fst snd tn with_result].
  rewrite Htn. unfold ret at 1. cbn [fst snd].
  unfold bind at 1, io, effect. cbn [fst snd close tester_recorded].
  unfold logged_effect. cbn [fst snd].
  unfold bind at 1, get_self, ret. cbn [fst snd test_results with_result].
  eexists (Some _), _, _, _. split.
  - repeat rewrite <- app_assoc. reflexivity.
  - split; [reflexivity|]. split; [reflexivity|].
    match goal with |- dict_set ?d ?k ?v <> [] => destruct d as [|[k0 v0] d0] end;
      cbn [dict_set]; [discriminate|].
    destruct (str_eqb k0 (U "test_timestamp")); discriminate.
Qed.

(** X7: what a run of the battery sends, on every network and device.
    A run that connects creates one socket, connects it to the host and port
    of the tester, sends the nineteen commands of the five suites, each once,
    each with its line end, in the order of the source, whatever came back
    for the earlier ones, and closes the socket.  A run that does not
    connect returns [None], sends nothing, leaves the results as they were,
    and does not close the socket it made.  No run raises.  The outcome, the
    object and the world are those of the run without the record. *)
Theorem run_all_tests_calls (self : tester sock) (w : W) (log : list tester_call) :
  let plain := run_all_tests (self, w) in
  exists calls : list tester_call,
    run_all_tests (self, (w, log))
    = (fst plain, (fst (snd plain), (snd (snd plain), log ++ calls)))
    /\ match fst plain with
       | Ret (Some results) =>
           calls = [Socket; Connect (host self) (port self)]
                     ++ map Send battery_lines ++ [Close]
           /\ test_results (fst (snd plain)) = results
       | Ret None =>
           (calls = [Socket] \/ calls = [Socket; Connect (host self) (port self)])
           /\ test_results (fst (snd plain)) = test_results self
       | Raise _ => False
       end.
Proof.
  cbv zeta.
  destruct (recorded_run_all_tests self w log) as (r & self' & w' & calls & E & Hr).
  destruct (@same_method_record _ _ _ _ _ _ _ _ _ _ _ _ _ (same_run_all_tests L) E) as (Hret & Hself & Hw).
  exists calls. rewrite <- Hret, <- Hself, <- Hw. split; [exact E|].
  destruct r as [results|]; [|exact Hr]. destruct Hr as (Hcalls & Hres & _). auto.
Qed.

(** The record of a run of [main], by its outcome. *)
Lemma recorded_tester_main (F : FileLib W) (a : WifiBtGpsMain.args)
        (w : W) (log : list tester_call) :
  let host := WifiBtGpsMain.args_host a in
  let port := WifiBtGpsMain.args_port a in
  exists (calls : list tester_call) (w' : W),
    (WifiBtGpsMain.main a (w, log) = (Ret 1%Z, (w', log ++ calls))
     /\ (calls = [Socket] \/ calls = [Socket; Connect host port]))
    \/ (exists (r : results) (name : str) (w0 : W),
          let text := Json.dumps (json_of_results r) in
          calls = [Socket; Connect host port] ++ map Send battery_lines
                    ++ [Close; Dump name text]
          /\ match WifiBtGpsMain.args_output a with
             | Some (c :: output) => name = c :: output
             | _ => exists now, name = U "wifi_bt_gps_test_" ++ stamp now ++ U ".json"
             end
          /\ w' = snd (write_text name text w0)
          /\ WifiBtGpsMain.main a (w, log)
             = (match fst (write_text name text w0) with
                | Ret _ => Ret 0%Z
                | Raise e => Raise e
                end, (w', log ++ calls))).
Proof.
  cbv zeta.
  destruct (recorded_run_all_tests
              (init sock (WifiBtGpsMain.args_host a) (WifiBtGpsMain.args_port a)) w log)
    as (r & self' & w1 & calls & E & Hr).
  cbn [host port init] in Hr.
  assert (Hmain : WifiBtGpsMain.main a (w, log)
                  = match r with
                    | Some (_ :: _) =>
                        let (r2, st2) :=
                          save_results (WifiBtGpsMain.args_output a) (self', (w1, log ++ calls)) in
                        (match r2 with Ret _ => Ret 0%Z | Raise e => Raise e end, snd st2)
                    | _ => (Ret 1%Z, (w1, log ++ calls))
                    end).
  { unfold WifiBtGpsMain.main, Entry.with_object. unfold bind at 1. rewrite E.
    destruct r as [[|ke results]|]; try reflexivity.
    unfold bind.
    destruct (save_results (WifiBtGpsMain.args_output a) (self', (w1, log ++ calls)))
      as [[name|e] st2]; reflexivity. }
  rewrite Hmain. clear Hmain E.
  destruct r as [results|].
  2:{ destruct Hr as (Hcalls & _). exists calls, w1. left. split; [reflexivity | exact Hcalls]. }
  destruct Hr as (-> & Hres & Hne).
  destruct results as [|ke results]; [contradiction|].
  rewrite save_results_cases. cbv zeta. rewrite Hres.
  cbn [write_text files_recorded datetime_now tester_recorded stamp].
  unfold logged, unlogged_query. cbn [fst snd].
  destruct (WifiBtGpsMain.args_output a) as [[|c output]|].
  2:{ eexists _, _. right. exists (ke :: results), (c :: output), w1. cbv zeta.
      split; [reflexivity|]. split; [reflexivity|]. split; [reflexivity|].
      destruct (write_text (c :: output) _ w1) as [[[]|e] w2]; cbn [fst snd];
        repeat rewrite <- app_assoc; reflexivity. }
  all: destruct (datetime_now w1) as [t w2]; cbn [fst snd].
  all: match goal with |- context [write_text ?n ?text ?w0] =>
         eexists _, _; right; exists (ke :: results), n, w0; cbv zeta;
         (split; [reflexivity|]); (split; [exists t; reflexivity|]); (split; [reflexivity|]);
         destruct (write_text n text w0) as [[[]|e] w3]; cbn [fst snd];
         repeat rewrite <- app_assoc; reflexivity
       end.
Qed.

(** X8: the exit status of the tester's [main] and what it does for it.
    The status is 1 exactly when the connection fails, and then nothing
    was sent and no report written.  Otherwise the whole battery is sent, the
    socket closed, and the report of the run written once, as the JSON text
    of the result set, under the name given with [--output], or under
    [wifi_bt_gps_test_<stamp>.json] when none or an empty one is given; the
    status is 0 whatever the commands returned, and an error of the write
    is the one way [main] raises.  The outcome and the world are those of
    the run without the record. *)
Theorem main_exit_status (F : FileLib W) (a : WifiBtGpsMain.args)
        (w : W) (log : list tester_call) :
  let host := WifiBtGpsMain.args_host a in
  let port := WifiBtGpsMain.args_port a in
  let plain := WifiBtGpsMain.main a w in
  exists calls : list tester_call,
    WifiBtGpsMain.main a (w, log) = (fst plain, (snd plain, log ++ calls))
    /\ ((fst plain = Ret 1%Z /\ (calls = [Socket] \/ calls = [Socket; Connect host port]))
        \/ (exists (r : results) (name : str) (w0 : W),
              let text := Json.dumps (json_of_results r) in
              calls = [Socket; Connect host port] ++ map Send battery_lines
                        ++ [Close; Dump name text]
              /\ match WifiBtGpsMain.args_output a with
                 | Some (c :: output) => name = c :: output
                 | _ => exists now, name = U "wifi_bt_gps_test_" ++ stamp now ++ U ".json"
                 end
              /\ plain = (match fst (write_text name text w0) with
                          | Ret _ => Ret 0%Z
                          | Raise e => Raise e
                          end, snd (write_text name text w0)))).
Proof.
  cbv zeta.
  destruct (recorded_tester_main F a w log) as (calls & w' & Hmain). cbv zeta in Hmain.
  exists calls.
  destruct Hmain as [(E & Hcalls)|(r & name & w0 & Hcalls & Hname & Hw & E)].
  - destruct (@same_run_record _ _ _ _ _ _ _ _ _ _ (same_tester_main L F a) E) as (Hret & Hw).
    rewrite <- Hret, <- Hw. split; [exact E|]. left. auto.
  - destruct (@same_run_record _ _ _ _ _ _ _ _ _ _ (same_tester_main L F a) E) as (Hret & Hw').
    rewrite <- Hret, <- Hw'. split; [exact E|]. right. exists r, name, w0. cbv zeta.
    split; [exact Hcalls|]. split; [exact Hname|].
    rewrite (surjective_pairing (WifiBtGpsMain.main a w)), <- Hret, <- Hw', Hw. reflexivity.
Qed.

End RecordedTester.

(** ** The marks of the summary and the result set of a second run *)

Section TesterSession.
Import WifiBtGpsTest.
Context {W sock datetime : Type} `{TesterLib W sock datetime} `{FileLib W}.

Local Abbreviation St := (tester sock * W)%type.

(** X9: a check mark in the summary stands for a reply of the device.  When
    the text [send_command] returned is marked with the check, the socket was
    open, the command was encoded and sent, a read returned bytes that
    decoded, and the text is what is left of them after stripping, which is
    not empty.  Every text made of a caught exception gets the cross, and so
    does the empty reply. *)
Theorem check_mark_is_a_reply (command : str) (delay : N) (self : tester sock) (w : W)
        (r : str) (st' : St) :
  send_command command delay (self, w) = (Ret r, st') ->
  WifiBtGpsMain.status r = true ->
  exists (s : sock) (data : bytes) (n : N) (w1 : W) (raw : bytes) (w2 : W) (text : str),
    tn self = Some s
    /\ utf8_encode (command ++ crlf) = Some data
    /\ send s data w = (Ret n, w1)
    /\ recv s 1024 (sleep delay w1) = (Ret raw, w2)
    /\ utf8_decode raw = Some text
    /\ r = strip text /\ r <> [] /\ st' = (self, w2).
Proof.
  rewrite send_command_cases. intros E Hmark.
  destruct (tn self) as [s|]; [|injection E as <- _; discriminate].
  destruct (utf8_encode (command ++ crlf)) as [data|];
    [|injection E as <- _; cbn in Hmark; discriminate].
  destruct (send s data w) as [[n|e] w1] eqn:Es;
    [|injection E as <- _; cbn in Hmark; discriminate].
  destruct (recv s 1024 (sleep delay w1)) as [[raw|e] w2] eqn:Er;
    [|injection E as <- _; cbn in Hmark; discriminate].
  destruct (utf8_decode raw) as [text|] eqn:Ed;
    [|injection E as <- _; cbn in Hmark; discriminate].
  injection E as <- <-.
  exists s, data, n, w1, raw, w2, text.
  do 6 (split; [first [reflexivity | assumption]|]). split; [|reflexivity].
  intros Hempty. rewrite Hempty in Hmark. discriminate.
Qed.

(** The keys of a dictionary after an assignment. *)
Lemma dict_set_keys (V : Type) (d : list (str * V)) (k : str) (v : V) :
  map fst (dict_set d k v)
  = if existsb (str_eqb k) (map fst d) then map fst d else map fst d ++ [k].
Proof.
  induction d as [|[k' v'] d IH]; cbn [dict_set map fst existsb]; [reflexivity|].
  destruct (str_eqb k' k) eqn:E.
  - apply str_eqb_eq in E. subst k'. rewrite str_eqb_refl. reflexivity.
  - assert (E' : str_eqb k k' = false).
    { destruct (str_eqb k k') eqn:E'; [|reflexivity].
      apply str_eqb_eq in E'. subst k'. now rewrite str_eqb_refl in E. }
    rewrite E'. cbn [orb map fst]. rewrite IH.
    destruct (existsb (str_eqb k) (map fst d)); reflexivity.
Qed.

Lemma dict_set_keys_present (V : Type) (d : list (str * V)) (k : str) (v : V)
      (keys : list str) :
  map fst d = keys -> In k keys -> map fst (dict_set d k v) = keys.
Proof.
  intros <- Hin. rewrite dict_set_keys.
  replace (existsb (str_eqb k) (map fst d)) with true; [reflexivity|].
  symmetry. apply existsb_exists. exists k. split; [exact Hin | apply str_eqb_refl].
Qed.

(** X10: the summary of a run.  For a fresh tester that connects, the
    summary [main] prints has one block for each of the five suites, in the
    order they ran, and in each block one line for each test name of the
    suite, in the order of the source: nineteen lines.  The duration and the
    timestamp have no line.  A line carries the response stored under its
    name and the mark computed from it. *)
Theorem summary_lists_every_test (st st1 : St) :
  connect_telnet st = (Ret true, st1) ->
  test_results (fst st) = [] ->
  exists (r : results) (st' : St),
    run_all_tests st = (Ret (Some r), st')
    /\ map (fun row => (fst row, map (fun l => snd (fst l)) (snd row)))
         (WifiBtGpsMain.summary r)
       = suite_table
    /\ (forall suite lines, In (suite, lines) (WifiBtGpsMain.summary r) ->
          exists t, dict_get r suite = Some (Mapping t)
                    /\ lines = map (fun kv => (WifiBtGpsMain.status (snd kv), fst kv, snd kv)) t).
Proof.
  intros Hc Hfresh.
  destruct (run_all_tests_connected _ Hc)
    as (t1 & t2 & t3 & t4 & t5 & a & b & st' & Hrun & _ & Hsuites).
  cbv zeta in Hrun. rewrite Hfresh in Hrun.
  eexists _, st'. split; [exact Hrun|].
  repeat match goal with
         | Hs : Forall2 _ (_ :: _) _ |- _ => inversion Hs; clear Hs; subst
         | Hs : Forall2 _ [] _ |- _ => clear Hs
         | Hs : _ /\ _ |- _ => destruct Hs
         end.
  cbn [snd] in *.
  split.
  - cbn. rewrite !map_map. cbn [fst snd].
    repeat match goal with Hk : map fst ?t = _ |- _ =>
             change (map (fun x : str * str => fst x) t) with (map fst t); rewrite Hk; clear Hk
           end.
    reflexivity.
  - intros suite lines Hin. cbn in Hin.
    repeat (destruct Hin as [Hin|Hin]; [injection Hin as <- <-|]); [..|contradiction].
    all: eexists; split; [reflexivity | reflexivity].
Qed.

(** X11: a second run on the same tester replaces the results of the first
    in place.  When the result set already has the seven keys of a run, a
    further run that connects returns a result set with the same keys in the
    same order, no key added and none twice; an entry under any other key is
    kept as it is. *)
Theorem second_run_replaces_in_place (st st1 : St) :
  connect_telnet st = (Ret true, st1) ->
  (forall k, In k [U "wifi_tests"; U "bluetooth_tests"; U "gps_tests"; U "usb_tests";
                   U "device_tests"; U "test_duration"; U "test_timestamp"] ->
             In k (map fst (test_results (fst st)))) ->
  exists (r : results) (st' : St),
    run_all_tests st = (Ret (Some r), st')
    /\ map fst r = map fst (test_results (fst st))
    /\ (forall k, ~ In k [U "wifi_tests"; U "bluetooth_tests"; U "gps_tests"; U "usb_tests";
                          U "device_tests"; U "test_duration"; U "test_timestamp"] ->
                  dict_get r k = dict_get (test_results (fst st)) k).
Proof.
  intros Hc Hkeys.
  destruct (run_all_tests_connected _ Hc)
    as (t1 & t2 & t3 & t4 & t5 & a & b & st' & Hrun & _ & _).
  cbv zeta in Hrun. eexists _, st'. split; [exact Hrun|]. split.
  - repeat (apply dict_set_keys_present; [| apply Hkeys; cbn [In]; auto 10]).
    reflexivity.
  - intros k Hk.
    repeat (rewrite dict_get_set_other;
            [| destruct (str_eqb _ k) eqn:E; [|reflexivity];
               apply str_eqb_eq in E; subst k; exfalso; apply Hk; cbn [In]; auto 10]).
    reflexivity.
Qed.

(** X12: from the run to the file and back.  After a run that connects,
    [save_results] writes the result set the run returned, and the file it
    names parses to the JSON value of that result set, every suite, test
    name and response in it; the result set has each of its keys once. *)
Theorem run_save_load (st st1 st2 : St) (r : results) (filename : option str) (name : str) :
  lib_texts_ok _ ->
  results_ok (test_results (fst st)) ->
  run_all_tests st = (Ret (Some r), st1) ->
  save_results filename st1 = (Ret name, st2) ->
  load_results name st2 = (Ret (Some (json_of_results r)), st2)
  /\ test_results (fst st2) = r
  /\ NoDup (map fst r)
  /\ (forall r' : results, json_of_results r' = json_of_results r -> r' = r).
Proof.
  intros Hlib Hok Hrun Hsave.
  assert (Hr : results_ok r) by (eapply run_results_ok; eassumption).
  assert (Hself : test_results (fst st1) = r).
  { destruct (connect_telnet_returns st) as ([|] & st0 & Hc).
    - destruct (run_all_tests_connected _ Hc)
        as (t1 & t2 & t3 & t4 & t5 & a & b & st' & Hrun' & Hres & _).
      cbv zeta in Hrun', Hres. rewrite Hrun' in Hrun. now injection Hrun as <- <-.
    - unfold run_all_tests in Hrun. unfold bind at 1 in Hrun. rewrite Hc in Hrun.
      cbn in Hrun. discriminate. }
  destruct st1 as [self1 w1]. cbn [fst] in Hself.
  pose proof Hsave as Hw. apply save_results_written in Hw.
  destruct Hw as (w2 & w3 & Hw & ->).
  rewrite Hself in Hw. cbn [fst].
  split; [eapply written_report_loads; eassumption|].
  split; [exact Hself|]. split; [apply Hr|].
  intros r'. apply json_of_results_inj.
Qed.

End TesterSession.

(** ** What a mount session writes ([telescope_comm.py]) *)

Section RecordedMount.
Import TelescopeComm Recorded Entry.
Context {W TN SER : Type} (L : MountLib W TN SER).

Local Abbreviation RW := (W * list mount_call)%type.
Local Abbreviation St := (mount TN SER * RW)%type.

(** [send_command] makes one write on a session with a line, none
    otherwise. *)
Lemma recorded_mount_send_command (command : str) (self : mount TN SER)
      (w : W) (log : list mount_call) (data : bytes) :
  ascii_encode (command ++ crlf) = Some data ->
  exists (r : option str) (w' : W),
    send_command command (self, (w, log))
    = (Ret r, (self, (w', log ++ if on_line self then [line_write self data] else []))).
Proof.
  intros Henc. rewrite mount_send_command_cases, Henc. unfold on_line, line_write.
  cbn [telnet_write telnet_read_some serial_write serial_readline sleep mount_recorded].
  unfold logged, unlogged, unlogged_effect. cbn [fst snd].
  destruct (connected self); cbn [negb andb].
  2:{ rewrite app_nil_r. eexists _, _. reflexivity. }
  destruct (tn self) as [t|].
  - destruct (telnet_write t data w) as [[[]|e] w1]; cbn [fst snd];
      [|eexists _, _; reflexivity].
    destruct (telnet_read_some t (sleep 500 w1)) as [[raw|e] w2]; cbn [fst snd];
      [|eexists _, _; reflexivity].
    destruct (ascii_decode raw) as [text|]; eexists _, _; reflexivity.
  - destruct (serial self) as [p|].
    2:{ rewrite app_nil_r. eexists _, _. reflexivity. }
    destruct (serial_write p data w) as [[n|e] w1]; cbn [fst snd];
      [|eexists _, _; reflexivity].
    destruct (serial_readline p (sleep 500 w1)) as [[raw|e] w2]; cbn [fst snd];
      [|eexists _, _; reflexivity].
    destruct (ascii_decode raw) as [text|]; eexists _, _; reflexivity.
Qed.

Lemma ascii_encode_spec (s : str) :
  ascii_encode s
  = if forallb (fun c => c <? 128) s then Some (map ascii_of_N s) else None.
Proof.
  induction s as [|c s IH]; cbn [ascii_encode forallb map]; [reflexivity|].
  destruct (c <? 128); cbn [andb]; [|reflexivity].
  rewrite IH. destruct (forallb (fun c0 => c0 <? 128) s); reflexivity.
Qed.

Lemma recorded_mount_send_command_line (command : str) (self : mount TN SER)
        (w : W) (log : list mount_call) :
  let plain := forallb (fun c => c <? 128) command in
  exists (r : option str) (w' : W),
    send_command command (self, (w, log))
    = (Ret r,
       (self, (w', log ++ if on_line self && plain
                          then [line_write self (map ascii_of_N command
                                             ++ [ascii_of_N 13; ascii_of_N 10])]
                          else [])))
    /\ (plain = false -> r = None /\ w' = w).
Proof.
  cbv zeta.
  assert (Henc : ascii_encode (command ++ crlf)
                 = if forallb (fun c => c <? 128) command
                   then Some (map ascii_of_N command ++ [ascii_of_N 13; ascii_of_N 10])
                   else None).
  { rewrite ascii_encode_spec, forallb_app, map_app. cbn [forallb crlf map].
    rewrite andb_true_r. reflexivity. }
  destruct (forallb (fun c => c <? 128) command).
  - destruct (recorded_mount_send_command command self w log Henc) as (r & w' & E).
    exists r, w'. rewrite andb_true_r. split; [exact E | discriminate].
  - exists None, w. rewrite andb_false_r, app_nil_r. split; [|auto].
    rewrite mount_send_command_cases, Henc.
    destruct (negb (connected self)), (tn self), (serial self); reflexivity.
Qed.

(** X13: the line [send_command] of the mount puts on the wire.  On a
    session with a line, a command of ASCII characters goes out in one write,
    as its characters followed by carriage return and line feed, on the
    telnet connection when the object holds one and on the serial port
    otherwise.  A command
    with a character outside ASCII is not sent, not even in part: the call
    returns [None] and nothing is written, nor anything else done.  In no
    case is the object changed. *)
Theorem mount_send_command_line (command : str) (self : mount TN SER)
        (w : W) (log : list mount_call) :
  let ascii := forallb (fun c => c <? 128) command in
  let plain := send_command command (self, w) in
  send_command command (self, (w, log))
  = (fst plain,
     (self, (snd (snd plain),
             log ++ if on_line self && ascii
                    then [line_write self (map ascii_of_N command
                                       ++ [ascii_of_N 13; ascii_of_N 10])]
                    else [])))
  /\ fst (snd plain) = self
  /\ (ascii = false -> plain = (Ret None, (self, w))).
Proof.
  cbv zeta.
  destruct (recorded_mount_send_command_line command self w log) as (r & w' & E & Hplain).
  cbv zeta in E, Hplain.
  destruct (@same_method_record _ _ _ _ _ _ _ _ _ _ _ _ _ (same_mount_send_command L command) E)
    as (Hret & Hself & Hw).
  rewrite <- Hret, <- Hw, <- Hself. split; [exact E|]. split; [reflexivity|].
  intros Hascii. destruct (Hplain Hascii) as (-> & ->).
  rewrite (surjective_pairing (send_command command (self, w))).
  rewrite (surjective_pairing (snd (send_command command (self, w)))).
  now rewrite <- Hret, <- Hself, <- Hw.
Qed.

Lemma recorded_mount_info_loop (cmds : list string) :
  forall (results : list (str * str)) (self : mount TN SER) (w : W) (log : list mount_call),
    Forall (fun c => ascii_encode (U c ++ crlf) = Some (line c)) cmds ->
    exists (r : list (str * str)) (w' : W),
      mount_info_loop (map U cmds) results (self, (w, log))
      = (Ret r, (self, (w', log ++ if on_line self
                                   then map (line_write self) (map line cmds) else []))).
Proof.
  induction cmds as [|c cmds IH]; intros results self w log Hall.
  - exists results, w. cbn. destruct (on_line self); now rewrite app_nil_r.
  - inversion Hall as [|? ? Hc Hrest]; subst.
    destruct (recorded_mount_send_command (U c) self w log Hc) as (response & w1 & E).
    cbn [map].
    rewrite (@mount_info_loop_step _ _ _ _ (U c) (map U cmds) results
               (self, (w, log)) response _ E).
    cbn [fst sleep mount_recorded]. unfold unlogged_effect. cbn [fst snd].
    match goal with |- context [mount_info_loop _ ?rs (self, (?w0, ?log0))] =>
      destruct (IH rs self w0 log0 Hrest) as (r & w' & E') end.
    exists r, w'. rewrite E'. destruct (on_line self); cbn [app map].
    + now rewrite <- app_assoc.
    + now rewrite app_nil_r.
Qed.

Lemma recorded_get_mount_info (self : mount TN SER) (w : W) (log : list mount_call) :
  exists (r : list (str * str)) (w' : W),
    get_mount_info (self, (w, log))
    = (Ret r, (self, (w', log ++ if on_line self
                                 then map (line_write self) mount_info_lines else []))).
Proof.
  apply (@recorded_mount_info_loop ["MS"; "GV"; "GA"; "GZ"]%string [] self w log).
  repeat constructor.
Qed.

(** X14: what [get_mount_info] writes, on every line.  On a connected
    session it writes the four commands [MS], [GV], [GA] and [GZ], each once
    with its line end, in this order, all on telnet when the object holds a
    telnet connection and all on the serial port otherwise, and goes on to
    the next command whatever the write or the read of the one before did; on
    a session that is not connected, or has neither transport, it writes
    nothing.  It opens and closes nothing and leaves the object as it
    was. *)
Theorem get_mount_info_calls (self : mount TN SER) (w : W) (log : list mount_call) :
  let plain := get_mount_info (self, w) in
  get_mount_info (self, (w, log))
  = (fst plain,
     (self, (snd (snd plain),
             log ++ if on_line self then map (line_write self) mount_info_lines else [])))
  /\ fst (snd plain) = self.
Proof.
  cbv zeta. destruct (recorded_get_mount_info self w log) as (r & w' & E).
  destruct (@same_method_record _ _ _ _ _ _ _ _ _ _ _ _ _
              (same_mount_info_loop L commands []) E) as (Hret & Hself & Hw).
  unfold get_mount_info at 2 3 4. rewrite <- Hret, <- Hw, <- Hself.
  split; [exact E | reflexivity].
Qed.

Lemma recorded_mount_connect_telnet (self : mount TN SER) (w : W) (log : list mount_call) :
  exists (b : bool) (self' : mount TN SER) (w' : W),
    connect_telnet (self, (w, log))
    = (Ret b, (self', (w', log ++ [TelnetOpen (host self) (port self)])))
    /\ (b = true -> exists t, self' = with_connected true (with_tn (Some t) self))
    /\ (b = false -> self' = self).
Proof.
  unfold connect_telnet, try_except, bind, io, set_self, get_self, ret. cbn [fst snd].
  cbn [Telnet mount_recorded]. unfold logged. cbn [fst snd].
  destruct (Telnet (host self) (port self) (timeout self) w) as [[t|e] w1]; cbn [fst snd].
  - exists true, (with_connected true (with_tn (Some t) self)), w1.
    split; [reflexivity|]. split; [eauto | discriminate].
  - exists false, self, w1. split; [reflexivity|]. split; [discriminate | reflexivity].
Qed.

Lemma recorded_mount_connect_serial (c : N) (name : str) (baudrate : N)
      (self : mount TN SER) (w : W) (log : list mount_call) :
  exists (b : bool) (self' : mount TN SER) (w' : W),
    connect_serial (Some (c :: name)) baudrate (self, (w, log))
    = (Ret b, (self', (w', log ++ [SerialOpen (c :: name) baudrate])))
    /\ (b = true -> exists p, self' = with_connected true (with_serial (Some p) self))
    /\ (b = false -> self' = self).
Proof.
  unfold connect_serial, try_except, bind, io, set_self, get_self, ret. cbn [fst snd].
  cbn [Serial mount_recorded]. unfold logged. cbn [fst snd].
  destruct (Serial (c :: name) baudrate (timeout self) w) as [[p|e] w1]; cbn [fst snd].
  - exists true, (with_connected true (with_serial (Some p) self)), w1.
    split; [reflexivity|]. split; [eauto | discriminate].
  - exists false, self, w1. split; [reflexivity|]. split; [discriminate | reflexivity].
Qed.

(** The closes of [disconnect]. *)
Lemma recorded_disconnect (self : mount TN SER) (w : W) (log : list mount_call) :
  exists w',
    disconnect (self, (w, log))
    = (Ret tt, (with_connected false self,
                (w', log ++ match tn self with Some _ => [TelnetClose] | None => [] end
                         ++ match serial self with Some _ => [SerialClose] | None => [] end))).
Proof.
  unfold disconnect, bind, get_self, set_self, io, effect, ret. cbn [fst snd].
  cbn [telnet_close serial_close mount_recorded]. unfold logged_effect.
  destruct (tn self) as [t|], (serial self) as [p|]; cbn [fst snd app];
    eexists; repeat rewrite <- app_assoc; cbn [app]; try rewrite app_nil_r; reflexivity.
Qed.

(** What [main] does once it is connected. *)
Lemma recorded_session (C : TelescopeMain.ClockLib W) (self : mount TN SER)
      (w : W) (log : list mount_call) :
  on_line self = true ->
  exists w',
    (TelescopeMain.collect ;; disconnect ;; ret 0%Z) (self, (w, log))
    = (Ret 0%Z,
       (with_connected false self,
        (w', log ++ map (line_write self) session_lines
                 ++ match tn self with Some _ => [TelnetClose] | None => [] end
                 ++ match serial self with Some _ => [SerialClose] | None => [] end))).
Proof.
  intros Hline. unfold TelescopeMain.collect, test_connection.
  destruct (@recorded_mount_send_command (U "echo test") self w log (line "echo test") eq_refl)
    as (r & w1 & E).
  rewrite Hline in E.
  destruct (recorded_get_mount_info self w1 (log ++ [line_write self (line "echo test")]))
    as (info & w2 & E2).
  rewrite Hline in E2.
  unfold bind at 1. unfold bind at 1. unfold bind at 1. rewrite E.
  unfold ret at 1. cbn [fst snd].
  unfold bind at 1. rewrite E2.
  unfold bind at 1, io, lift. cbn [fst snd TelescopeMain.now_isoformat clock_recorded].
  unfold unlogged_query. cbn [fst snd].
  destruct (TelescopeMain.now_isoformat w2) as [ts w3]. cbn [fst snd]. unfold ret at 1.
  unfold bind at 1.
  destruct (recorded_disconnect self w3
              ((log ++ [line_write self (line "echo test")]) ++ map (line_write self) mount_info_lines))
    as (w4 & E4).
  rewrite E4. unfold ret. exists w4. repeat rewrite <- app_assoc. reflexivity.
Qed.

Lemma recorded_connect_auto (self : mount TN SER) (w : W) (log : list mount_call) :
  exists (b : bool) (self' : mount TN SER) (w' : W) (opens : list mount_call),
    connect_serial None 9600 (self, (w, log)) = (Ret b, (self', (w', log ++ opens)))
    /\ (b = true -> exists device p,
           opens = [SerialOpen device 9600]
           /\ self' = with_connected true (with_serial (Some p) self))
    /\ (b = false -> self' = self /\ (opens = [] \/ exists device, opens = [SerialOpen device 9600])).
Proof.
  assert (Hnone : forall w1,
            exists (b : bool) (self' : mount TN SER) (w' : W) (opens : list mount_call),
              (Ret false, (self, (w1, log))) = (Ret b, (self', (w', log ++ opens)))
              /\ (b = true -> exists device p,
                     opens = [SerialOpen device 9600]
                     /\ self' = with_connected true (with_serial (Some p) self))
              /\ (b = false -> self' = self
                               /\ (opens = [] \/ exists device, opens = [SerialOpen device 9600]))).
  { intros w1. exists false, self, w1, []. rewrite app_nil_r.
    split; [reflexivity|]. split; [discriminate | auto]. }
  unfold connect_serial, try_except, bind, io, lift, set_self, get_self, ret.
  cbn [fst snd]. cbn [comports Serial mount_recorded]. unfold unlogged_query, logged.
  cbn [fst snd].
  destruct (comports w) as [[|p0 rest] w1]; cbn [fst snd]; [apply Hnone|].
  destruct (DiagnoseHomebrew.device p0) as [|c name]; cbn [fst snd]; [apply Hnone|].
  destruct (Serial (c :: name) 9600 (timeout self) w1) as [[p|e] w2]; cbn [fst snd].
  - exists true, (with_connected true (with_serial (Some p) self)), w2,
      [SerialOpen (c :: name) 9600].
    split; [reflexivity|]. split; [eauto | discriminate].
  - exists false, self, w2, [SerialOpen (c :: name) 9600].
    split; [reflexivity|]. split; [discriminate | eauto].
Qed.

(** The connection [main] makes, from a fresh object. *)
Lemma recorded_establish (a : TelescopeMain.args) (w : W) (log : list mount_call) :
  let self := init TN SER (TelescopeMain.args_host a) (TelescopeMain.args_port a) 5000 in
  exists (b : bool) (self' : mount TN SER) (w' : W)
         (earlier : list mount_call) (last : mount_call),
    TelescopeMain.establish a (self, (w, log))
    = (Ret b, (self', (w', log ++ earlier ++ [last])))
    /\ (b = true ->
        on_line self' = true
        /\ match tn self' with Some _ => [TelnetClose] | None => [] end
           ++ match serial self' with Some _ => [SerialClose] | None => [] end
           = [closing last]
        /\ line_write self' = writing last)
    /\ match TelescopeMain.args_host a, TelescopeMain.args_serial a with
       | Some (_ :: _), _ =>
           earlier = []
           /\ last = TelnetOpen (TelescopeMain.args_host a) (TelescopeMain.args_port a)
       | _, Some (c :: name) =>
           earlier = [] /\ last = SerialOpen (c :: name) (TelescopeMain.args_baudrate a)
       | _, _ =>
           (earlier = [] /\ exists device, last = SerialOpen device 9600)
           \/ ((earlier = [] \/ exists device, earlier = [SerialOpen device 9600])
               /\ last = TelnetOpen (TelescopeMain.args_host a) (TelescopeMain.args_port a))
       end.
Proof.
  intros self.
  assert (Htelnet : forall (w0 : W) (earlier : list mount_call),
            exists (b : bool) (self' : mount TN SER) (w' : W),
              connect_telnet (self, (w0, log ++ earlier))
              = (Ret b, (self', (w', log ++ earlier
                                     ++ [TelnetOpen (TelescopeMain.args_host a)
                                           (TelescopeMain.args_port a)])))
              /\ (b = true ->
                  on_line self' = true
                  /\ match tn self' with Some _ => [TelnetClose] | None => [] end
                     ++ match serial self' with Some _ => [SerialClose] | None => [] end
                     = [TelnetClose]
                  /\ line_write self' = TelnetWrite)).
  { intros w0 earlier.
    destruct (recorded_mount_connect_telnet self w0 (log ++ earlier))
      as (b & self' & w' & E & Htrue & _).
    exists b, self', w'. rewrite E, <- app_assoc. split; [reflexivity|].
    intros Hb. destruct (Htrue Hb) as (t & ->). repeat split. }
  assert (Hfallback :
            exists (b : bool) (self' : mount TN SER) (w' : W)
                   (earlier : list mount_call) (last : mount_call),
              (connected <- connect_serial None 9600 ;;
               if negb connected && true then connect_telnet else ret connected)
                (self, (w, log))
              = (Ret b, (self', (w', log ++ earlier ++ [last])))
              /\ (b = true ->
                  on_line self' = true
                  /\ match tn self' with Some _ => [TelnetClose] | None => [] end
                     ++ match serial self' with Some _ => [SerialClose] | None => [] end
                     = [closing last]
                  /\ line_write self' = writing last)
              /\ ((earlier = [] /\ exists device, last = SerialOpen device 9600)
                  \/ ((earlier = [] \/ exists device, earlier = [SerialOpen device 9600])
                      /\ last = TelnetOpen (TelescopeMain.args_host a)
                                (TelescopeMain.args_port a)))).
  { destruct (recorded_connect_auto self w log)
      as (b & self1 & w1 & opens & E & Htrue & Hfalse).
    unfold bind at 1. rewrite E. destruct b; cbn [negb andb].
    - destruct (Htrue eq_refl) as (device & p & -> & ->).
      exists true, (with_connected true (with_serial (Some p) self)), w1, [],
        (SerialOpen device 9600).
      split; [reflexivity|]. split; [intros _; repeat split|].
      left. eauto.
    - destruct (Hfalse eq_refl) as (-> & Hopens).
      destruct (Htelnet w1 opens) as (b & self' & w' & E' & Htrue').
      exists b, self', w', opens, (TelnetOpen (TelescopeMain.args_host a)
                                    (TelescopeMain.args_port a)).
      split; [exact E'|]. split; [exact Htrue'|]. right. auto. }
  unfold TelescopeMain.establish.
  destruct (TelescopeMain.args_host a) as [[|ch h]|] eqn:Hhost; cbn [given].
  2:{ destruct (Htelnet w []) as (b & self' & w' & E & Htrue).
      rewrite app_nil_r in E. try rewrite Hhost in E.
      exists b, self', w', [], (TelnetOpen (Some (ch :: h)) (TelescopeMain.args_port a)).
      split; [exact E|]. split; [exact Htrue | auto]. }
  all: destruct (TelescopeMain.args_serial a) as [[|cs name]|] eqn:Hserial; cbn [given].
  all: try (try rewrite Hhost in Hfallback; exact Hfallback).
  all: destruct (recorded_mount_connect_serial cs name (TelescopeMain.args_baudrate a) self w log)
      as (b & self' & w' & E & Htrue & _);
    exists b, self', w', [], (SerialOpen (cs :: name) (TelescopeMain.args_baudrate a));
    (split; [exact E|]); (split; [|auto]);
    intros Hb; destruct (Htrue Hb) as (p & ->); repeat split.
Qed.

(** The record of a run of the mount's [main]. *)
Lemma recorded_mount_main (C : TelescopeMain.ClockLib W) (a : TelescopeMain.args)
        (w : W) (log : list mount_call) :
  exists (code : Z) (w' : W) (earlier : list mount_call) (last : mount_call),
    TelescopeMain.main a (w, log)
    = (Ret code,
       (w', log ++ earlier ++ [last]
                ++ if (code =? 0)%Z
                   then map (writing last) session_lines ++ [closing last] else []))
    /\ (code = 0%Z \/ code = 1%Z)
    /\ match TelescopeMain.args_host a, TelescopeMain.args_serial a with
       | Some (_ :: _), _ =>
           earlier = []
           /\ last = TelnetOpen (TelescopeMain.args_host a) (TelescopeMain.args_port a)
       | _, Some (c :: name) =>
           earlier = [] /\ last = SerialOpen (c :: name) (TelescopeMain.args_baudrate a)
       | _, _ =>
           (earlier = [] /\ exists device, last = SerialOpen device 9600)
           \/ ((earlier = [] \/ exists device, earlier = [SerialOpen device 9600])
               /\ last = TelnetOpen (TelescopeMain.args_host a) (TelescopeMain.args_port a))
       end
    /\ TelescopeMain.main
         {| TelescopeMain.args_host := TelescopeMain.args_host a;
            TelescopeMain.args_port := TelescopeMain.args_port a;
            TelescopeMain.args_serial := TelescopeMain.args_serial a;
            TelescopeMain.args_baudrate := TelescopeMain.args_baudrate a;
            TelescopeMain.args_test := negb (TelescopeMain.args_test a);
            TelescopeMain.args_json := negb (TelescopeMain.args_json a) |} (w, log)
       = TelescopeMain.main a (w, log).
Proof.
  destruct (recorded_establish a w log)
    as (b & self' & w1 & earlier & last & E & Htrue & Hshape).
  exists (if b then 0%Z else 1%Z).
  assert (Hmain : exists w',
            TelescopeMain.main a (w, log)
            = (Ret (if b then 0%Z else 1%Z),
               (w', log ++ earlier ++ [last]
                        ++ if b then map (writing last) session_lines ++ [closing last] else []))).
  { unfold TelescopeMain.main, with_object. unfold bind at 1. rewrite E.
    destruct b.
    - destruct (Htrue eq_refl) as (Hline & Hclose & Hwrite).
      destruct (recorded_session C self' w1 (log ++ earlier ++ [last]) Hline) as (w2 & E2).
      rewrite Hclose, Hwrite in E2.
      assert (E3 : ((if TelescopeMain.args_test a
                     then TelescopeMain.collect else TelescopeMain.collect) ;;
                    disconnect ;; ret 0%Z) (self', (w1, log ++ earlier ++ [last]))
                   = (TelescopeMain.collect ;; disconnect ;; ret 0%Z)
                       (self', (w1, log ++ earlier ++ [last])))
        by (destruct (TelescopeMain.args_test a); reflexivity).
      rewrite E3, E2. cbn [snd]. exists w2. repeat rewrite <- app_assoc. reflexivity.
    - unfold ret. cbn [snd]. exists w1. reflexivity. }
  destruct Hmain as (w' & Hmain).
  exists w', earlier, last. split; [|split; [|split]].
  - rewrite Hmain. destruct b; reflexivity.
  - destruct b; auto.
  - exact Hshape.
  - unfold TelescopeMain.main, TelescopeMain.establish.
    cbn [TelescopeMain.args_host TelescopeMain.args_port TelescopeMain.args_serial
         TelescopeMain.args_baudrate TelescopeMain.args_test].
    destruct (TelescopeMain.args_test a); reflexivity.
Qed.

(** X15: what the mount's [main] does, for every command line and on
    every line.  It always tries to open a connection and returns 0 or 1,
    without raising.  With [--host] it opens telnet only; with [--serial]
    and no host, that serial port only; with neither, the first serial port
    enumerated at 9600 baud, or telnet, or the serial port and then telnet.
    With status 0, [main] has written, after its last open and on the
    transport of that open, [echo test] and the four commands of
    [get_mount_info], each with its line end, and then closed that
    transport; with status 1 it has written nothing and closed nothing.  [--test] and [--json] change none of
    this. *)
Theorem mount_main_calls (C : TelescopeMain.ClockLib W) (a : TelescopeMain.args)
        (w : W) (log : list mount_call) :
  let plain := TelescopeMain.main a w in
  exists (code : Z) (earlier : list mount_call) (last : mount_call),
    fst plain = Ret code
    /\ TelescopeMain.main a (w, log)
       = (Ret code,
          (snd plain, log ++ earlier ++ [last]
                        ++ if (code =? 0)%Z
                           then map (writing last) session_lines ++ [closing last] else []))
    /\ (code = 0%Z \/ code = 1%Z)
    /\ match TelescopeMain.args_host a, TelescopeMain.args_serial a with
       | Some (_ :: _), _ =>
           earlier = []
           /\ last = TelnetOpen (TelescopeMain.args_host a) (TelescopeMain.args_port a)
       | _, Some (c :: name) =>
           earlier = [] /\ last = SerialOpen (c :: name) (TelescopeMain.args_baudrate a)
       | _, _ =>
           (earlier = [] /\ exists device, last = SerialOpen device 9600)
           \/ ((earlier = [] \/ exists device, earlier = [SerialOpen device 9600])
               /\ last = TelnetOpen (TelescopeMain.args_host a) (TelescopeMain.args_port a))
       end
    /\ TelescopeMain.main
         {| TelescopeMain.args_host := TelescopeMain.args_host a;
            TelescopeMain.args_port := TelescopeMain.args_port a;
            TelescopeMain.args_serial := TelescopeMain.args_serial a;
            TelescopeMain.args_baudrate := TelescopeMain.args_baudrate a;
            TelescopeMain.args_test := negb (TelescopeMain.args_test a);
            TelescopeMain.args_json := negb (TelescopeMain.args_json a) |} w
       = plain.
Proof.
  cbv zeta.
  destruct (recorded_mount_main C a w log)
    as (code & w' & earlier & last & E & Hcode & Hshape & _).
  destruct (@same_run_record _ _ _ _ _ _ _ _ _ _ (same_mount_main L C a) E) as (Hret & Hw).
  exists code, earlier, last. rewrite <- Hw.
  split; [now rewrite Hret|]. split; [exact E|]. split; [exact Hcode|].
  split; [exact Hshape|].
  unfold TelescopeMain.main, TelescopeMain.establish.
  cbn [TelescopeMain.args_host TelescopeMain.args_port TelescopeMain.args_serial
       TelescopeMain.args_baudrate TelescopeMain.args_test].
  destruct (TelescopeMain.args_test a); reflexivity.
Qed.

End RecordedMount.

(** ** The diagnostic: the choice of the port and the probe ([diagnose_homebrew.py]) *)

Section PortChoice.
Import DiagnoseHomebrew DiagnoseMain.

Variables (lower upper : str -> str) (isdigit : str -> bool) (int : str -> option Z).

Lemma list_index_inside (A : Type) (l : list A) (i : Z) :
  (0 <= i < Z.of_nat (List.length l))%Z ->
  exists x, nth_error l (Z.to_nat i) = Some x /\ list_index l i = Some x.
Proof.
  intros Hi. unfold list_index.
  replace ((0 <=? i) && (i <? Z.of_nat (List.length l)))%Z with true
    by (symmetry; apply andb_true_iff; split; [apply Z.leb_le | apply Z.ltb_lt]; lia).
  destruct (nth_error l (Z.to_nat i)) as [x|] eqn:E; [eauto|].
  apply nth_error_None in E. lia.
Qed.

Lemma list_index_outside (A : Type) (l : list A) (i : Z) :
  (Z.of_nat (List.length l) <= i)%Z -> list_index l i = None.
Proof.
  intros Hi. unfold list_index.
  replace ((0 <=? i) && (i <? Z.of_nat (List.length l)))%Z with false
    by (symmetry; apply andb_false_iff; right; apply Z.ltb_ge; lia).
  replace ((- Z.of_nat (List.length l) <=? i) && (i <? 0))%Z with false
    by (symmetry; apply andb_false_iff; right; apply Z.ltb_ge; lia).
  reflexivity.
Qed.

Lemma list_index_last (A : Type) (l : list A) (x : A) :
  list_index (l ++ [x]) (-1) = Some x.
Proof.
  unfold list_index. rewrite length_app. cbn [List.length].
  replace ((0 <=? -1) && (-1 <? Z.of_nat (List.length l + 1)))%Z with false by reflexivity.
  replace ((- Z.of_nat (List.length l + 1) <=? -1) && (-1 <? 0))%Z with true
    by (symmetry; apply andb_true_iff; split; [apply Z.leb_le; lia | reflexivity]).
  replace (Z.to_nat (Z.of_nat (List.length l + 1) + -1)) with (List.length l) by lia.
  rewrite nth_error_app2 by lia. now rewrite Nat.sub_diag.
Qed.

(** X16: the port choice after a detection never ends with an exception
    of the list index.  With a port detected, the answers [y] and nothing
    (after stripping and lowering) select the detected port.  Of the other
    answers, one that [isdigit] rejects is taken as a port name, in upper
    case; one that [isdigit] accepts and [int] reads as a number from 1 to
    the number of ports selects the port listed under it, and as a number
    outside the list is taken as a port name, in upper case; one that
    [isdigit] accepts and [int] refuses (a superscript two) ends the choice
    with the [ValueError] of [int]. *)
Theorem select_port_detected (ports : list port_info) (c : N) (name answer : str) :
  let choice := lower (strip answer) in
  let chosen := select_port lower upper isdigit int ports (Some (c :: name)) answer in
  chosen <> Failed IndexError
  /\ (choice = U "y" \/ choice = [] -> chosen = Selected (c :: name))
  /\ (choice <> U "y" -> choice <> [] ->
      (isdigit choice = false -> chosen = Selected (upper choice))
      /\ (forall n, isdigit choice = true -> int choice = Some n ->
            ((1 <= n <= Z.of_nat (List.length ports))%Z ->
             exists p, nth_error ports (Z.to_nat (n - 1)) = Some p
                       /\ chosen = Selected (device p))
            /\ ((n < 1 \/ Z.of_nat (List.length ports) < n)%Z ->
                chosen = Selected (upper choice)))
      /\ (isdigit choice = true -> int choice = None ->
          chosen = Failed IntValueError)).
Proof.
  cbv zeta. unfold select_port.
  set (choice := lower (strip answer)).
  destruct (str_eqb choice (U "y")) eqn:Ey.
  { apply str_eqb_eq in Ey. cbn [orb]. split; [discriminate|]. split; [reflexivity|].
    intros Hy. contradiction. }
  destruct (str_eqb choice []) eqn:Ee.
  { apply str_eqb_eq in Ee. cbn [orb]. split; [discriminate|]. split; [reflexivity|].
    intros _ He. contradiction. }
  cbn [orb].
  assert (Hno : choice = U "y" \/ choice = [] -> False).
  { intros [Hc|Hc]; rewrite Hc in *; discriminate. }
  destruct (isdigit choice) eqn:Ed.
  2:{ split; [discriminate|]. split; [intros Hc; destruct (Hno Hc)|].
      intros _ _. split; [reflexivity|]. split; [intros n Hd; discriminate|].
      intros Hd. discriminate. }
  destruct (int choice) as [n|] eqn:Ei.
  2:{ split; [discriminate|]. split; [intros Hc; destruct (Hno Hc)|].
      intros _ _. split; [discriminate|]. split; [intros n _ Hn; discriminate|].
      reflexivity. }
  destruct ((1 <=? n) && (n <=? Z.of_nat (List.length ports)))%Z eqn:Er.
  - apply andb_true_iff in Er. destruct Er as [H1 H2].
    apply Z.leb_le in H1. apply Z.leb_le in H2.
    destruct (@list_index_inside _ ports (n - 1)) as (p & Hp & Hi); [lia|].
    unfold port_at. rewrite Hi.
    split; [discriminate|]. split; [intros Hc; destruct (Hno Hc)|].
    intros _ _. split; [discriminate|]. split; [|intros _ Hn; discriminate].
    intros n' _ [= <-]. split.
    + intros _. exists p. auto.
    + intros Hout. lia.
  - split; [discriminate|]. split; [intros Hc; destruct (Hno Hc)|].
    intros _ _. split; [discriminate|]. split; [|intros _ Hn; discriminate].
    intros n' _ [= <-]. split; [|reflexivity].
    intros Hin. apply andb_false_iff in Er.
    destruct Er as [Er|Er]; [apply Z.leb_gt in Er | apply Z.leb_gt in Er]; lia.
Qed.

(** X17: the port choice without a detection does not check the number
    typed.  A number from 1 to the number of ports selects the port listed
    under it; the number 0 selects the last port of the list; a number
    greater than the number of ports ends the choice with an [IndexError]. *)
Theorem select_port_undetected (ports : list port_info) (answer : str) (n : Z) :
  let choice := strip answer in
  let chosen := select_port lower upper isdigit int ports None answer in
  isdigit choice = true ->
  int choice = Some n ->
  ((1 <= n <= Z.of_nat (List.length ports))%Z ->
     exists p, nth_error ports (Z.to_nat (n - 1)) = Some p /\ chosen = Selected (device p))
  /\ (n = 0%Z -> forall front p, ports = front ++ [p] -> chosen = Selected (device p))
  /\ ((Z.of_nat (List.length ports) < n)%Z -> chosen = Failed IndexError).
Proof.
  cbv zeta. intros Hd Hi. unfold select_port. rewrite Hd, Hi. unfold port_at.
  split; [|split].
  - intros Hn. destruct (@list_index_inside _ ports (n - 1)) as (p & Hp & E); [lia|].
    rewrite E. eauto.
  - intros -> front p ->. cbn [Z.sub Z.add Z.opp]. now rewrite list_index_last.
  - intros Hn. rewrite list_index_outside by lia. reflexivity.
Qed.

End PortChoice.

Section PortChoiceExample.
Import DiagnoseHomebrew DiagnoseMain.

(** The choice without a detection, on two ports and ASCII answers: [2]
    is the second port, and so is [0]; [3] is an error. *)
Lemma select_port_undetected_example :
  let com3 := {| device := U "COM3"; description := U "n/a"; hwid := U "n/a";
                 manufacturer := None |} in
  let com7 := {| device := U "COM7"; description := U "n/a"; hwid := U "n/a";
                 manufacturer := None |} in
  let chosen := select_port ascii_lower ascii_upper ascii_isdigit ascii_int
                  [com3; com7] None (U " 0 ") in
  ascii_isdigit (strip (U " 0 ")) = true
  /\ ascii_int (strip (U " 0 ")) = Some 0%Z
  /\ ((1 <= 0 <= 2)%Z ->
      exists p, nth_error [com3; com7] (Z.to_nat (0 - 1)) = Some p
                /\ chosen = Selected (device p))
  /\ (0%Z = 0%Z -> forall front p, [com3; com7] = front ++ [p] -> chosen = Selected (device p))
  /\ ((2 < 0)%Z -> chosen = Failed IndexError).
Proof.
  cbv zeta. split; [reflexivity|]. split; [reflexivity|].
  exact (@select_port_undetected ascii_lower ascii_upper ascii_isdigit ascii_int
           [{| device := U "COM3"; description := U "n/a"; hwid := U "n/a";
               manufacturer := None |};
            {| device := U "COM7"; description := U "n/a"; hwid := U "n/a";
               manufacturer := None |}]
           (U " 0 ") 0%Z eq_refl eq_refl).
Defined.

End PortChoiceExample.

Section PortChoiceAnswers.
Import DiagnoseHomebrew DiagnoseMain.

(** The answers [0], [2] and [3] on two ports, without and with a
    detection. *)
Example select_port_edge_answers :
  let com3 := {| device := U "COM3"; description := U "n/a"; hwid := U "n/a";
                 manufacturer := None |} in
  let com7 := {| device := U "COM7"; description := U "USB-SERIAL CH340"; hwid := U "n/a";
                 manufacturer := None |} in
  let choose := select_port ascii_lower ascii_upper ascii_isdigit ascii_int [com3; com7] in
  map (choose None) [U "0"; U "2"; U "3"; U "com9"]
  = [Selected (U "COM7"); Selected (U "COM7"); Failed IndexError; Selected (U "COM9")]
  /\ map (choose (Some (U "COM7"))) [U "0"; U "1"; U "3"; U " Y "; U "n"]
     = [Selected (U "0"); Selected (U "COM3"); Selected (U "3"); Selected (U "COM7");
        Selected (U "N")].
Proof. split; reflexivity. Qed.

End PortChoiceAnswers.

Section RecordedProbe.
Import DiagnoseHomebrew DiagnoseMain Recorded.
Context {W SER : Type} (L : DiagLib W SER).

Local Abbreviation RW := (W * list probe_call)%type.

Lemma recorded_command_loop (ser : SER) (cmds : list bytes) :
  forall (w : W) (log : list probe_call),
    exists (r : res unit) (w' : W) (k : nat),
      command_loop ser cmds (w, log) = (r, (w', log ++ map PortWrite (firstn k cmds)))
      /\ (k <= List.length cmds)%nat.
Proof.
  induction cmds as [|cmd cmds IH]; intros w log.
  - exists (Ret tt), w, 0%nat. cbn. rewrite app_nil_r. split; [reflexivity | lia].
  - assert (Hone : forall (r : res unit) (w' : W),
              exists (r0 : res unit) (w0 : W) (k : nat),
                (r, (w', log ++ [PortWrite cmd]))
                = (r0, (w0, log ++ map PortWrite (firstn k (cmd :: cmds))))
                /\ (k <= List.length (cmd :: cmds))%nat).
    { intros r w'. exists r, w', 1%nat. cbn. split; [reflexivity | lia]. }
    assert (Hnext : forall w1 : W,
              exists (r0 : res unit) (w0 : W) (k : nat),
                command_loop ser cmds (w1, log ++ [PortWrite cmd])
                = (r0, (w0, log ++ map PortWrite (firstn k (cmd :: cmds))))
                /\ (k <= List.length (cmd :: cmds))%nat).
    { intros w1. destruct (IH w1 (log ++ [PortWrite cmd])) as (r & w' & k & E & Hk).
      exists r, w', (S k). rewrite E, <- app_assoc. cbn. split; [reflexivity | lia]. }
    cbn [command_loop]. unfold bind, effect, ret.
    cbn [write in_waiting read sleep diag_recorded].
    unfold logged, unlogged, unlogged_effect. cbn [fst snd].
    destruct (write ser cmd w) as [[n|e] w1]; cbn [fst snd]; [|apply Hone].
    destruct (in_waiting ser (sleep 300 w1)) as [[waiting|e] w2]; cbn [fst snd];
      [|apply Hone].
    destruct (0 <? waiting); cbn [fst snd]; [|apply Hnext].
    destruct (in_waiting ser w2) as [[n'|e] w3]; cbn [fst snd]; [|apply Hone].
    destruct (read ser n' w3) as [[response|e] w4]; cbn [fst snd]; [|apply Hone].
    destruct (0 <? List.length response)%nat; cbn [fst snd]; [apply Hone | apply Hnext].
Qed.

(** The calls of one attempt. *)
Lemma recorded_probe (port : str) (baud : N) (w : W) (log : list probe_call) :
  exists (r : res unit) (w' : W) (k : nat),
    probe port baud (w, log) = (r, (w', log ++ attempt_calls port baud k (returned r)))
    /\ (k <= 5)%nat.
Proof.
  assert (Hnone : forall (e : exn) (w' : W),
            exists (r : res unit) (w0 : W) (k : nat),
              (Raise e, (w', log ++ [PortOpen port baud]))
              = (r, (w0, log ++ attempt_calls port baud k (returned r)))
              /\ (k <= 5)%nat).
  { intros e w'. exists (Raise e), w', 0%nat. split; [reflexivity | lia]. }
  assert (Hloop : forall (ser : SER) (w1 : W),
            exists (r : res unit) (w0 : W) (k : nat),
              (command_loop ser test_commands ;; effect (close ser))
                (w1, log ++ [PortOpen port baud])
              = (r, (w0, log ++ attempt_calls port baud k (returned r)))
              /\ (k <= 5)%nat).
  { intros ser w1.
    destruct (recorded_command_loop ser test_commands w1 (log ++ [PortOpen port baud]))
      as (r & w' & k & E & Hk).
    unfold bind. rewrite E. destruct r as [[]|e].
    - unfold effect. cbn [close diag_recorded]. unfold logged_effect. cbn [fst snd].
      exists (Ret tt), (close ser w'), k. unfold attempt_calls. cbn [returned].
      repeat rewrite <- app_assoc. split; [reflexivity | exact Hk].
    - exists (Raise e), w', k. unfold attempt_calls. cbn [returned].
      rewrite app_nil_r, <- app_assoc. split; [reflexivity | exact Hk]. }
  unfold probe. unfold bind at 1. cbn [Serial diag_recorded]. unfold logged. cbn [fst snd].
  destruct (Serial port baud 2000 w) as [[ser|e] w1]; cbn [fst snd]; [|apply Hnone].
  unfold bind at 1, effect. cbn [sleep diag_recorded]. unfold unlogged_effect. cbn [fst snd].
  unfold bind at 1. cbn [in_waiting diag_recorded]. unfold unlogged at 1. cbn [fst snd].
  destruct (in_waiting ser (sleep 500 w1)) as [[waiting|e] w2]; cbn [fst snd];
    [|apply Hnone].
  unfold bind at 1.
  destruct (0 <? waiting); [|unfold ret at 1; apply Hloop].
  unfold bind at 1. cbn [in_waiting read diag_recorded]. unfold unlogged at 1. cbn [fst snd].
  destruct (in_waiting ser w2) as [[n|e] w3]; cbn [fst snd]; [|apply Hnone].
  unfold bind at 1. unfold unlogged at 1. cbn [fst snd].
  destruct (read ser n w3) as [[data|e] w4]; cbn [fst snd]; [|apply Hnone].
  unfold ret at 1. apply Hloop.
Qed.

(** X18: one attempt of the probe, on every port.  The attempt calls
    for the port at the baud rate, writes some first ones of the five test
    commands, in the order of the source, and closes the port exactly when
    it ends without an exception: when a call raises after the port was
    opened, the port is left open. *)
Theorem probe_calls (port : str) (baud : N) (w : W) (log : list probe_call) :
  let plain := probe port baud w in
  exists k : nat,
    probe port baud (w, log)
    = (fst plain,
       (snd plain, log ++ PortOpen port baud :: map PortWrite (firstn k test_commands)
                       ++ match fst plain with Ret _ => [PortClose] | Raise _ => [] end))
    /\ (k <= 5)%nat.
Proof.
  cbv zeta. destruct (recorded_probe port baud w log) as (r & w' & k & E & Hk).
  destruct (@same_run_record _ _ _ _ _ _ _ _ _ _ (same_probe L port baud) E) as (Hret & Hw).
  exists k. rewrite <- Hret, <- Hw. split; [|exact Hk]. rewrite E. destruct r; reflexivity.
Qed.

Lemma recorded_test_serial_connection (port : str) (baudrates : list N) :
  forall (w : W) (log : list probe_call),
    exists (w' : W) (attempts : list (list probe_call)),
      test_serial_connection port baudrates (w, log) = (Ret tt, (w', log ++ List.concat attempts))
      /\ Forall2 (fun baud calls =>
                    exists k closed, calls = attempt_calls port baud k closed /\ (k <= 5)%nat)
           baudrates attempts.
Proof.
  induction baudrates as [|baud baudrates IH]; intros w log.
  - exists w, []. cbn. rewrite app_nil_r. split; [reflexivity | constructor].
  - destruct (recorded_probe port baud w log) as (r & w1 & k & E & Hk).
    cbn [test_serial_connection]. unfold bind at 1, try_except. rewrite E.
    destruct (IH w1 (log ++ attempt_calls port baud k (returned r)))
      as (w' & attempts & E' & Hall).
    exists w', (attempt_calls port baud k (returned r) :: attempts).
    cbn [List.concat]. rewrite app_assoc. split.
    + destruct r as [[]|e]; exact E'.
    + constructor; [eauto | exact Hall].
Qed.

(** X19: [test_serial_connection] on every port and for every list of
    baud rates.  It never raises.  It opens the port once for every baud
    rate, in the order of the list, also after an attempt in which the device
    replied and after one that failed; between two opens it writes at most
    the five test commands, in their order, and closes the port at most once,
    after the writes. *)
Theorem test_serial_connection_calls (port : str) (baudrates : list N)
        (w : W) (log : list probe_call) :
  let plain := test_serial_connection port baudrates w in
  exists attempts : list (list probe_call),
    fst plain = Ret tt
    /\ test_serial_connection port baudrates (w, log)
       = (Ret tt, (snd plain, log ++ List.concat attempts))
    /\ Forall2 (fun baud calls =>
                  exists (k : nat) (closed : bool),
                    calls = PortOpen port baud :: map PortWrite (firstn k test_commands)
                              ++ (if closed then [PortClose] else [])
                    /\ (k <= 5)%nat)
         baudrates attempts.
Proof.
  cbv zeta.
  destruct (recorded_test_serial_connection port baudrates w log)
    as (w' & attempts & E & Hall).
  destruct (@same_run_record _ _ _ _ _ _ _ _ _ _
              (same_test_serial_connection L port baudrates) E) as (Hret & Hw).
  exists attempts. rewrite <- Hw. split; [now rewrite Hret|]. split; [exact E | exact Hall].
Qed.

(** The attempts on a port that opens at every baud rate and accepts every
    write, by what waits to be read.  [Inv] is what stays true of the port
    from one call to the next. *)
Section Scenarios.
Variable Inv : W -> Prop.
Variable port : str.
Hypothesis opens : forall baud w0, Inv w0 ->
  exists ser w1, Serial port baud 2000 w0 = (Ret ser, w1) /\ Inv w1.
Hypothesis writes : forall ser data w0, Inv w0 ->
  exists n w1, write ser data w0 = (Ret n, w1) /\ Inv w1.
Hypothesis sleeps : forall ms w0, Inv w0 -> Inv (sleep ms w0).
Hypothesis closes : forall ser w0, Inv w0 -> Inv (close ser w0).

Lemma talkative_probe (baud : N) (w : W) (log : list probe_call) :
  (forall ser w0, Inv w0 -> exists n w1, in_waiting ser w0 = (Ret n, w1) /\ 0 < n /\ Inv w1) ->
  (forall ser n w0, 0 < n -> Inv w0 ->
     exists data w1, read ser n w0 = (Ret data, w1) /\ data <> [] /\ Inv w1) ->
  Inv w ->
  exists w',
    probe port baud (w, log)
    = (Ret tt, (w', log ++ [PortOpen port baud; PortWrite (B "VERSION" ++ [ascii_of_N 13; ascii_of_N 10]); PortClose]))
    /\ Inv w'.
Proof.
  intros Hwait Hread Hw.
  unfold probe, test_commands. cbn [command_loop].
  unfold bind, effect, ret.
  cbn [Serial in_waiting read write sleep close diag_recorded].
  unfold logged, unlogged, logged_effect, unlogged_effect. cbn [fst snd].
  destruct (opens baud Hw) as (ser & w1 & -> & Hw1). cbn [fst snd].
  destruct (Hwait ser _ (sleeps 500 Hw1)) as (n1 & w2 & -> & Hn1 & Hw2). cbn [fst snd].
  apply N.ltb_lt in Hn1. rewrite Hn1. cbn [fst snd].
  destruct (Hwait ser _ Hw2) as (n2 & w3 & -> & Hn2 & Hw3). cbn [fst snd].
  destruct (Hread ser n2 _ Hn2 Hw3) as (d1 & w4 & -> & _ & Hw4). cbn [fst snd].
  destruct (writes ser (B "VERSION" ++ [ascii_of_N 13; ascii_of_N 10]) Hw4)
    as (n3 & w5 & -> & Hw5). cbn [fst snd].
  destruct (Hwait ser _ (sleeps 300 Hw5)) as (n4 & w6 & -> & Hn4 & Hw6). cbn [fst snd].
  apply N.ltb_lt in Hn4. rewrite Hn4. cbn [fst snd].
  destruct (Hwait ser _ Hw6) as (n5 & w7 & -> & Hn5 & Hw7). cbn [fst snd].
  destruct (Hread ser n5 _ Hn5 Hw7) as (d2 & w8 & -> & Hd2 & Hw8). cbn [fst snd].
  destruct d2 as [|c d2]; [contradiction|]. cbn [List.length Nat.ltb Nat.leb fst snd].
  exists (close ser w8). repeat rewrite <- app_assoc. split; [reflexivity|].
  apply closes, Hw8.
Qed.

Lemma silent_probe (baud : N) (w : W) (log : list probe_call) :
  (forall ser w0, Inv w0 -> exists w1, in_waiting ser w0 = (Ret 0, w1) /\ Inv w1) ->
  Inv w ->
  exists w',
    probe port baud (w, log)
    = (Ret tt, (w', log ++ PortOpen port baud :: map PortWrite test_commands ++ [PortClose]))
    /\ Inv w'.
Proof.
  intros Hwait Hw.
  assert (Hloop : forall ser cmds w0 log0, Inv w0 ->
            exists w1, command_loop ser cmds (w0, log0)
                       = (Ret tt, (w1, log0 ++ map PortWrite cmds)) /\ Inv w1).
  { intros ser cmds. induction cmds as [|cmd cmds IH]; intros w0 log0 Hw0.
    - exists w0. cbn. rewrite app_nil_r. auto.
    - cbn [command_loop]. unfold bind, effect, ret.
      cbn [in_waiting read write sleep diag_recorded].
      unfold logged, unlogged, unlogged_effect. cbn [fst snd].
      destruct (writes ser cmd Hw0) as (n & w1 & -> & Hw1). cbn [fst snd].
      destruct (Hwait ser _ (sleeps 300 Hw1)) as (w2 & -> & Hw2). cbn [fst snd N.ltb N.compare].
      destruct (IH w2 (log0 ++ [PortWrite cmd]) Hw2) as (w3 & -> & Hw3).
      exists w3. rewrite <- app_assoc. auto. }
  unfold probe. unfold bind at 1 2 3 4, effect, ret.
  cbn [Serial in_waiting sleep close diag_recorded].
  unfold logged, unlogged, logged_effect, unlogged_effect. cbn [fst snd].
  destruct (opens baud Hw) as (ser & w1 & -> & Hw1). cbn [fst snd].
  destruct (Hwait ser _ (sleeps 500 Hw1)) as (w2 & -> & Hw2). cbn [fst snd N.ltb N.compare].
  unfold bind at 1.
  destruct (Hloop ser test_commands w2 (log ++ [PortOpen port baud]) Hw2) as (w3 & -> & Hw3).
  exists (close ser w3). cbn [fst snd]. repeat rewrite <- app_assoc. split; [reflexivity|].
  apply closes, Hw3.
Qed.

(** X20: a device that talks is asked one thing at every baud rate.  On a
    port that opens at every baud rate, accepts every write and always has
    bytes waiting, the read after [VERSION] ends the commands of the attempt,
    not the probe: at each baud rate of the list, in order, the port is
    opened, [VERSION] is written, nothing else, and the port is closed. *)
Theorem talkative_device_is_asked_once (baudrates : list N) (w : W) (log : list probe_call) :
  (forall ser w0, Inv w0 -> exists n w1, in_waiting ser w0 = (Ret n, w1) /\ 0 < n /\ Inv w1) ->
  (forall ser n w0, 0 < n -> Inv w0 ->
     exists data w1, read ser n w0 = (Ret data, w1) /\ data <> [] /\ Inv w1) ->
  Inv w ->
  exists w',
    test_serial_connection port baudrates (w, log)
    = (Ret tt,
       (w', log ++ flat_map
                     (fun baud =>
                        [PortOpen port baud;
                         PortWrite (B "VERSION" ++ [ascii_of_N 13; ascii_of_N 10]);
                         PortClose])
                     baudrates)).
Proof.
  intros Hwait Hread. revert w log.
  induction baudrates as [|baud baudrates IH]; intros w log Hw.
  - exists w. cbn. now rewrite app_nil_r.
  - destruct (talkative_probe baud log Hwait Hread Hw) as (w1 & E & Hw1).
    cbn [test_serial_connection]. unfold bind at 1, try_except. rewrite E.
    match goal with |- context [test_serial_connection port baudrates (w1, ?l)] =>
      destruct (IH w1 l Hw1) as (w2 & E2) end.
    exists w2. rewrite E2. cbn [flat_map]. now rewrite <- app_assoc.
Qed.

(** X21: a port on which nothing ever waits gets every command.  On a
    port that opens at every baud rate, accepts every write and never has a
    byte waiting, each attempt writes the five test commands, in the order of
    the source, and closes the port; nothing is read. *)
Theorem silent_port_gets_every_command (baudrates : list N) (w : W)
        (log : list probe_call) :
  (forall ser w0, Inv w0 -> exists w1, in_waiting ser w0 = (Ret 0, w1) /\ Inv w1) ->
  Inv w ->
  exists w',
    test_serial_connection port baudrates (w, log)
    = (Ret tt,
       (w', log ++ flat_map
                     (fun baud =>
                        PortOpen port baud :: map PortWrite test_commands ++ [PortClose])
                     baudrates)).
Proof.
  intros Hwait. revert w log.
  induction baudrates as [|baud baudrates IH]; intros w log Hw.
  - exists w. cbn. now rewrite app_nil_r.
  - destruct (silent_probe baud log Hwait Hw) as (w1 & E & Hw1).
    cbn [test_serial_connection]. unfold bind at 1, try_except. rewrite E.
    match goal with |- context [test_serial_connection port baudrates (w1, ?l)] =>
      destruct (IH w1 l Hw1) as (w2 & E2) end.
    exists w2. rewrite E2. cbn [flat_map]. now rewrite <- app_assoc.
Qed.

End Scenarios.

(** The record of a run of the diagnostic, by the choice of the port. *)
Lemma recorded_script (lower upper : str -> str) (isdigit : str -> bool)
        (int : str -> option Z) (w : W) (log : list probe_call) :
  exists (code : Z) (w' : W) (calls : list probe_call),
    script lower upper isdigit int (w, log) = (code, (w', log ++ calls))
    /\ match list_com_ports (fst (comports w)) with
       | None => code = 0%Z /\ calls = []
       | Some ports =>
           let answer := fst (input (snd (comports w))) in
           match select_port lower upper isdigit int ports
                   (port_loop lower keywords ports) answer with
           | Selected test_port =>
               code = 0%Z
               /\ exists attempts : list (list probe_call),
                    calls = List.concat attempts
                    /\ Forall2 (fun baud calls =>
                                  exists (k : nat) (closed : bool),
                                    calls = PortOpen test_port baud
                                              :: map PortWrite (firstn k test_commands)
                                              ++ (if closed then [PortClose] else [])
                                    /\ (k <= 5)%nat)
                         [9600; 115200; 57600; 38400] attempts
           | Failed _ => code = 1%Z /\ calls = []
           end
       end.
Proof.
  unfold script, main. cbn [comports input diag_recorded]. unfold unlogged_query.
  cbn [fst snd].
  destruct (comports w) as [enumerated w1]. cbn [fst snd].
  destruct enumerated as [|p0 rest]; cbn [list_com_ports].
  { destruct (input w1) as [answer w2]. exists 0%Z, w2, []. rewrite app_nil_r. auto. }
  cbn [detect_homebrew_port].
  destruct (input w1) as [answer w2]. cbn [fst snd].
  destruct (select_port lower upper isdigit int (p0 :: rest)
              (port_loop lower keywords (p0 :: rest)) answer) as [test_port|f].
  - destruct (recorded_test_serial_connection test_port default_baudrates w2 log)
      as (w3 & attempts & E & Hall).
    rewrite E. cbn [fst snd]. destruct (input w3) as [key w4]. cbn [fst snd].
    exists 0%Z, w4, (List.concat attempts). split; [reflexivity|]. split; [reflexivity|].
    exists attempts. split; [reflexivity | exact Hall].
  - cbn [fst snd]. destruct (input w2) as [key w3]. cbn [fst snd].
    exists 1%Z, w3, []. rewrite app_nil_r. auto.
Qed.

(** X22: the exit status of the diagnostic and what it opens.  With no
    port enumerated the script ends with status 0 and opens nothing.
    Otherwise the port is chosen from the answer typed: when the choice ends
    with an exception (the [IndexError] of a number beyond the list, the
    [ValueError] of [int]) the script opens no port and its status is 1;
    when a port is chosen the script probes that port at 9600, 115200, 57600
    and 38400 baud, in this order, and its status is 0 whatever the probes
    found. *)
Theorem script_exit_status (lower upper : str -> str) (isdigit : str -> bool)
        (int : str -> option Z) (w : W) (log : list probe_call) :
  let plain := script lower upper isdigit int w in
  exists calls : list probe_call,
    script lower upper isdigit int (w, log) = (fst plain, (snd plain, log ++ calls))
    /\ match list_com_ports (fst (comports w)) with
       | None => fst plain = 0%Z /\ calls = []
       | Some ports =>
           let answer := fst (input (snd (comports w))) in
           match select_port lower upper isdigit int ports
                   (port_loop lower keywords ports) answer with
           | Selected test_port =>
               fst plain = 0%Z
               /\ exists attempts : list (list probe_call),
                    calls = List.concat attempts
                    /\ Forall2 (fun baud calls =>
                                  exists (k : nat) (closed : bool),
                                    calls = PortOpen test_port baud
                                              :: map PortWrite (firstn k test_commands)
                                              ++ (if closed then [PortClose] else [])
                                    /\ (k <= 5)%nat)
                         [9600; 115200; 57600; 38400] attempts
           | Failed _ => fst plain = 1%Z /\ calls = []
           end
       end.
Proof.
  cbv zeta.
  destruct (recorded_script lower upper isdigit int w log) as (code & w' & calls & E & Hcase).
  destruct (same_script L lower upper isdigit int w log) as (log' & Hsame).
  pose proof E as E0. rewrite Hsame in E0. injection E0 as <- <- _.
  exists calls. split; [exact E | exact Hcase].
Qed.

End RecordedProbe.

(** ** The theorems with a premise, on the simulated device and line *)

Section SimulatedSession.
Import WifiBtGpsTest Simulation.

(** The check mark on the simulated device: [VERSION] is answered. *)
Lemma check_mark_is_a_reply_simulated :
  let self := with_tn (Some tt) (init unit (U "192.168.68.5") 2000) in
  let w := with_timeout 5000 (boot version_only true) in
  let st' := snd (send_command (U "VERSION") 500 (self, w)) in
  send_command (U "VERSION") 500 (self, w) = (Ret (U "v1.2.3"), st')
  /\ WifiBtGpsMain.status (U "v1.2.3") = true
  /\ exists (s : unit) (data : bytes) (n : N) (w1 : Sim) (raw : bytes) (w2 : Sim) (text : str),
       tn self = Some s
       /\ utf8_encode (U "VERSION" ++ crlf) = Some data
       /\ send s data w = (Ret n, w1)
       /\ recv s 1024 (sleep 500 w1) = (Ret raw, w2)
       /\ utf8_decode raw = Some text
       /\ U "v1.2.3" = strip text /\ U "v1.2.3" <> [] /\ st' = (self, w2).
Proof.
  cbv zeta.
  assert (Hsend : send_command (U "VERSION") 500
                    (with_tn (Some tt) (init unit (U "192.168.68.5") 2000),
                     with_timeout 5000 (boot version_only true))
                  = (Ret (U "v1.2.3"),
                     snd (send_command (U "VERSION") 500
                            (with_tn (Some tt) (init unit (U "192.168.68.5") 2000),
                             with_timeout 5000 (boot version_only true)))))
    by (vm_compute; reflexivity).
  split; [exact Hsend|]. split; [reflexivity|].
  exact (@check_mark_is_a_reply _ _ _ sim_lib (U "VERSION") 500 _ _ _ _ Hsend eq_refl).
Defined.

(** A second run on the simulated device, after a first. *)
Lemma second_run_replaces_in_place_simulated :
  let st0 := (init unit (U "192.168.68.5") 2000, boot version_only true) in
  let st := snd (run_all_tests st0) in
  let keys := [U "wifi_tests"; U "bluetooth_tests"; U "gps_tests"; U "usb_tests";
               U "device_tests"; U "test_duration"; U "test_timestamp"] in
  connect_telnet st = (Ret true, snd (connect_telnet st))
  /\ (forall k, In k keys -> In k (map fst (test_results (fst st))))
  /\ exists (r : results) (st' : tester unit * Sim),
       run_all_tests st = (Ret (Some r), st')
       /\ map fst r = map fst (test_results (fst st))
       /\ (forall k, ~ In k keys -> dict_get r k = dict_get (test_results (fst st)) k).
Proof.
  cbv zeta.
  assert (Hc : connect_telnet
                 (snd (run_all_tests (init unit (U "192.168.68.5") 2000,
                                      boot version_only true)))
               = (Ret true,
                  snd (connect_telnet
                         (snd (run_all_tests (init unit (U "192.168.68.5") 2000,
                                              boot version_only true))))))
    by (vm_compute; reflexivity).
  assert (Hkeys : forall k,
            In k [U "wifi_tests"; U "bluetooth_tests"; U "gps_tests"; U "usb_tests";
                  U "device_tests"; U "test_duration"; U "test_timestamp"] ->
            In k (map fst (test_results
                             (fst (snd (run_all_tests (init unit (U "192.168.68.5") 2000,
                                                       boot version_only true))))))).
  { intros k Hk. vm_compute. vm_compute in Hk. exact Hk. }
  split; [exact Hc|]. split; [exact Hkeys|].
  exact (@second_run_replaces_in_place _ _ _ sim_lib _ _ Hc Hkeys).
Defined.

(** A run on the simulated device, saved under the default name and read
    back. *)
Lemma run_save_load_simulated :
  let st := (init unit (U "192.168.68.5") 2000, boot version_only true) in
  let st1 := snd (run_all_tests st) in
  let r := test_results (fst st1) in
  let name := U "wifi_bt_gps_test_20240101_000010.json" in
  let st2 := snd (save_results None st1) in
  results_ok (test_results (fst st))
  /\ run_all_tests st = (Ret (Some r), st1)
  /\ save_results None st1 = (Ret name, st2)
  /\ load_results name st2 = (Ret (Some (json_of_results r)), st2)
  /\ test_results (fst st2) = r
  /\ NoDup (map fst r)
  /\ (forall r' : results, json_of_results r' = json_of_results r -> r' = r).
Proof.
  cbv zeta.
  assert (Hok : results_ok (test_results (fst (init unit (U "192.168.68.5") 2000,
                                               boot version_only true))))
    by (split; constructor).
  assert (Hrun : run_all_tests (init unit (U "192.168.68.5") 2000, boot version_only true)
                 = (Ret (Some (test_results
                                 (fst (snd (run_all_tests
                                              (init unit (U "192.168.68.5") 2000,
                                               boot version_only true)))))),
                    snd (run_all_tests (init unit (U "192.168.68.5") 2000,
                                        boot version_only true))))
    by (vm_compute; reflexivity).
  assert (Hsave : save_results None
                    (snd (run_all_tests (init unit (U "192.168.68.5") 2000,
                                         boot version_only true)))
                  = (Ret (U "wifi_bt_gps_test_20240101_000010.json"),
                     snd (save_results None
                            (snd (run_all_tests (init unit (U "192.168.68.5") 2000,
                                                 boot version_only true))))))
    by (vm_compute; reflexivity).
  split; [exact Hok|]. split; [exact Hrun|]. split; [exact Hsave|].
  exact (@run_save_load _ _ _ sim_lib sim_files_lib _ _ _ _ _ _ sim_texts_ok Hok Hrun Hsave).
Defined.

(** The summary of a run on a device on which every command times out. *)
Lemma summary_lists_every_test_simulated :
  let st := (init unit (U "192.168.68.5") 2000, boot mute true) in
  connect_telnet st = (Ret true, snd (connect_telnet st))
  /\ test_results (fst st) = []
  /\ exists (r : results) (st' : tester unit * Sim),
       run_all_tests st = (Ret (Some r), st')
       /\ map (fun row => (fst row, map (fun l => snd (fst l)) (snd row)))
            (WifiBtGpsMain.summary r)
          = suite_table
       /\ (forall suite lines, In (suite, lines) (WifiBtGpsMain.summary r) ->
             exists t, dict_get r suite = Some (Mapping t)
                       /\ lines = map (fun kv => (WifiBtGpsMain.status (snd kv), fst kv, snd kv)) t).
Proof.
  cbv zeta.
  assert (Hc : connect_telnet (init unit (U "192.168.68.5") 2000, boot mute true)
               = (Ret true,
                  snd (connect_telnet (init unit (U "192.168.68.5") 2000, boot mute true))))
    by reflexivity.
  split; [exact Hc|]. split; [reflexivity|].
  exact (@summary_lists_every_test _ _ _ sim_lib _ _ Hc eq_refl).
Defined.

(** The marks of that run and of a run on the device that answers
    [VERSION]: the one reply gets the only check. *)
Example summary_marks_simulated :
  let marks (device : bytes -> reply) :=
      match fst (run_all_tests (init unit (U "192.168.68.5") 2000, boot device true)) with
      | Ret (Some r) =>
          map (fun row => map (fun l => fst (fst l)) (snd row)) (WifiBtGpsMain.summary r)
      | _ => []
      end in
  marks mute = [[false; false; false; false; false]; [false; false; false];
                [false; false; false; false]; [false; false; false];
                [false; false; false; false]]
  /\ marks version_only = [[false; false; false; false; false]; [false; false; false];
                           [false; false; false; false]; [false; false; false];
                           [true; false; false; false]].
Proof. split; vm_compute; reflexivity. Qed.

End SimulatedSession.

Section SilentLine.
Import TelescopeComm MountScript.

(** The silent serial line, scripted: every write is accepted and every
    [readline] returns no byte. *)
Lemma silent_serial_line_passes_test_scripted :
  let self := with_connected true (with_serial (Some tt) (init unit unit None 2000 5000)) in
  let w := {| on_write := Ret tt; on_telnet_read := Ret []; on_serial_read := Ret [];
              written := [] |} in
  (exists w', test_connection (self, w) = (Ret true, (self, w')))
  /\ (exists w', get_mount_info (self, w) = (Ret [], (self, w'))).
Proof.
  cbv zeta.
  refine (@silent_serial_line_passes_test _ _ _ line_lib
            (fun w0 => on_write w0 = Ret tt /\ on_serial_read w0 = Ret [])
            (with_connected true (with_serial (Some tt) (init unit unit None 2000 5000)))
            tt
            {| on_write := Ret tt; on_telnet_read := Ret []; on_serial_read := Ret [];
               written := [] |}
            eq_refl eq_refl eq_refl _ _ _ (conj eq_refl eq_refl)).
  - intros data w0 [Hw Hr]. eexists _, _. cbn [serial_write line_lib on_write on_serial_read].
    rewrite Hw. split; [reflexivity|]. split; [reflexivity | exact Hr].
  - intros w0 [Hw Hr]. exists w0. cbn [serial_readline line_lib]. rewrite Hr.
    split; [reflexivity|]. split; [exact Hw | reflexivity].
  - intros ms w0 Hw0. exact Hw0.
Defined.

End SilentLine.

Section ScriptedPort.
Import DiagnoseMain Recorded Bench.

(** The talkative device, scripted: two bytes always wait. *)
Lemma talkative_device_is_asked_once_scripted :
  let w := {| waiting := B "OK" |} in
  exists w',
    test_serial_connection (U "COM3") default_baudrates (w, [])
    = (Ret tt,
       (w', [] ++ flat_map
                    (fun baud =>
                       [PortOpen (U "COM3") baud;
                        PortWrite (B "VERSION" ++ [ascii_of_N 13; ascii_of_N 10]);
                        PortClose])
                    default_baudrates)).
Proof.
  cbv zeta.
  refine (@talkative_device_is_asked_once _ _ bench_lib
            (fun w0 => waiting w0 = B "OK") (U "COM3") _ _ _ _
            default_baudrates {| waiting := B "OK" |} [] _ _ eq_refl).
  - intros baud w0 Hw0. exists tt, w0. split; [reflexivity | exact Hw0].
  - intros ser data w0 Hw0. eexists _, w0. split; [reflexivity | exact Hw0].
  - intros ms w0 Hw0. exact Hw0.
  - intros ser w0 Hw0. exact Hw0.
  - intros ser w0 Hw0. eexists _, w0. cbn [in_waiting bench_lib]. rewrite Hw0.
    split; [reflexivity|]. split; [reflexivity | reflexivity].
  - intros ser n w0 Hn Hw0. eexists _, w0. cbn [read bench_lib]. rewrite Hw0.
    split; [reflexivity|]. split; [|reflexivity].
    destruct (N.to_nat n) as [|m] eqn:Em; [lia | discriminate].
Defined.

(** The silent port, scripted: nothing ever waits. *)
Lemma silent_port_gets_every_command_scripted :
  let w := {| waiting := [] |} in
  exists w',
    test_serial_connection (U "COM3") default_baudrates (w, [])
    = (Ret tt,
       (w', [] ++ flat_map
                    (fun baud =>
                       PortOpen (U "COM3") baud :: map PortWrite test_commands ++ [PortClose])
                    default_baudrates)).
Proof.
  cbv zeta.
  refine (@silent_port_gets_every_command _ _ bench_lib
            (fun w0 => waiting w0 = []) (U "COM3") _ _ _ _
            default_baudrates {| waiting := [] |} [] _ eq_refl).
  - intros baud w0 Hw0. exists tt, w0. split; [reflexivity | exact Hw0].
  - intros ser data w0 Hw0. eexists _, w0. split; [reflexivity | exact Hw0].
  - intros ms w0 Hw0. exact Hw0.
  - intros ser w0 Hw0. exact Hw0.
  - intros ser w0 Hw0. exists w0. cbn [in_waiting bench_lib]. rewrite Hw0.
    split; reflexivity.
Defined.

End ScriptedPort.
